(** * California Climate Farmer: the simulation core of [game.js]

    A shallow embedding of the class [CaliforniaClimateFarmer] and the
    properties of its clock, economy, event scheduler, sustainability scorer
    and player actions.

    Modelling conventions.
    - The game object [this] is the record [State]; every method is a
      function that takes the state and returns the new one.
    - JavaScript numbers are exact rationals ([Q]); amounts of money, days,
      years and the results of [Math.round]/[Math.floor] are integers ([Z]).
      A double can differ from the exact value in its last bit, which
      matters only next to a rounding boundary; bounds on a rounded random
      amount are stated with the end that such a double can reach.
    - [Math.random] and whatever else the collaborators keep hidden is the
      abstract [World], threaded through every call that may touch it.
    - The collaborators that [game.js] imports ([cell.js], [crops.js],
      [technology.js], [events.js], [utils.js]) are interfaces (type classes);
      a collaborator that receives a mutable object returns the updated one.
    - The presentation calls ([this.ui.*], [this.logger.*]) return nothing
      and are left out. *)

From Stdlib Require Import ZArith QArith Qround Qminmax Lia Lqa DecimalString.
From stdpp Require Import base strings list gmap.

Open Scope Z_scope.

(** ** Numbers *)

(** [Math.round]: the nearest integer, halves towards plus infinity. *)
Definition js_round (x : Q) : Z := Qfloor (x + (1 # 2)).

(** [Math.floor]. *)
Definition js_floor (x : Q) : Z := Qfloor x.

(** An integer inside a template literal. *)
Definition show_Z (z : Z) : string := NilZero.string_of_int (Z.to_int z).

Definition show_nat (n : nat) : string := show_Z (Z.of_nat n).

(** A rounded score that may be [Infinity] (a division by zero). *)
Inductive Score :=
  | Finite (z : Z)
  | Infinite.

(** [score >= k]. *)
Definition score_ge (s : Score) (k : Z) : bool :=
  match s with
  | Finite z => k <=? z
  | Infinite => true
  end.

(** ** Seasons *)

Inductive Season := Spring | Summer | Fall | Winter.

#[global] Instance Season_eq_dec : EqDecision Season.
Proof. solve_decision. Defined.

Definition seasons : list Season := [Spring; Summer; Fall; Winter].

Definition seasonName (s : Season) : string :=
  match s with
  | Spring => "Spring"
  | Summer => "Summer"
  | Fall => "Fall"
  | Winter => "Winter"
  end.

(** [array.indexOf(x)]: the first index of [x], or -1. *)
Fixpoint indexOf `{EqDecision A} (x : A) (l : list A) : Z :=
  match l with
  | [] => -1
  | y :: l' =>
      if decide (y = x) then 0
      else let i := indexOf x l' in if i <? 0 then -1 else i + 1
  end.

(** [seasons[(currentIndex + 1) % 4]]. *)
Definition nextSeason (s : Season) : Season :=
  let currentIndex := indexOf s seasons in
  default Spring (seasons !! Z.to_nat (Z.rem (currentIndex + 1) 4)).

(** ** Data *)

Record Crop := {
  crop_id : string;
  crop_name : string;
  basePrice : Q
}.

Record Technology := {
  tech_id : string;
  tech_name : string;
  tech_cost : Z;
  prerequisites : list string;
  effects : gmap string Q;
  researched : bool
}.

Record Climate := {
  avgTemp : Q;
  rainfall : Q;
  droughtProbability : Q;
  floodProbability : Q;
  heatwaveProbability : Q
}.

(** One entry of [this.events]. *)
Record LogEntry := {
  date : string;
  message : string;
  isAlert : bool
}.

(** The results of the handlers of [events.js]. *)
Record RainResult := {
  rain_waterReserve : Q;
  rain_message : string
}.

(** The result of [applyDroughtEvent] and of [applyHeatwaveEvent]. *)
Record WeatherResult := {
  skipped : bool;
  wr_waterReserve : Q;
  wr_message : string;
  continueEvent : bool;
  nextDuration : Q;
  wr_severity : Q
}.

Record FrostResult := {
  frost_message : string
}.

Record MarketResult := {
  mr_marketPrices : gmap string Q;
  mr_message : string
}.

Record PolicyResult := {
  pr_newBalance : Z;
  pr_balanceChange : Z;
  pr_message : string
}.

Record TechResult := {
  tr_newBalance : Z;
  tr_message : string
}.

(** The result of [cell.harvest]. *)
Record HarvestResult := {
  hr_value : Z;
  hr_cropName : string;
  hr_yieldPercentage : Z
}.

(** ** The game and its collaborators *)

Section Game.

(** The hidden state of the runtime ([Math.random]), the private part of a
    [Cell] and the payload of an event that only [events.js] reads. *)
Context {World CellState Payload : Type}.

(** The fields of a [Cell] that [game.js] reads or writes. *)
Record Cell := {
  crop : Crop;
  soilHealth : Q;
  irrigated : bool;
  fertilized : bool;
  harvestReady : bool;
  consecutivePlantings : Z;
  expectedYield : Q;
  cell_state : CellState
}.

Definition set_soilHealth (v : Q) (c : Cell) : Cell :=
  {| crop := crop c; soilHealth := v; irrigated := irrigated c;
     fertilized := fertilized c; harvestReady := harvestReady c;
     consecutivePlantings := consecutivePlantings c;
     expectedYield := expectedYield c; cell_state := cell_state c |}.

Definition set_expectedYield (v : Q) (c : Cell) : Cell :=
  {| crop := crop c; soilHealth := soilHealth c; irrigated := irrigated c;
     fertilized := fertilized c; harvestReady := harvestReady c;
     consecutivePlantings := consecutivePlantings c;
     expectedYield := v; cell_state := cell_state c |}.

(** [this.grid]: rows of cells. *)
Definition Grid := list (list Cell).

(** An entry of [this.pendingEvents]: its tag, its trigger day, and the
    fields that the continuation of a drought or heatwave carries. *)
Record Event := {
  ev_type : string;
  ev_day : Z;
  ev_duration : option Q;
  ev_severity : option Q;
  ev_message : string;
  ev_isAlert : bool;
  ev_payload : option Payload
}.

(** The snapshot handed to [Events.generateRandomEvent]. *)
Record FarmState := {
  fs_climate : Climate;
  fs_day : Z;
  fs_season : Season;
  fs_waterReserve : Q;
  fs_farmHealth : Q;
  fs_balance : Z;
  fs_researchedTechs : list string
}.

(** [Math.random()]. *)
Class Runtime := {
  random : World -> Q * World
}.

(** [cell.js]: the methods of a [Cell]; each returns the cell it mutated. *)
Class CellModule := {
  newCell : World -> Cell * World;
  cell_update : Cell -> Q -> list string -> World -> string * Cell * World;
  cell_plant : Cell -> Crop -> World -> Cell * World;
  cell_irrigate : Cell -> Q -> World -> Cell * World;
  cell_fertilize : Cell -> Q -> World -> Cell * World;
  cell_harvest : Cell -> Q -> Q -> World -> HarvestResult * Cell * World
}.

(** [crops.js]. *)
Class CropsModule := {
  crops : list Crop;
  getCropById : string -> option Crop
}.

(** [technology.js]. *)
Class TechnologyModule := {
  createTechnologyTree : list Technology;
  checkTechPrerequisites : Technology -> list string -> bool;
  getTechEffectValue : string -> list string -> Q -> Q
}.

(** [utils.js]. *)
Class UtilsModule := {
  calculateFarmHealth : Grid -> Q -> Q;
  calculateFarmValue : Grid -> list Technology -> Q
}.

(** [events.js]: the generators and the handlers. *)
Class EventsModule := {
  scheduleDrought : Z -> Q -> World -> Event * World;
  scheduleHeatwave : Z -> World -> Event * World;
  scheduleFrost : Z -> World -> Event * World;
  scheduleRain : Z -> World -> Event * World;
  generatePolicyEvent : Z -> Q -> World -> Event * World;
  generateRandomEvent : FarmState -> World -> option Event * World;
  applyRainEvent :
    Event -> Grid -> Q -> list string -> World -> RainResult * Grid * World;
  applyDroughtEvent :
    Event -> Grid -> Q -> list string -> World -> WeatherResult * Grid * World;
  applyHeatwaveEvent :
    Event -> Grid -> Q -> list string -> World -> WeatherResult * Grid * World;
  applyFrostEvent :
    Event -> Grid -> list string -> World -> FrostResult * Grid * World;
  applyMarketEvent :
    Event -> gmap string Q -> list Crop -> World -> MarketResult * World;
  applyPolicyEvent : Event -> Z -> World -> PolicyResult * World;
  applyTechnologyEvent :
    Event -> Z -> list string -> World -> TechResult * list string * World
}.

Context `{Runtime} `{CellModule} `{CropsModule} `{TechnologyModule}
  `{UtilsModule} `{EventsModule}.

(** The game object. *)
Record State := {
  day : Z;
  year : Z;
  season : Season;
  seasonDay : Z;
  balance : Z;
  farmValue : Q;
  farmHealth : Q;
  waterReserve : Q;
  paused : bool;
  overheadCostPerCell : Z;
  annualInflationRate : Q;
  gridSize : nat;
  grid : Grid;
  technologies : list Technology;
  researchedTechs : list string;
  events : list LogEntry;
  pendingEvents : list Event;
  marketPrices : gmap string Q;
  climate : Climate;
  testMode : bool;
  autoTerminate : bool;
  testEndYear : Z;
  world : World
}.

(** Assignments to the fields of [this]. *)
Definition set_day (v : Z) (s : State) : State :=
  {| day := v; year := year s; season := season s; seasonDay := seasonDay s;
     balance := balance s; farmValue := farmValue s;
     farmHealth := farmHealth s; waterReserve := waterReserve s;
     paused := paused s; overheadCostPerCell := overheadCostPerCell s;
     annualInflationRate := annualInflationRate s; gridSize := gridSize s;
     grid := grid s; technologies := technologies s;
     researchedTechs := researchedTechs s; events := events s;
     pendingEvents := pendingEvents s; marketPrices := marketPrices s;
     climate := climate s; testMode := testMode s;
     autoTerminate := autoTerminate s; testEndYear := testEndYear s;
     world := world s |}.

Definition set_year (v : Z) (s : State) : State :=
  {| day := day s; year := v; season := season s; seasonDay := seasonDay s;
     balance := balance s; farmValue := farmValue s;
     farmHealth := farmHealth s; waterReserve := waterReserve s;
     paused := paused s; overheadCostPerCell := overheadCostPerCell s;
     annualInflationRate := annualInflationRate s; gridSize := gridSize s;
     grid := grid s; technologies := technologies s;
     researchedTechs := researchedTechs s; events := events s;
     pendingEvents := pendingEvents s; marketPrices := marketPrices s;
     climate := climate s; testMode := testMode s;
     autoTerminate := autoTerminate s; testEndYear := testEndYear s;
     world := world s |}.

Definition set_season (v : Season) (s : State) : State :=
  {| day := day s; year := year s; season := v; seasonDay := seasonDay s;
     balance := balance s; farmValue := farmValue s;
     farmHealth := farmHealth s; waterReserve := waterReserve s;
     paused := paused s; overheadCostPerCell := overheadCostPerCell s;
     annualInflationRate := annualInflationRate s; gridSize := gridSize s;
     grid := grid s; technologies := technologies s;
     researchedTechs := researchedTechs s; events := events s;
     pendingEvents := pendingEvents s; marketPrices := marketPrices s;
     climate := climate s; testMode := testMode s;
     autoTerminate := autoTerminate s; testEndYear := testEndYear s;
     world := world s |}.

Definition set_seasonDay (v : Z) (s : State) : State :=
  {| day := day s; year := year s; season := season s; seasonDay := v;
     balance := balance s; farmValue := farmValue s;
     farmHealth := farmHealth s; waterReserve := waterReserve s;
     paused := paused s; overheadCostPerCell := overheadCostPerCell s;
     annualInflationRate := annualInflationRate s; gridSize := gridSize s;
     grid := grid s; technologies := technologies s;
     researchedTechs := researchedTechs s; events := events s;
     pendingEvents := pendingEvents s; marketPrices := marketPrices s;
     climate := climate s; testMode := testMode s;
     autoTerminate := autoTerminate s; testEndYear := testEndYear s;
     world := world s |}.

Definition set_balance (v : Z) (s : State) : State :=
  {| day := day s; year := year s; season := season s;
     seasonDay := seasonDay s; balance := v; farmValue := farmValue s;
     farmHealth := farmHealth s; waterReserve := waterReserve s;
     paused := paused s; overheadCostPerCell := overheadCostPerCell s;
     annualInflationRate := annualInflationRate s; gridSize := gridSize s;
     grid := grid s; technologies := technologies s;
     researchedTechs := researchedTechs s; events := events s;
     pendingEvents := pendingEvents s; marketPrices := marketPrices s;
     climate := climate s; testMode := testMode s;
     autoTerminate := autoTerminate s; testEndYear := testEndYear s;
     world := world s |}.

Definition set_farmValue (v : Q) (s : State) : State :=
  {| day := day s; year := year s; season := season s;
     seasonDay := seasonDay s; balance := balance s; farmValue := v;
     farmHealth := farmHealth s; waterReserve := waterReserve s;
     paused := paused s; overheadCostPerCell := overheadCostPerCell s;
     annualInflationRate := annualInflationRate s; gridSize := gridSize s;
     grid := grid s; technologies := technologies s;
     researchedTechs := researchedTechs s; events := events s;
     pendingEvents := pendingEvents s; marketPrices := marketPrices s;
     climate := climate s; testMode := testMode s;
     autoTerminate := autoTerminate s; testEndYear := testEndYear s;
     world := world s |}.

Definition set_farmHealth (v : Q) (s : State) : State :=
  {| day := day s; year := year s; season := season s;
     seasonDay := seasonDay s; balance := balance s;
     farmValue := farmValue s; farmHealth := v;
     waterReserve := waterReserve s; paused := paused s;
     overheadCostPerCell := overheadCostPerCell s;
     annualInflationRate := annualInflationRate s; gridSize := gridSize s;
     grid := grid s; technologies := technologies s;
     researchedTechs := researchedTechs s; events := events s;
     pendingEvents := pendingEvents s; marketPrices := marketPrices s;
     climate := climate s; testMode := testMode s;
     autoTerminate := autoTerminate s; testEndYear := testEndYear s;
     world := world s |}.

Definition set_waterReserve (v : Q) (s : State) : State :=
  {| day := day s; year := year s; season := season s;
     seasonDay := seasonDay s; balance := balance s;
     farmValue := farmValue s; farmHealth := farmHealth s; waterReserve := v;
     paused := paused s; overheadCostPerCell := overheadCostPerCell s;
     annualInflationRate := annualInflationRate s; gridSize := gridSize s;
     grid := grid s; technologies := technologies s;
     researchedTechs := researchedTechs s; events := events s;
     pendingEvents := pendingEvents s; marketPrices := marketPrices s;
     climate := climate s; testMode := testMode s;
     autoTerminate := autoTerminate s; testEndYear := testEndYear s;
     world := world s |}.

Definition set_paused (v : bool) (s : State) : State :=
  {| day := day s; year := year s; season := season s;
     seasonDay := seasonDay s; balance := balance s;
     farmValue := farmValue s; farmHealth := farmHealth s;
     waterReserve := waterReserve s; paused := v;
     overheadCostPerCell := overheadCostPerCell s;
     annualInflationRate := annualInflationRate s; gridSize := gridSize s;
     grid := grid s; technologies := technologies s;
     researchedTechs := researchedTechs s; events := events s;
     pendingEvents := pendingEvents s; marketPrices := marketPrices s;
     climate := climate s; testMode := testMode s;
     autoTerminate := autoTerminate s; testEndYear := testEndYear s;
     world := world s |}.

Definition set_overheadCostPerCell (v : Z) (s : State) : State :=
  {| day := day s; year := year s; season := season s;
     seasonDay := seasonDay s; balance := balance s;
     farmValue := farmValue s; farmHealth := farmHealth s;
     waterReserve := waterReserve s; paused := paused s;
     overheadCostPerCell := v; annualInflationRate := annualInflationRate s;
     gridSize := gridSize s; grid := grid s; technologies := technologies s;
     researchedTechs := researchedTechs s; events := events s;
     pendingEvents := pendingEvents s; marketPrices := marketPrices s;
     climate := climate s; testMode := testMode s;
     autoTerminate := autoTerminate s; testEndYear := testEndYear s;
     world := world s |}.

Definition set_grid (v : Grid) (s : State) : State :=
  {| day := day s; year := year s; season := season s;
     seasonDay := seasonDay s; balance := balance s;
     farmValue := farmValue s; farmHealth := farmHealth s;
     waterReserve := waterReserve s; paused := paused s;
     overheadCostPerCell := overheadCostPerCell s;
     annualInflationRate := annualInflationRate s; gridSize := gridSize s;
     grid := v; technologies := technologies s;
     researchedTechs := researchedTechs s; events := events s;
     pendingEvents := pendingEvents s; marketPrices := marketPrices s;
     climate := climate s; testMode := testMode s;
     autoTerminate := autoTerminate s; testEndYear := testEndYear s;
     world := world s |}.

Definition set_technologies (v : list Technology) (s : State) : State :=
  {| day := day s; year := year s; season := season s;
     seasonDay := seasonDay s; balance := balance s;
     farmValue := farmValue s; farmHealth := farmHealth s;
     waterReserve := waterReserve s; paused := paused s;
     overheadCostPerCell := overheadCostPerCell s;
     annualInflationRate := annualInflationRate s; gridSize := gridSize s;
     grid := grid s; technologies := v; researchedTechs := researchedTechs s;
     events := events s; pendingEvents := pendingEvents s;
     marketPrices := marketPrices s; climate := climate s;
     testMode := testMode s; autoTerminate := autoTerminate s;
     testEndYear := testEndYear s; world := world s |}.

Definition set_researchedTechs (v : list string) (s : State) : State :=
  {| day := day s; year := year s; season := season s;
     seasonDay := seasonDay s; balance := balance s;
     farmValue := farmValue s; farmHealth := farmHealth s;
     waterReserve := waterReserve s; paused := paused s;
     overheadCostPerCell := overheadCostPerCell s;
     annualInflationRate := annualInflationRate s; gridSize := gridSize s;
     grid := grid s; technologies := technologies s; researchedTechs := v;
     events := events s; pendingEvents := pendingEvents s;
     marketPrices := marketPrices s; climate := climate s;
     testMode := testMode s; autoTerminate := autoTerminate s;
     testEndYear := testEndYear s; world := world s |}.

Definition set_events (v : list LogEntry) (s : State) : State :=
  {| day := day s; year := year s; season := season s;
     seasonDay := seasonDay s; balance := balance s;
     farmValue := farmValue s; farmHealth := farmHealth s;
     waterReserve := waterReserve s; paused := paused s;
     overheadCostPerCell := overheadCostPerCell s;
     annualInflationRate := annualInflationRate s; gridSize := gridSize s;
     grid := grid s; technologies := technologies s;
     researchedTechs := researchedTechs s; events := v;
     pendingEvents := pendingEvents s; marketPrices := marketPrices s;
     climate := climate s; testMode := testMode s;
     autoTerminate := autoTerminate s; testEndYear := testEndYear s;
     world := world s |}.

Definition set_pendingEvents (v : list Event) (s : State) : State :=
  {| day := day s; year := year s; season := season s;
     seasonDay := seasonDay s; balance := balance s;
     farmValue := farmValue s; farmHealth := farmHealth s;
     waterReserve := waterReserve s; paused := paused s;
     overheadCostPerCell := overheadCostPerCell s;
     annualInflationRate := annualInflationRate s; gridSize := gridSize s;
     grid := grid s; technologies := technologies s;
     researchedTechs := researchedTechs s; events := events s;
     pendingEvents := v; marketPrices := marketPrices s;
     climate := climate s; testMode := testMode s;
     autoTerminate := autoTerminate s; testEndYear := testEndYear s;
     world := world s |}.

Definition set_marketPrices (v : gmap string Q) (s : State) : State :=
  {| day := day s; year := year s; season := season s;
     seasonDay := seasonDay s; balance := balance s;
     farmValue := farmValue s; farmHealth := farmHealth s;
     waterReserve := waterReserve s; paused := paused s;
     overheadCostPerCell := overheadCostPerCell s;
     annualInflationRate := annualInflationRate s; gridSize := gridSize s;
     grid := grid s; technologies := technologies s;
     researchedTechs := researchedTechs s; events := events s;
     pendingEvents := pendingEvents s; marketPrices := v;
     climate := climate s; testMode := testMode s;
     autoTerminate := autoTerminate s; testEndYear := testEndYear s;
     world := world s |}.

Definition set_climate (v : Climate) (s : State) : State :=
  {| day := day s; year := year s; season := season s;
     seasonDay := seasonDay s; balance := balance s;
     farmValue := farmValue s; farmHealth := farmHealth s;
     waterReserve := waterReserve s; paused := paused s;
     overheadCostPerCell := overheadCostPerCell s;
     annualInflationRate := annualInflationRate s; gridSize := gridSize s;
     grid := grid s; technologies := technologies s;
     researchedTechs := researchedTechs s; events := events s;
     pendingEvents := pendingEvents s; marketPrices := marketPrices s;
     climate := v; testMode := testMode s; autoTerminate := autoTerminate s;
     testEndYear := testEndYear s; world := world s |}.

Definition set_world (v : World) (s : State) : State :=
  {| day := day s; year := year s; season := season s;
     seasonDay := seasonDay s; balance := balance s;
     farmValue := farmValue s; farmHealth := farmHealth s;
     waterReserve := waterReserve s; paused := paused s;
     overheadCostPerCell := overheadCostPerCell s;
     annualInflationRate := annualInflationRate s; gridSize := gridSize s;
     grid := grid s; technologies := technologies s;
     researchedTechs := researchedTechs s; events := events s;
     pendingEvents := pendingEvents s; marketPrices := marketPrices s;
     climate := climate s; testMode := testMode s;
     autoTerminate := autoTerminate s; testEndYear := testEndYear s;
     world := v |}.


(** ** Helpers of the embedding *)

(** [x < y] on numbers. *)
Definition Q_ltb (x y : Q) : bool := negb (Qle_bool y x).

(** One call of [Math.random()]. *)
Definition nextRandom (s : State) : Q * State :=
  let '(r, w) := random (world s) in (r, set_world w s).

(** [this.pendingEvents.push(event)]. *)
Definition pushPending (e : Event) (s : State) : State :=
  set_pendingEvents (pendingEvents s ++ [e]) s.

(** [this.pendingEvents.push(Events.scheduleX(...))]. *)
Definition pushScheduled (gen : World -> Event * World) (s : State) : State :=
  let '(e, w) := gen (world s) in pushPending e (set_world w s).

(** [if (Math.random() < threshold) { action }]. *)
Definition chance (threshold : Q) (action : State -> State) (s : State)
    : State :=
  let '(r, s) := nextRandom s in
  if Q_ltb r threshold then action s else s.

(** The water recovery of a season change:
    [recovery = Math.floor(base + Math.random() * range)] is added to
    [this.waterReserve], capped at 100. Returns [recovery]. The floor is
    taken of the exact sum, which stays below [base + range]; the sum of
    doubles can round up to [base + range] for a draw next to 1. *)
Definition recoverWater (base range : Q) (s : State) : Z * State :=
  let '(r, s) := nextRandom s in
  let recovery := js_floor (base + r * range) in
  (recovery,
   set_waterReserve (Qmin 100 (waterReserve s + inject_Z recovery)) s).

(** [this.grid[row][col]], when both indices are in range. *)
Definition gridCell (g : Grid) (row col : nat) : option Cell :=
  g !! row ≫= (.!! col).

(** ** The event log *)

(** [addEvent(message, isAlert = false)]: [unshift] the entry, then [pop]
    the oldest one when the log holds more than 20. *)
Definition addEvent (msg : string) (alert : bool) (s : State) : State :=
  let event :=
    {| date := seasonName (season s) +:+ ", Year " +:+ show_Z (year s);
       message := msg;
       isAlert := alert |} in
  let evs := event :: events s in
  set_events (if 20 <? Z.of_nat (length evs) then removelast evs else evs) s.

(** [hasTechnology(techId)]: [this.researchedTechs.includes(techId)]. *)
Definition hasTechnology (techId : string) (s : State) : bool :=
  bool_decide (techId ∈ researchedTechs s).

(** ** Daily overhead *)

Definition payDailyOverhead (s : State) : State :=
  let totalCells := Z.of_nat (gridSize s * gridSize s) in
  let overhead := totalCells * overheadCostPerCell s in
  if overhead <=? balance s then
    set_balance (balance s - overhead) s
  else
    addEvent ("You went into debt paying overhead: -$" +:+ show_Z overhead) true
      (set_balance (balance s - overhead) s).

(** ** The farm update *)

(** The loops of [updateFarm] run over [row, col < gridSize]; [initializeGrid]
    builds [gridSize] rows of [gridSize] cells and nothing resizes the grid,
    so they are the row-major traversal of the grid. The traversal returns
    the updated cells and [harvestReadyCells]. *)
Fixpoint updateRow (row col : nat) (cells : list Cell) (water : Q)
    (techs : list string) (w : World) : list Cell * list (nat * nat) * World :=
  match cells with
  | [] => ([], [], w)
  | cell :: rest =>
      let '(result, cell', w1) := cell_update cell water techs w in
      let '(rest', ready, w2) := updateRow row (S col) rest water techs w1 in
      (cell' :: rest',
       (if String.eqb result "harvest-ready" then [(row, col)] else []) ++ ready,
       w2)
  end.

Fixpoint updateRows (row : nat) (rows : Grid) (water : Q)
    (techs : list string) (w : World) : Grid * list (nat * nat) * World :=
  match rows with
  | [] => ([], [], w)
  | cells :: rest =>
      let '(cells', ready1, w1) := updateRow row 0 cells water techs w in
      let '(rest', ready2, w2) := updateRows (S row) rest water techs w1 in
      (cells' :: rest', ready1 ++ ready2, w2)
  end.

(** The body of [harvestReadyCells.forEach]; the positions come from the
    traversal, so the cell is there. *)
Definition announceHarvest (s : State) (pos : nat * nat) : State :=
  let '(row, col) := pos in
  match gridCell (grid s) row col with
  | Some cell =>
      addEvent (crop_name (crop cell) +:+ " at row " +:+ show_nat (row + 1)
                +:+ ", column " +:+ show_nat (col + 1)
                +:+ " is ready for harvest!") false s
  | None => s
  end.

Definition updateFarm (s : State) : State :=
  let '(g, harvestReadyCells, w) :=
    updateRows 0 (grid s) (waterReserve s) (researchedTechs s) (world s) in
  let s := set_world w (set_grid g s) in
  fold_left announceHarvest harvestReadyCells s.

(** ** Market prices *)

(** The body of [crops.forEach] in [fluctuateMarketPrices]. The table of
    the model holds numbers only. For a crop without a price the code
    multiplies [undefined], clamps the [NaN] and stores it under the crop's
    id; [this.marketPrices[id] || 1.0], the one place where [game.js] reads
    a price, takes [NaN] and [undefined] alike, and the model leaves the
    entry absent. The constructor prices every crop but the empty one. *)
Definition fluctuatePrice (s : State) (c : Crop) : State :=
  if String.eqb (crop_id c) "empty" then s
  else
    let '(r, s) := nextRandom s in
    let change := (0.9 + r * 0.2)%Q in
    match marketPrices s !! crop_id c with
    | Some p =>
        set_marketPrices
          (<[crop_id c := Qmax 0.5 (Qmin 2.0 (p * change))]> (marketPrices s)) s
    | None => s
    end.

Definition fluctuateMarketPrices (s : State) : State :=
  fold_left fluctuatePrice crops s.

(** [updateMarketPrices], called by the constructor. *)
Definition initPrice (s : State) (c : Crop) : State :=
  if String.eqb (crop_id c) "empty" then s
  else
    let '(r, s) := nextRandom s in
    set_marketPrices (<[crop_id c := (0.8 + r * 0.4)%Q]> (marketPrices s)) s.

Definition updateMarketPrices (s : State) : State :=
  fold_left initPrice crops s.

(** ** Season change *)

Definition advanceSeason (s : State) : State :=
  let s := set_season (nextSeason (season s)) s in
  let s := addEvent ("Season changed to " +:+ seasonName (season s)) false s in
  let s := fluctuateMarketPrices s in
  let s :=
    match season s with
    | Summer =>
        let s :=
          chance 0.3
            (fun s =>
               pushScheduled
                 (scheduleDrought (day s) (droughtProbability (climate s))) s)
            s in
        chance 0.4 (fun s => pushScheduled (scheduleHeatwave (day s)) s) s
    | Winter =>
        let s :=
          chance 0.3 (fun s => pushScheduled (scheduleFrost (day s)) s) s in
        let '(winterRecovery, s) := recoverWater 5 10 s in
        if 5 <? winterRecovery then
          addEvent ("Winter precipitation replenished "
                    +:+ show_Z winterRecovery +:+ "% of water reserves.") false s
        else s
    | Spring =>
        let s :=
          chance 0.4 (fun s => pushScheduled (scheduleRain (day s)) s) s in
        let '(springRecovery, s) := recoverWater 10 15 s in
        addEvent ("Spring rains replenished "
                  +:+ show_Z springRecovery +:+ "% of water reserves.") false s
    | Fall =>
        let s :=
          chance 0.3 (fun s => pushScheduled (scheduleRain (day s)) s) s in
        let s :=
          chance 0.2 (fun s => pushScheduled (scheduleHeatwave (day s)) s) s in
        let '(fallRecovery, s) := recoverWater 5 10 s in
        if 5 <? fallRecovery then
          addEvent ("Fall weather replenished "
                    +:+ show_Z fallRecovery +:+ "% of water reserves.") false s
        else s
    end in
  if hasTechnology "greenhouse" s
     && (bool_decide (season s = Winter) || bool_decide (season s = Summer))
  then
    addEvent "Greenhouse technology is protecting crops from seasonal extremes."
      false s
  else s.

(** ** The sustainability score *)

(** The accumulators of the loop over the grid. *)
Record Tally := {
  totalSoilHealth : Q;
  cellCount : Z;
  cropCounts : gmap string Z;
  totalCrops : Z;
  monocropPenalty : Z
}.

(** The body of the loop over the cells. *)
Definition tallyCell (t : Tally) (cell : Cell) : Tally :=
  let soil := (totalSoilHealth t + soilHealth cell)%Q in
  let count := cellCount t + 1 in
  let id := crop_id (crop cell) in
  if String.eqb id "empty" then
    {| totalSoilHealth := soil; cellCount := count;
       cropCounts := cropCounts t; totalCrops := totalCrops t;
       monocropPenalty := monocropPenalty t |}
  else
    {| totalSoilHealth := soil; cellCount := count;
       cropCounts := <[id := default 0 (cropCounts t !! id) + 1]> (cropCounts t);
       totalCrops := totalCrops t + 1;
       monocropPenalty :=
         if 0 <? consecutivePlantings cell
         then monocropPenalty t + consecutivePlantings cell * 2
         else monocropPenalty t |}.

Definition sustainableTechs : list string :=
  ["drip_irrigation"; "soil_sensors"; "no_till_farming";
   "precision_drones"; "renewable_energy"; "greenhouse";
   "drought_resistant"; "ai_irrigation"; "silvopasture"].

(** The [switch (tech)] of the tech scoring. *)
Definition techPoints (tech : string) : Z :=
  if String.eqb tech "no_till_farming" || String.eqb tech "silvopasture"
  then 20
  else if String.eqb tech "drip_irrigation"
          || String.eqb tech "renewable_energy"
          || String.eqb tech "precision_drones"
  then 15
  else 10.

(** [rawTechScore] after the loop over [sustainableTechs]. *)
Definition rawTechScore (researchedTechs : list string) : Z :=
  fold_left
    (fun raw tech =>
       if bool_decide (tech ∈ researchedTechs) then raw + techPoints tech
       else raw)
    sustainableTechs 0.

Definition maxTechScore : Z := Z.of_nat (length sustainableTechs) * 100.

(** [Math.round((rawTechScore / maxTechScore) * 100)]. *)
Definition computeTechScore (researchedTechs : list string) : Z :=
  js_round
    (inject_Z (rawTechScore researchedTechs) / inject_Z maxTechScore * 100).

Record SustainabilityScore := {
  total : Score;
  soilScore : Z;
  diversityScore : Score;
  techScore : Z
}.

(** [Math.max(...Object.values(cropCounts))]; it is evaluated only when a
    crop was counted, so some count is at least 1. *)
Definition maxSingleCropCount (counts : gmap string Z) : Z :=
  foldr Z.max 0 (snd <$> map_to_list counts).

Definition calculateSustainabilityScore (s : State) : SustainabilityScore :=
  let t :=
    fold_left tallyCell (concat (grid s))
      {| totalSoilHealth := 0; cellCount := 0; cropCounts := ∅;
         totalCrops := 0; monocropPenalty := 0 |} in
  let avgSoilHealth :=
    if 0 <? cellCount t
    then (totalSoilHealth t / inject_Z (cellCount t))%Q else 0%Q in
  let soilScore := js_round avgSoilHealth in
  let uniqueCrops := Z.of_nat (size (cropCounts t)) in
  let cropDiversityScore :=
    if 0 <? totalCrops t then
      let maxPossibleCrops :=
        Z.min (totalCrops t) (Z.of_nat (length crops) - 1) in
      if maxPossibleCrops =? 0 then
        (* uniqueCrops / 0 is Infinity, and so is all that follows *)
        Infinite
      else
        let rawDiversityScore :=
          (inject_Z uniqueCrops / inject_Z maxPossibleCrops * 100)%Q in
        let dominantCropPercentage :=
          (inject_Z (maxSingleCropCount (cropCounts t))
           / inject_Z (totalCrops t))%Q in
        let distributionPenalty := (dominantCropPercentage * 50)%Q in
        Finite
          (js_round
             (Qmax 0
                (rawDiversityScore - distributionPenalty
                 - inject_Z (monocropPenalty t) / inject_Z (totalCrops t))))
    else Finite 0 in
  let techScore := computeTechScore (researchedTechs s) in
  let totalScore :=
    match cropDiversityScore with
    | Finite d =>
        Finite
          (js_round
             (inject_Z soilScore * 0.4 + inject_Z d * 0.4
              + inject_Z techScore * 0.2))
    | Infinite => Infinite
    end in
  {| total := totalScore; soilScore := soilScore;
     diversityScore := cropDiversityScore; techScore := techScore |}.

(** ** The economy at the year boundary *)

Definition applyAnnualInflation (s : State) : State :=
  set_overheadCostPerCell
    (js_round
       (inject_Z (overheadCostPerCell s) * (1 + annualInflationRate s)))
    s.

Definition distributeSubsidy (sustainabilityScore : SustainabilityScore)
    (s : State) : State :=
  let '(r, s) := nextRandom s in
  let randomFactor := (0.5 + r)%Q in
  let baseSubsidy :=
    if score_ge (total sustainabilityScore) 70 then 4000
    else if score_ge (total sustainabilityScore) 50 then 2000
    else if score_ge (total sustainabilityScore) 30 then 1000
    else 0 in
  if 0 <? baseSubsidy then
    let finalSubsidy := js_round (inject_Z baseSubsidy * randomFactor) in
    addEvent ("Received a subsidy of $" +:+ show_Z finalSubsidy
              +:+ " for your sustainability efforts.") false
      (set_balance (balance s + finalSubsidy) s)
  else
    addEvent "No subsidies granted this year due to low sustainability score."
      false s.

(** [this.climate.droughtProbability += 0.005] and the same for the
    heatwave probability. *)
Definition intensifyClimate (c : Climate) : Climate :=
  {| avgTemp := avgTemp c;
     rainfall := rainfall c;
     droughtProbability := droughtProbability c + 0.005;
     floodProbability := floodProbability c;
     heatwaveProbability := heatwaveProbability c + 0.005 |}.

Definition advanceYear (s : State) : State :=
  let s := set_year (year s + 1) s in
  let s := applyAnnualInflation s in
  let s := set_farmValue (calculateFarmValue (grid s) (technologies s)) s in
  let sustainabilityScore := calculateSustainabilityScore s in
  let s := set_climate (intensifyClimate (climate s)) s in
  let s :=
    addEvent ("Happy New Year! Completed Year " +:+ show_Z (year s - 1)
              +:+ " of farming.") false s in
  let s := distributeSubsidy sustainabilityScore s in
  if Z.rem (year s) 10 =? 0 then
    let s :=
      addEvent ("Major milestone: " +:+ show_Z (year s)
                +:+ " years of operation!") false s in
    chance 0.7
      (fun s =>
         let s :=
           pushScheduled (generatePolicyEvent (year s) (farmHealth s)) s in
         addEvent "New climate policy announced for the next decade." false s)
      s
  else s.

(** ** Pending events *)

(** The event that a continuing drought pushes. *)
Definition droughtContinuation (r : WeatherResult) (s : State) : Event :=
  {| ev_type := "drought";
     ev_day := day s + 1;
     ev_duration := Some (nextDuration r);
     ev_severity := Some (wr_severity r);
     ev_message := "";
     ev_isAlert := false;
     ev_payload := None |}.

(** The event that a continuing heatwave pushes. *)
Definition heatwaveContinuation (r : WeatherResult) (s : State) : Event :=
  {| ev_type := "heatwave";
     ev_day := day s + 1;
     ev_duration := Some (nextDuration r);
     ev_severity := None;
     ev_message := "";
     ev_isAlert := false;
     ev_payload := None |}.

(** The [switch (event.type)] inside [activeEvents.forEach]. *)
Definition dispatchEvent (s : State) (event : Event) : State :=
  let type := ev_type event in
  if String.eqb type "rain" then
    let '(rainResult, g, w) :=
      applyRainEvent event (grid s) (waterReserve s) (researchedTechs s)
        (world s) in
    let s := set_world w (set_grid g s) in
    let s := set_waterReserve (rain_waterReserve rainResult) s in
    addEvent (rain_message rainResult) false s
  else if String.eqb type "drought" then
    let '(droughtResult, g, w) :=
      applyDroughtEvent event (grid s) (waterReserve s) (researchedTechs s)
        (world s) in
    let s := set_world w (set_grid g s) in
    if negb (skipped droughtResult) then
      let s := set_waterReserve (wr_waterReserve droughtResult) s in
      let s := addEvent (wr_message droughtResult) true s in
      if continueEvent droughtResult then
        pushPending (droughtContinuation droughtResult s) s
      else addEvent "The drought has ended." false s
    else s
  else if String.eqb type "heatwave" then
    let '(heatwaveResult, g, w) :=
      applyHeatwaveEvent event (grid s) (waterReserve s) (researchedTechs s)
        (world s) in
    let s := set_world w (set_grid g s) in
    if negb (skipped heatwaveResult) then
      let s := set_waterReserve (wr_waterReserve heatwaveResult) s in
      let s := addEvent (wr_message heatwaveResult) true s in
      if continueEvent heatwaveResult then
        pushPending (heatwaveContinuation heatwaveResult s) s
      else addEvent "The heatwave has ended." false s
    else s
  else if String.eqb type "frost" then
    let '(frostResult, g, w) :=
      applyFrostEvent event (grid s) (researchedTechs s) (world s) in
    let s := set_world w (set_grid g s) in
    addEvent (frost_message frostResult) true s
  else if String.eqb type "market" then
    let '(marketResult, w) :=
      applyMarketEvent event (marketPrices s) crops (world s) in
    let s := set_world w s in
    let s := set_marketPrices (mr_marketPrices marketResult) s in
    addEvent (mr_message marketResult) false s
  else if String.eqb type "policy" then
    let '(policyResult, w) := applyPolicyEvent event (balance s) (world s) in
    let s := set_world w s in
    let s := set_balance (pr_newBalance policyResult) s in
    addEvent (pr_message policyResult) (pr_balanceChange policyResult <? 0) s
  else if String.eqb type "technology" then
    let '(techResult, techs, w) :=
      applyTechnologyEvent event (balance s) (researchedTechs s) (world s) in
    let s := set_world w (set_researchedTechs techs s) in
    let s := set_balance (tr_newBalance techResult) s in
    addEvent (tr_message techResult) false s
  else s.

(** [this.pendingEvents.filter(event => event.day === this.day)]. *)
Definition activeEvents (s : State) : list Event :=
  List.filter (fun event => ev_day event =? day s) (pendingEvents s).

Definition processPendingEvents (s : State) : State :=
  let s := fold_left dispatchEvent (activeEvents s) s in
  set_pendingEvents
    (List.filter (fun event => negb (ev_day event =? day s)) (pendingEvents s))
    s.

(** ** Player actions *)

(** What a call of an action does: it returns a boolean, or it throws a
    [TypeError] on a row or a cell that is [undefined]. Either way the game
    object is left in some state. *)
Inductive Outcome :=
  | Returned (result : bool) (s : State)
  | Threw (s : State).

(** [Math.pow(1 + this.annualInflationRate, this.year - 1)]. *)
Definition inflationMultiplier (s : State) : Q :=
  Qpower (1 + annualInflationRate s) (year s - 1).

(** [this.grid[row][col] = cell], for a cell that was mutated in place. *)
Definition storeCell (row col : nat) (cell : Cell) (s : State) : State :=
  match grid s !! row with
  | Some cells => set_grid (<[row := <[col := cell]> cells]> (grid s)) s
  | None => s
  end.

Definition plantingCost (newCrop : Crop) (s : State) : Z :=
  js_round (basePrice newCrop * 0.4 * inflationMultiplier s).

Definition plantCrop (row col : nat) (cropId : string) (s : State) : Outcome :=
  match grid s !! row with
  | None => Threw s
  | Some cells =>
      match getCropById cropId with
      | None => Returned false s
      | Some newCrop =>
          if String.eqb (crop_id newCrop) "empty" then Returned false s
          else
            let plantingCost := plantingCost newCrop s in
            if balance s <? plantingCost then
              Returned false
                (addEvent ("Cannot afford to plant " +:+ crop_name newCrop
                           +:+ ". Cost: $" +:+ show_Z plantingCost) true s)
            else
              let s := set_balance (balance s - plantingCost) s in
              match cells !! col with
              | None => Threw s
              | Some cell =>
                  let '(cell, w) := cell_plant cell newCrop (world s) in
                  let s := storeCell row col cell (set_world w s) in
                  Returned true
                    (addEvent ("Planted " +:+ crop_name newCrop
                               +:+ " at row " +:+ show_nat (row + 1)
                               +:+ ", column " +:+ show_nat (col + 1)
                               +:+ ". Cost: $" +:+ show_Z plantingCost)
                       false s)
              end
      end
  end.

Definition irrigationCost (s : State) : Z :=
  js_round (200 * inflationMultiplier s).

Definition irrigateCell (row col : nat) (s : State) : Outcome :=
  match gridCell (grid s) row col with
  | None => Threw s
  | Some cell =>
      if String.eqb (crop_id (crop cell)) "empty" then
        Returned false (addEvent "Cannot irrigate an empty plot." true s)
      else if irrigated cell then
        Returned false (addEvent "This plot is already irrigated." true s)
      else
        let irrigationCost := irrigationCost s in
        if balance s <? irrigationCost then
          Returned false
            (addEvent ("Cannot afford irrigation. Cost: $"
                       +:+ show_Z irrigationCost) true s)
        else
          let s := set_balance (balance s - irrigationCost) s in
          let waterEfficiency :=
            getTechEffectValue "waterEfficiency" (researchedTechs s) 1 in
          let '(cell, w) := cell_irrigate cell waterEfficiency (world s) in
          let cell :=
            if hasTechnology "ai_irrigation" s
            then set_expectedYield (Qmin 150 (expectedYield cell + 10)) cell
            else cell in
          let s := storeCell row col cell (set_world w s) in
          Returned true
            (addEvent ("Irrigated plot at row " +:+ show_nat (row + 1)
                       +:+ ", column " +:+ show_nat (col + 1)
                       +:+ ". Cost: $" +:+ show_Z irrigationCost) false s)
  end.

Definition fertilizeCost (s : State) : Z :=
  js_round (300 * inflationMultiplier s).

Definition fertilizeCell (row col : nat) (s : State) : Outcome :=
  match gridCell (grid s) row col with
  | None => Threw s
  | Some cell =>
      if String.eqb (crop_id (crop cell)) "empty" then
        Returned false (addEvent "Cannot fertilize an empty plot." true s)
      else if fertilized cell then
        Returned false (addEvent "This plot is already fertilized." true s)
      else
        let fertilizeCost := fertilizeCost s in
        if balance s <? fertilizeCost then
          Returned false
            (addEvent ("Cannot afford fertilizer. Cost: $"
                       +:+ show_Z fertilizeCost) true s)
        else
          let s := set_balance (balance s - fertilizeCost) s in
          let fertilizerEfficiency :=
            getTechEffectValue "fertilizerEfficiency" (researchedTechs s) 1 in
          let '(cell, w) := cell_fertilize cell fertilizerEfficiency (world s) in
          let s := storeCell row col cell (set_world w s) in
          Returned true
            (addEvent ("Fertilized plot at row " +:+ show_nat (row + 1)
                       +:+ ", column " +:+ show_nat (col + 1)
                       +:+ ". Cost: $" +:+ show_Z fertilizeCost) false s)
  end.

(** [this.marketPrices[id] || 1.0]: an absent or zero price reads as 1. *)
Definition marketPriceOf (id : string) (s : State) : Q :=
  match marketPrices s !! id with
  | Some p => if Qeq_bool p 0 then 1 else p
  | None => 1
  end.

Definition harvestCell (row col : nat) (s : State) : Outcome :=
  match gridCell (grid s) row col with
  | None => Threw s
  | Some cell =>
      if String.eqb (crop_id (crop cell)) "empty" then
        Returned false (addEvent "Nothing to harvest in this plot." true s)
      else if negb (harvestReady cell) then
        Returned false (addEvent "Crop is not ready for harvest yet." true s)
      else
        let marketPrice := marketPriceOf (crop_id (crop cell)) s in
        let '(result, cell, w) :=
          cell_harvest cell (waterReserve s) marketPrice (world s) in
        let s := storeCell row col cell (set_world w s) in
        let s := set_balance (balance s + hr_value result) s in
        Returned true
          (addEvent ("Harvested " +:+ hr_cropName result +:+ " for $"
                     +:+ show_Z (hr_value result) +:+ ". Yield: "
                     +:+ show_Z (hr_yieldPercentage result) +:+ "%") false s)
  end.

(** ** Research *)

(** [tech.researched = true], on the entry of [this.technologies] that
    [find] returned: the first one with this id. *)
Fixpoint markResearched (techId : string) (techs : list Technology)
    : list Technology :=
  match techs with
  | [] => []
  | t :: rest =>
      if String.eqb (tech_id t) techId then
        {| tech_id := tech_id t; tech_name := tech_name t;
           tech_cost := tech_cost t; prerequisites := prerequisites t;
           effects := effects t; researched := true |} :: rest
      else t :: markResearched techId rest
  end.

(** [applyTechnologyEffects(tech)]: a truthy [tech.effects.soilHealth]
    multiplies the soil health of every cell, capped at 100. *)
Definition applyTechnologyEffects (tech : Technology) (s : State) : State :=
  match effects tech !! "soilHealth" with
  | Some m =>
      if Qeq_bool m 0 then s
      else
        set_grid
          (map (map (fun cell =>
                       set_soilHealth (Qmin 100 (soilHealth cell * m)) cell))
             (grid s))
          s
  | None => s
  end.

Definition researchTechnology (techId : string) (s : State) : Outcome :=
  match List.find (fun t => String.eqb (tech_id t) techId) (technologies s) with
  | None => Returned false s
  | Some tech =>
      if researched tech then Returned false s
      else if negb (checkTechPrerequisites tech (researchedTechs s)) then
        Returned false
          (addEvent ("Cannot research " +:+ tech_name tech
                     +:+ " - prerequisites not met.") true s)
      else if balance s <? tech_cost tech then
        Returned false
          (addEvent ("Cannot afford to research " +:+ tech_name tech
                     +:+ ". Cost: $" +:+ show_Z (tech_cost tech)) true s)
      else
        let s := set_balance (balance s - tech_cost tech) s in
        let s := set_technologies (markResearched techId (technologies s)) s in
        let s := set_researchedTechs (researchedTechs s ++ [tech_id tech]) s in
        let s := applyTechnologyEffects tech s in
        Returned true
          (addEvent ("Researched " +:+ tech_name tech +:+ " for $"
                     +:+ show_Z (tech_cost tech)) false s)
  end.

(** ** The tick *)

(** [runTestUpdate]; [terminateTest] pauses the game (its callback runs
    later, outside the tick). *)
Definition runTestUpdate (s : State) : State :=
  if autoTerminate s && ((testEndYear s <=? year s) || (balance s <=? 0))
  then set_paused true s
  else s.

(** The snapshot built for the ambient event. *)
Definition farmStateOf (s : State) : FarmState :=
  {| fs_climate := climate s;
     fs_day := day s;
     fs_season := season s;
     fs_waterReserve := waterReserve s;
     fs_farmHealth := farmHealth s;
     fs_balance := balance s;
     fs_researchedTechs := researchedTechs s |}.

(** The chance of a random event at the end of [update]. *)
Definition ambientEvent (s : State) : State :=
  chance 0.01
    (fun s =>
       let '(newEvent, w) := generateRandomEvent (farmStateOf s) (world s) in
       let s := set_world w s in
       match newEvent with
       | Some newEvent =>
           let s := pushPending newEvent s in
           addEvent (ev_message newEvent) (ev_isAlert newEvent) s
       | None => s
       end)
    s.

Definition update (s : State) : State :=
  let s := set_day (day s + 1) s in
  let s := set_seasonDay (seasonDay s + 1) s in
  let s := payDailyOverhead s in
  let s := updateFarm s in
  let s :=
    if 90 <? seasonDay s then advanceSeason (set_seasonDay 1 s) else s in
  let s := if 360 <? day s then advanceYear (set_day 1 s) else s in
  let s := processPendingEvents s in
  let s := set_farmHealth (calculateFarmHealth (grid s) (waterReserve s)) s in
  let s := ambientEvent s in
  if testMode s then runTestUpdate s else s.

(** [gameLoop]: a tick runs only while the game is not paused and the
    update interval has elapsed. *)
Definition gameLoop (intervalElapsed : bool) (s : State) : State :=
  if negb (paused s) && intervalElapsed then update s else s.

(** [n] ticks in a row. *)
Fixpoint ticks (n : nat) (s : State) : State :=
  match n with
  | O => s
  | S n' => ticks n' (update s)
  end.

(** ** The constructor *)

(** The [options] that the simulation reads. *)
Record Options := {
  opt_testMode : bool;
  opt_testEndYear : Z;
  opt_autoTerminate : bool
}.

(** One row of [initializeGrid]: [n] calls of [new Cell()]. *)
Fixpoint newRow (n : nat) (w : World) : list Cell * World :=
  match n with
  | O => ([], w)
  | S n' =>
      let '(cell, w1) := newCell w in
      let '(rest, w2) := newRow n' w1 in
      (cell :: rest, w2)
  end.

(** [n] rows of [size] cells. *)
Fixpoint newRows (n size : nat) (w : World) : Grid * World :=
  match n with
  | O => ([], w)
  | S n' =>
      let '(cells, w1) := newRow size w in
      let '(rest, w2) := newRows n' size w1 in
      (cells :: rest, w2)
  end.

Definition initializeGrid (s : State) : State :=
  let '(g, w) := newRows (gridSize s) (gridSize s) (world s) in
  set_world w (set_grid g s).

(** [new CaliforniaClimateFarmer(options)]. *)
Definition newGame (options : Options) (w : World) : State :=
  let s :=
    {| day := 1;
       year := 1;
       season := Spring;
       seasonDay := 1;
       balance := 20000;
       farmValue := 50000;
       farmHealth := 85;
       waterReserve := 60;
       paused := false;
       overheadCostPerCell := 10;
       annualInflationRate := 0.03;
       gridSize := 10;
       grid := [];
       technologies := createTechnologyTree;
       researchedTechs := [];
       events := [];
       pendingEvents := [];
       marketPrices := ∅;
       climate :=
         {| avgTemp := 70;
            rainfall := 20;
            droughtProbability := 0.05;
            floodProbability := 0.03;
            heatwaveProbability := 0.08 |};
       testMode := opt_testMode options;
       autoTerminate := opt_autoTerminate options;
       testEndYear :=
         if opt_testEndYear options =? 0 then 50 else opt_testEndYear options;
       world := w |} in
  let s := initializeGrid s in
  updateMarketPrices s.

(** ** Notions used to state the properties *)

(** The counters of the clock. *)
Definition clock (s : State) : Z * Z * Season * Z :=
  (day s, seasonDay s, season s, year s).

(** The part of [update] that runs before [processPendingEvents]: the
    increments, the overhead, the farm update and the two rollovers. *)
Definition beforeEvents (s : State) : State :=
  let s := set_day (day s + 1) s in
  let s := set_seasonDay (seasonDay s + 1) s in
  let s := payDailyOverhead s in
  let s := updateFarm s in
  let s :=
    if 90 <? seasonDay s then advanceSeason (set_seasonDay 1 s) else s in
  if 360 <? day s then advanceYear (set_day 1 s) else s.

(** The part of [update] that runs after [processPendingEvents]. *)
Definition afterEvents (s : State) : State :=
  let s := set_farmHealth (calculateFarmHealth (grid s) (waterReserve s)) s in
  let s := ambientEvent s in
  if testMode s then runTestUpdate s else s.

(** The seven tags that [processPendingEvents] dispatches on. *)
Definition recognizedTypes : list string :=
  ["rain"; "drought"; "heatwave"; "frost"; "market"; "policy"; "technology"].

(** What the handler of a drought or of a heatwave returns for an event that
    is dispatched in state [s]. *)
Definition weatherResult (s : State) (event : Event) : option WeatherResult :=
  if String.eqb (ev_type event) "drought" then
    Some (applyDroughtEvent event (grid s) (waterReserve s)
            (researchedTechs s) (world s)).1.1
  else if String.eqb (ev_type event) "heatwave" then
    Some (applyHeatwaveEvent event (grid s) (waterReserve s)
            (researchedTechs s) (world s)).1.1
  else None.

(** The generators of [events.js] tag their events with their own type. *)
Definition GeneratorsTagged : Prop :=
  (forall d p w, ev_type (scheduleDrought d p w).1 = "drought")
  /\ (forall d w, ev_type (scheduleHeatwave d w).1 = "heatwave")
  /\ (forall d w, ev_type (scheduleFrost d w).1 = "frost")
  /\ (forall d w, ev_type (scheduleRain d w).1 = "rain").

(** The season and event type pairs that seasonal seeding may enqueue, in
    the words of the specification. *)
Definition seedAllowedSpec (season : Season) (type : string) : bool :=
  match season with
  | Summer => String.eqb type "drought" || String.eqb type "heatwave"
  | Winter => String.eqb type "frost"
  | Spring | Fall => String.eqb type "rain"
  end.

(** The same with the heatwave that the code also seeds in Fall. *)
Definition seedAllowed (season : Season) (type : string) : bool :=
  match season with
  | Summer => String.eqb type "drought" || String.eqb type "heatwave"
  | Winter => String.eqb type "frost"
  | Spring => String.eqb type "rain"
  | Fall => String.eqb type "rain" || String.eqb type "heatwave"
  end.


(** The tech score in the words of the specification: the points are
    normalized against the most that can be attained, the sum of the points
    of the nine entries. *)
Definition specMaxTechScore : Z :=
  fold_left (fun acc tech => acc + techPoints tech) sustainableTechs 0.

Definition specTechScore (researchedTechs : list string) : Z :=
  js_round
    (inject_Z (rawTechScore researchedTechs) / inject_Z specMaxTechScore * 100).

(** The player actions. *)
Inductive Action :=
  | Plant (row col : nat) (cropId : string)
  | Irrigate (row col : nat)
  | Fertilize (row col : nat)
  | Harvest (row col : nat)
  | Research (techId : string).

Definition perform (a : Action) (s : State) : Outcome :=
  match a with
  | Plant row col cropId => plantCrop row col cropId s
  | Irrigate row col => irrigateCell row col s
  | Fertilize row col => fertilizeCell row col s
  | Harvest row col => harvestCell row col s
  | Research techId => researchTechnology techId s
  end.

(** The failing validation preconditions of the specification: an unknown or
    empty crop id; an empty plot; a plot already irrigated or fertilized; a
    crop that is not ready; a technology already researched or with unmet
    prerequisites; a balance below the cost. The target row, cell or
    technology exists. *)
Definition failingPrecondition (a : Action) (s : State) : bool :=
  match a with
  | Plant row col cropId =>
      bool_decide (is_Some (grid s !! row))
      && match getCropById cropId with
         | None => true
         | Some newCrop =>
             String.eqb (crop_id newCrop) "empty"
             || (balance s <? plantingCost newCrop s)
         end
  | Irrigate row col =>
      match gridCell (grid s) row col with
      | Some cell =>
          String.eqb (crop_id (crop cell)) "empty"
          || irrigated cell
          || (balance s <? irrigationCost s)
      | None => false
      end
  | Fertilize row col =>
      match gridCell (grid s) row col with
      | Some cell =>
          String.eqb (crop_id (crop cell)) "empty"
          || fertilized cell
          || (balance s <? fertilizeCost s)
      | None => false
      end
  | Harvest row col =>
      match gridCell (grid s) row col with
      | Some cell =>
          String.eqb (crop_id (crop cell)) "empty" || negb (harvestReady cell)
      | None => false
      end
  | Research techId =>
      match
        List.find (fun t => String.eqb (tech_id t) techId) (technologies s)
      with
      | Some tech =>
          researched tech
          || negb (checkTechPrerequisites tech (researchedTechs s))
          || (balance s <? tech_cost tech)
      | None => false
      end
  end.

(** The rejections that the code does not log: a crop id that is unknown or
    empty, and a technology that is already researched. *)
Definition silentRejection (a : Action) (s : State) : bool :=
  match a with
  | Plant _ _ cropId =>
      match getCropById cropId with
      | None => true
      | Some newCrop => String.eqb (crop_id newCrop) "empty"
      end
  | Research techId =>
      match
        List.find (fun t => String.eqb (tech_id t) techId) (technologies s)
      with
      | Some tech => researched tech
      | None => true
      end
  | _ => false
  end.

(** The reasons for which an action is rejected: which check of the code
    fails. *)
Inductive Reason :=
  | UnknownCrop
  | EmptyCropId
  | CannotAffordPlanting (newCrop : Crop) (cost : Z)
  | IrrigateEmptyPlot
  | AlreadyIrrigated
  | CannotAffordIrrigation (cost : Z)
  | FertilizeEmptyPlot
  | AlreadyFertilized
  | CannotAffordFertilizer (cost : Z)
  | NothingToHarvest
  | NotReadyForHarvest
  | AlreadyResearched
  | PrerequisitesNotMet (tech : Technology)
  | CannotAffordResearch (tech : Technology).

(** The first validation precondition of the action that fails, in the
    order in which the code checks them. *)
Definition rejectionReason (a : Action) (s : State) : option Reason :=
  match a with
  | Plant row col cropId =>
      match getCropById cropId with
      | None => Some UnknownCrop
      | Some newCrop =>
          if String.eqb (crop_id newCrop) "empty" then Some EmptyCropId
          else if balance s <? plantingCost newCrop s then
            Some (CannotAffordPlanting newCrop (plantingCost newCrop s))
          else None
      end
  | Irrigate row col =>
      match gridCell (grid s) row col with
      | Some cell =>
          if String.eqb (crop_id (crop cell)) "empty" then
            Some IrrigateEmptyPlot
          else if irrigated cell then Some AlreadyIrrigated
          else if balance s <? irrigationCost s then
            Some (CannotAffordIrrigation (irrigationCost s))
          else None
      | None => None
      end
  | Fertilize row col =>
      match gridCell (grid s) row col with
      | Some cell =>
          if String.eqb (crop_id (crop cell)) "empty" then
            Some FertilizeEmptyPlot
          else if fertilized cell then Some AlreadyFertilized
          else if balance s <? fertilizeCost s then
            Some (CannotAffordFertilizer (fertilizeCost s))
          else None
      | None => None
      end
  | Harvest row col =>
      match gridCell (grid s) row col with
      | Some cell =>
          if String.eqb (crop_id (crop cell)) "empty" then
            Some NothingToHarvest
          else if negb (harvestReady cell) then Some NotReadyForHarvest
          else None
      | None => None
      end
  | Research techId =>
      match
        List.find (fun t => String.eqb (tech_id t) techId) (technologies s)
      with
      | Some tech =>
          if researched tech then Some AlreadyResearched
          else if negb (checkTechPrerequisites tech (researchedTechs s)) then
            Some (PrerequisitesNotMet tech)
          else if balance s <? tech_cost tech then
            Some (CannotAffordResearch tech)
          else None
      | None => None
      end
  end.

(** The alert that describes a reason, in the words of the code; three
    reasons have none. *)
Definition reasonAlert (reason : Reason) : option string :=
  match reason with
  | UnknownCrop | EmptyCropId | AlreadyResearched => None
  | CannotAffordPlanting newCrop cost =>
      Some ("Cannot afford to plant " +:+ crop_name newCrop
            +:+ ". Cost: $" +:+ show_Z cost)
  | IrrigateEmptyPlot => Some "Cannot irrigate an empty plot."
  | AlreadyIrrigated => Some "This plot is already irrigated."
  | CannotAffordIrrigation cost =>
      Some ("Cannot afford irrigation. Cost: $" +:+ show_Z cost)
  | FertilizeEmptyPlot => Some "Cannot fertilize an empty plot."
  | AlreadyFertilized => Some "This plot is already fertilized."
  | CannotAffordFertilizer cost =>
      Some ("Cannot afford fertilizer. Cost: $" +:+ show_Z cost)
  | NothingToHarvest => Some "Nothing to harvest in this plot."
  | NotReadyForHarvest => Some "Crop is not ready for harvest yet."
  | PrerequisitesNotMet tech =>
      Some ("Cannot research " +:+ tech_name tech
            +:+ " - prerequisites not met.")
  | CannotAffordResearch tech =>
      Some ("Cannot afford to research " +:+ tech_name tech
            +:+ ". Cost: $" +:+ show_Z (tech_cost tech))
  end.

(** The entry that [addEvent(msg, true)] logs in state [s]. *)
Definition alertEntry (msg : string) (s : State) : LogEntry :=
  {| date := seasonName (season s) +:+ ", Year " +:+ show_Z (year s);
     message := msg;
     isAlert := true |}.

(** A rejection as the specification words it: the action returns false,
    changes none of the balance, the grid, the researched set and the
    technologies, and logs an alert. *)
Definition RejectsWithAlert (a : Action) (s : State) : Prop :=
  exists s' msg,
    perform a s = Returned false s'
    /\ balance s' = balance s
    /\ grid s' = grid s
    /\ researchedTechs s' = researchedTechs s
    /\ technologies s' = technologies s
    /\ head (events s') = Some (alertEntry msg s).

(** The log after one call of [addEvent] with this entry. *)
Definition logPush (entry : LogEntry) (log : list LogEntry) : list LogEntry :=
  let evs := entry :: log in
  if 20 <? Z.of_nat (length evs) then removelast evs else evs.

(** [log'] is [log] after some calls of [addEvent]. *)
Inductive Pushed (log : list LogEntry) : list LogEntry -> Prop :=
  | Pushed_none : Pushed log log
  | Pushed_more entry log' :
      Pushed log log' -> Pushed log (logPush entry log').

(** From [s] to [s'] the event log changed by calls of [addEvent] only. *)
Definition Logs (s s' : State) : Prop := Pushed (events s) (events s').


(** The log after the calls of [addEvent] that log [entries], the oldest
    first. *)
Definition pushAll (entries : list LogEntry) (log : list LogEntry)
    : list LogEntry :=
  fold_left (fun log entry => logPush entry log) entries log.



(** The overhead after [n] yearly inflations of [c] at rate [rate]. *)
Fixpoint compoundedOverhead (n : nat) (rate : Q) (c : Z) : Z :=
  match n with
  | O => c
  | S n' => compoundedOverhead n' rate (js_round (inject_Z c * (1 + rate)))
  end.


(** An observation [p] of the state ignores a field when assigning the
    field does not change it. *)
Definition ignores {A V} (p : State -> A) (set : V -> State -> State) : Prop :=
  forall v s, p (set v s) = p s.

(** From [s] to [s'] the pending events only grew, by events that
    satisfy [P]. *)
Definition Seeds (P : Event -> Prop) (s s' : State) : Prop :=
  exists seeded,
    pendingEvents s' = pendingEvents s ++ seeded /\ Forall P seeded.

(** The season change of [s] only pushes events whose type [allowed] accepts
    for the new season. *)
Definition SeedingRespects (allowed : Season -> string -> bool) (s : State)
    : Prop :=
  Seeds (fun e => allowed (season (advanceSeason s)) (ev_type e) = true)
    s (advanceSeason s).

(** No condition on the seeded events. *)
Definition anyEvent : Event -> Prop := fun _ => True.

(** ** Notions used to state further properties *)

(** [Math.random()] returns a number of the interval [0, 1). *)
Definition RandomInUnit : Prop :=
  forall w, (0 <= (random w).1)%Q /\ ((random w).1 < 1)%Q.

(** The state that a call of an action leaves, returned or thrown. *)
Definition stateOf (o : Outcome) : State :=
  match o with
  | Returned _ s => s
  | Threw s => s
  end.

(** The clock of a new game after [n] ticks: the day of the year, the day of
    the season, the season and the year. *)
Definition clockAfter (n : Z) : Z * Z * Season * Z :=
  (n mod 360 + 1,
   n mod 90 + 1,
   default Spring (seasons !! Z.to_nat ((n / 90) mod 4)),
   1 + n / 360).

(** The base subsidy of a sustainability total: the tiers of
    [distributeSubsidy]. *)
Definition subsidyTier (total : Score) : Z :=
  if score_ge total 70 then 4000
  else if score_ge total 50 then 2000
  else if score_ge total 30 then 1000
  else 0.

(** The price of [id], when it is set, lies between [lo] and [hi]. *)
Definition priceWithin (lo hi : Q) (prices : gmap string Q) (id : string)
    : Prop :=
  match prices !! id with
  | Some p => (lo <= p)%Q /\ (p <= hi)%Q
  | None => True
  end.

(** The integer amounts by which the change to a season may refill the
    water reserve: [Math.floor(base + Math.random() * range)], with base 10
    and range 15 for Spring and base 5 and range 10 for Fall and Winter.
    The upper end, base + range, is the one that a sum of doubles reaches
    when it is rounded up to it. *)
Definition recoveryRange (season : Season) (k : Z) : Prop :=
  match season with
  | Spring => 10 <= k <= 25
  | Summer => k = 0
  | Fall | Winter => 5 <= k <= 15
  end.

(** The cell that an action works on, for the four actions on a cell. *)
Definition targetOf (a : Action) : option (nat * nat) :=
  match a with
  | Plant row col _ | Irrigate row col | Fertilize row col
  | Harvest row col => Some (row, col)
  | Research _ => None
  end.

(** The actions that spend money. *)
Definition isPurchase (a : Action) : bool :=
  match a with
  | Harvest _ _ => false
  | _ => true
  end.

(** What a pending event that the resolution of day [d] adds looks like:
    the continuation of a drought or of a heatwave, due the next day. *)
Definition isContinuation (d : Z) (e : Event) : Prop :=
  ev_day e = d + 1 /\ (ev_type e = "drought" \/ ev_type e = "heatwave").

(** The settings of a game that no tick writes. *)
Definition settings (s : State)
    : nat * Q * bool * bool * Z * list Technology :=
  (gridSize s, annualInflationRate s, testMode s, autoTerminate s,
   testEndYear s, technologies s).

End Game.

Arguments Cell : clear implicits.
Arguments Grid : clear implicits.
Arguments Event : clear implicits.
Arguments FarmState : clear implicits.
Arguments Runtime : clear implicits.
Arguments CellModule : clear implicits.
Arguments UtilsModule : clear implicits.
Arguments EventsModule : clear implicits.
Arguments State : clear implicits.
Arguments Outcome : clear implicits.

(** ** Sample collaborators

    Concrete stand-ins for the modules that [game.js] imports, on which the
    game runs: [Math.random] reads its values off a list. *)

Module Demo.

Definition World := list Q.

#[export] Instance runtime : Runtime World := {|
  random w := match w with [] => (0%Q, []) | r :: w' => (r, w') end
|}.

Definition emptyCrop : Crop :=
  {| crop_id := "empty"; crop_name := "Empty Plot"; basePrice := 0 |}.

Definition tomato : Crop :=
  {| crop_id := "tomato"; crop_name := "Tomato"; basePrice := 1000 |}.

Definition lettuce : Crop :=
  {| crop_id := "lettuce"; crop_name := "Lettuce"; basePrice := 600 |}.

#[export] Instance cropsModule : CropsModule := {|
  crops := [emptyCrop; tomato; lettuce];
  getCropById id :=
    List.find (fun c => String.eqb (crop_id c) id) [emptyCrop; tomato; lettuce]
|}.

Definition emptyCell : Cell unit :=
  {| crop := emptyCrop; soilHealth := 80; irrigated := false;
     fertilized := false; harvestReady := false; consecutivePlantings := 0;
     expectedYield := 0; cell_state := tt |}.

(** A planted cell that is ready for harvest. *)
Definition ripeCell : Cell unit :=
  {| crop := tomato; soilHealth := 80; irrigated := true;
     fertilized := true; harvestReady := true; consecutivePlantings := 1;
     expectedYield := 100; cell_state := tt |}.

#[export] Instance cellModule : CellModule World unit := {|
  newCell w := (emptyCell, w);
  cell_update c water techs w :=
    (if harvestReady c then "harvest-ready" else "growing", c, w);
  cell_plant c newCrop w :=
    ({| crop := newCrop; soilHealth := soilHealth c; irrigated := false;
        fertilized := false; harvestReady := false;
        consecutivePlantings :=
          if String.eqb (crop_id (crop c)) (crop_id newCrop)
          then consecutivePlantings c + 1 else 0;
        expectedYield := 100; cell_state := tt |}, w);
  cell_irrigate c efficiency w :=
    ({| crop := crop c; soilHealth := soilHealth c; irrigated := true;
        fertilized := fertilized c; harvestReady := harvestReady c;
        consecutivePlantings := consecutivePlantings c;
        expectedYield := expectedYield c; cell_state := tt |}, w);
  cell_fertilize c efficiency w :=
    ({| crop := crop c; soilHealth := soilHealth c; irrigated := irrigated c;
        fertilized := true; harvestReady := harvestReady c;
        consecutivePlantings := consecutivePlantings c;
        expectedYield := expectedYield c; cell_state := tt |}, w);
  cell_harvest c water price w :=
    ({| hr_value := js_round (basePrice (crop c) * price);
        hr_cropName := crop_name (crop c);
        hr_yieldPercentage := 100 |},
     {| crop := emptyCrop; soilHealth := soilHealth c; irrigated := false;
        fertilized := false; harvestReady := false;
        consecutivePlantings := consecutivePlantings c;
        expectedYield := 0; cell_state := tt |}, w)
|}.

Definition dripIrrigation : Technology :=
  {| tech_id := "drip_irrigation"; tech_name := "Drip Irrigation";
     tech_cost := 25000; prerequisites := [];
     effects := {["waterEfficiency" := 1.2%Q]}; researched := false |}.

Definition aiIrrigation : Technology :=
  {| tech_id := "ai_irrigation"; tech_name := "AI Irrigation";
     tech_cost := 8000; prerequisites := ["drip_irrigation"];
     effects := {["waterEfficiency" := 1.5%Q]}; researched := false |}.

Definition noTill : Technology :=
  {| tech_id := "no_till_farming"; tech_name := "No-Till Farming";
     tech_cost := 5000; prerequisites := [];
     effects := {["soilHealth" := 1.1%Q]}; researched := false |}.

#[export] Instance technologyModule : TechnologyModule := {|
  createTechnologyTree := [dripIrrigation; aiIrrigation; noTill];
  checkTechPrerequisites tech researchedTechs :=
    forallb (fun p => bool_decide (p ∈ researchedTechs)) (prerequisites tech);
  getTechEffectValue effectName researchedTechs defaultValue := defaultValue
|}.

#[export] Instance utilsModule : UtilsModule unit := {|
  calculateFarmHealth g waterReserve := waterReserve;
  calculateFarmValue g techs := 50000%Q
|}.

Definition mkEvent (type : string) (d : Z) (duration : option Q)
    (msg : string) : Event unit :=
  {| ev_type := type; ev_day := d; ev_duration := duration;
     ev_severity := None; ev_message := msg; ev_isAlert := false;
     ev_payload := None |}.

(** A drought or a heatwave lasts while its duration is above 1; the named
    technology makes the handler skip it. *)
Definition weather (protection msg : string) (e : Event unit) (water : Q)
    (techs : list string) : WeatherResult :=
  let duration := default 1%Q (ev_duration e) in
  {| skipped := bool_decide (protection ∈ techs);
     wr_waterReserve := Qmax 0 (water - 5);
     wr_message := msg;
     continueEvent := Q_ltb 1 duration;
     nextDuration := duration - 1;
     wr_severity := default 1%Q (ev_severity e) |}.

#[export] Instance eventsModule : EventsModule World unit unit := {|
  scheduleDrought d probability w := (mkEvent "drought" (d + 10) (Some 3%Q) "", w);
  scheduleHeatwave d w := (mkEvent "heatwave" (d + 5) (Some 2%Q) "", w);
  scheduleFrost d w := (mkEvent "frost" (d + 7) None "", w);
  scheduleRain d w := (mkEvent "rain" (d + 3) None "", w);
  generatePolicyEvent y health w := (mkEvent "policy" 30 None "", w);
  generateRandomEvent fs w :=
    (Some (mkEvent "market" (fs_day fs + 3) None "Market prices are shifting."),
     w);
  applyRainEvent e g water techs w :=
    ({| rain_waterReserve := Qmin 100 (water + 10);
        rain_message := "Rain replenished the water reserve." |}, g, w);
  applyDroughtEvent e g water techs w :=
    (weather "drought_resistant" "Drought is stressing the crops." e water techs,
     g, w);
  applyHeatwaveEvent e g water techs w :=
    (weather "greenhouse" "Heatwave is stressing the crops." e water techs,
     g, w);
  applyFrostEvent e g techs w :=
    ({| frost_message := "Frost damaged the crops." |}, g, w);
  applyMarketEvent e prices cs w :=
    ({| mr_marketPrices := prices; mr_message := "Market prices moved." |}, w);
  applyPolicyEvent e bal w :=
    ({| pr_newBalance := bal - 500; pr_balanceChange := -500;
        pr_message := "New water regulations cost $500." |}, w);
  applyTechnologyEvent e bal techs w :=
    ({| tr_newBalance := bal; tr_message := "A new technology is discussed." |},
     techs, w)
|}.

Definition options : Options :=
  {| opt_testMode := false; opt_testEndYear := 0; opt_autoTerminate := false |}.

(** A new game whose [Math.random] always returns 0. *)
Definition game : State World unit unit := newGame options [].


(** The new game with all nine sustainable technologies researched. *)
Definition allResearched : State World unit unit :=
  set_researchedTechs sustainableTechs game.


(** The new game in Summer: its next season change leads to Fall. *)
Definition summerGame : State World unit unit := set_season Summer game.

(** A drought of three days that is due on day 360, and the game on that
    day with this drought pending. *)
Definition lateDrought : Event unit := mkEvent "drought" 360 (Some 3%Q) "".

Definition yearEnd : State World unit unit :=
  set_pendingEvents [lateDrought] (set_day 360 game).

(** A drought that is due on day 1, in a game that researched the
    technology which makes the drought handler skip. *)
Definition earlyDrought : Event unit := mkEvent "drought" 1 (Some 3%Q) "".

Definition protectedGame : State World unit unit :=
  set_researchedTechs ["drought_resistant"]
    (set_pendingEvents [earlyDrought] game).

(** An event of a type that [processPendingEvents] does not know. *)
Definition meteor : Event unit := mkEvent "meteor" 1 None "".

Definition meteorGame : State World unit unit :=
  set_pendingEvents [meteor] game.

(** The last day of Winter of year 1: the balance does not cover the
    overhead, the first cell is ripe, and rain is due on day 1. *)
Definition lastDay : State World unit unit :=
  storeCell 0 0 ripeCell
    (set_pendingEvents [mkEvent "rain" 1 None ""]
       (set_balance 500
          (set_season Winter (set_seasonDay 90 (set_day 360 game))))).


(** [Math.random] returns a number of [0, 1): a generator whose draws are
    the listed numbers that lie in this range, and 0 for the others. *)
Definition inUnit (r : Q) : Q :=
  if Qle_bool 0 r && Q_ltb r 1 then r else 0.

Definition fairRuntime : Runtime World := {|
  random w := match w with [] => (0%Q, []) | r :: w' => (inUnit r, w') end
|}.

(** The new game with three draws ahead. *)
Definition drawingGame : State World unit unit :=
  set_world [0.5%Q; 0.25%Q; 0.9%Q] game.

(** The new game in Summer with five draws ahead: two for the prices, two
    for the seeding of Fall, and 0.7 for the water recovery. *)
Definition lateSummer : State World unit unit :=
  set_world [0.5%Q; 0.5%Q; 0.9%Q; 0.9%Q; 0.7%Q] summerGame.

End Demo.

(** * Properties *)

Section Properties.
Context {World CellState Payload : Type}.
Context `{!Runtime World} `{!CellModule World CellState} `{!CropsModule}
  `{!TechnologyModule} `{!UtilsModule CellState}
  `{!EventsModule World CellState Payload}.

Abbreviation State := (State World CellState Payload).
Abbreviation Event := (Event Payload).

(** ** Footprints: the fields that each method may write

    An observation [p] of the state ignores a field when assigning the field
    does not change it. A method that writes only fields that [p] ignores
    leaves [p] as it was. *)

Ltac peel :=
  repeat match goal with
         | H : ignores ?p ?set |- _ => rewrite (H _ _)
         end.

Ltac break_match :=
  match goal with
  | |- context [match ?x with _ => _ end] =>
      lazymatch x with
      | context [match _ with _ => _ end] => fail
      | _ => destruct x
      end
  end.

Ltac footprint :=
  intros; repeat (cbv beta iota zeta; peel; try break_match); try reflexivity.

(** Closes [ignores p set_x] for a projection [p] of another field. *)
Ltac ignore := intros ? ?; reflexivity.

Lemma fold_left_preserves {A B} (p : State -> A) (f : State -> B -> State) :
  (forall s x, p (f s x) = p s) ->
  forall l s, p (fold_left f l s) = p s.
Proof.
  intros Hf l. induction l as [|x l IH]; intros s; simpl; [reflexivity|].
  rewrite IH. apply Hf.
Qed.

Section Footprints.
Context {A : Type} (p : State -> A).

Lemma nextRandom_footprint s :
  ignores p set_world -> p (nextRandom s).2 = p s.
Proof. unfold nextRandom. footprint. simpl. peel. reflexivity. Qed.

Lemma pushPending_footprint e s :
  ignores p set_pendingEvents -> p (pushPending e s) = p s.
Proof. unfold pushPending. footprint. Qed.

Lemma pushScheduled_footprint gen s :
  ignores p set_world -> ignores p set_pendingEvents ->
  p (pushScheduled gen s) = p s.
Proof. unfold pushScheduled, pushPending. footprint. Qed.

Lemma chance_footprint threshold action s :
  ignores p set_world -> (forall s', p (action s') = p s') ->
  p (chance threshold action s) = p s.
Proof.
  intros Hw Ha. unfold chance.
  pose proof (nextRandom_footprint s Hw) as Hr.
  destruct (nextRandom s) as [r s']. simpl in Hr.
  destruct (Q_ltb r threshold); [rewrite Ha|]; exact Hr.
Qed.

Lemma recoverWater_footprint base range s :
  ignores p set_world -> ignores p set_waterReserve ->
  p (recoverWater base range s).2 = p s.
Proof.
  intros Hw Hr. unfold recoverWater.
  pose proof (nextRandom_footprint s Hw) as Hn.
  destruct (nextRandom s) as [r s']. simpl in *. now rewrite Hr.
Qed.

Lemma addEvent_footprint msg alert s :
  ignores p set_events -> p (addEvent msg alert s) = p s.
Proof. unfold addEvent. footprint. Qed.

Lemma payDailyOverhead_footprint s :
  ignores p set_events -> ignores p set_balance ->
  p (payDailyOverhead s) = p s.
Proof. unfold payDailyOverhead, addEvent. footprint. Qed.

Lemma updateFarm_footprint s :
  ignores p set_events -> ignores p set_grid -> ignores p set_world ->
  p (updateFarm s) = p s.
Proof.
  intros He Hg Hw. unfold updateFarm.
  destruct (updateRows _ _ _ _ _) as [[g r] w].
  rewrite fold_left_preserves; [footprint|].
  intros s' [row col]. unfold announceHarvest, addEvent. footprint.
Qed.

Lemma fluctuateMarketPrices_footprint s :
  ignores p set_marketPrices -> ignores p set_world ->
  p (fluctuateMarketPrices s) = p s.
Proof.
  intros Hm Hw. unfold fluctuateMarketPrices. apply fold_left_preserves.
  intros s' c. unfold fluctuatePrice.
  destruct (String.eqb _ _); [reflexivity|].
  pose proof (nextRandom_footprint s' Hw) as Hn.
  destruct (nextRandom s') as [r s'']. simpl in Hn.
  destruct (marketPrices s'' !! crop_id c); [rewrite Hm|]; exact Hn.
Qed.

Lemma advanceSeason_footprint s :
  ignores p set_events -> ignores p set_marketPrices -> ignores p set_world ->
  ignores p set_pendingEvents -> ignores p set_waterReserve ->
  p (advanceSeason s) = p (set_season (nextSeason (season s)) s).
Proof.
  intros He Hm Hw Hp Hr. unfold advanceSeason.
  set (s1 := fluctuateMarketPrices _).
  assert (H1 : p s1 = p (set_season (nextSeason (season s)) s)).
  { unfold s1. rewrite fluctuateMarketPrices_footprint by assumption.
    now rewrite addEvent_footprint. }
  rewrite <- H1. clearbody s1.
  assert (Hpush : forall gen s', p (pushScheduled gen s') = p s')
    by (intros; now apply pushScheduled_footprint).
  match goal with
  | |- p (if _ then addEvent _ _ ?x else ?x) = _ =>
      transitivity (p x);
      [destruct (_ && _); [now apply addEvent_footprint|reflexivity]|]
  end.
  destruct (season s1).
  - match goal with
    | |- context [recoverWater ?b ?r ?x] =>
        pose proof (recoverWater_footprint b r x Hw Hr) as Hrec;
        destruct (recoverWater b r x) as [rec s2]
    end.
    simpl in Hrec. rewrite addEvent_footprint, Hrec by assumption.
    now apply chance_footprint.
  - rewrite !chance_footprint; auto.
  - match goal with
    | |- context [recoverWater ?b ?r ?x] =>
        pose proof (recoverWater_footprint b r x Hw Hr) as Hrec;
        destruct (recoverWater b r x) as [rec s2]
    end.
    simpl in Hrec.
    transitivity (p s2);
      [destruct (5 <? rec); [now apply addEvent_footprint|reflexivity]|].
    rewrite Hrec, !chance_footprint; auto.
  - match goal with
    | |- context [recoverWater ?b ?r ?x] =>
        pose proof (recoverWater_footprint b r x Hw Hr) as Hrec;
        destruct (recoverWater b r x) as [rec s2]
    end.
    simpl in Hrec.
    transitivity (p s2);
      [destruct (5 <? rec); [now apply addEvent_footprint|reflexivity]|].
    rewrite Hrec, !chance_footprint; auto.
Qed.

Lemma distributeSubsidy_footprint score s :
  ignores p set_world -> ignores p set_balance -> ignores p set_events ->
  p (distributeSubsidy score s) = p s.
Proof.
  intros Hw Hb He. unfold distributeSubsidy.
  pose proof (nextRandom_footprint s Hw) as Hn.
  destruct (nextRandom s) as [r s']. simpl in Hn.
  destruct (0 <? _); rewrite addEvent_footprint by assumption;
    [rewrite Hb|]; exact Hn.
Qed.

(** What [advanceYear] does apart from the log, the subsidy and the
    milestone: the year, the overhead, the farm value and the climate. *)
Lemma advanceYear_footprint s :
  ignores p set_events -> ignores p set_balance -> ignores p set_world ->
  ignores p set_pendingEvents ->
  let s1 := applyAnnualInflation (set_year (year s + 1) s) in
  p (advanceYear s)
  = p (set_climate (intensifyClimate (climate s))
         (set_farmValue (calculateFarmValue (grid s) (technologies s)) s1)).
Proof.
  intros He Hb Hw Hp s1. unfold advanceYear. fold s1.
  set (score := calculateSustainabilityScore _).
  set (s2 := set_climate _ _).
  assert (Hsub : p (distributeSubsidy score (addEvent
            ("Happy New Year! Completed Year " +:+ show_Z (year s2 - 1)
             +:+ " of farming.") false s2)) = p s2).
  { rewrite distributeSubsidy_footprint by assumption.
    now apply addEvent_footprint. }
  set (s3 := distributeSubsidy _ _) in *.
  change (p s3 = p s2) in Hsub. clearbody s3.
  destruct (Z.rem (year s3) 10 =? 0); [|exact Hsub].
  rewrite chance_footprint; [now rewrite addEvent_footprint| assumption |].
  intros s'. rewrite addEvent_footprint by assumption.
  now apply pushScheduled_footprint.
Qed.

Lemma dispatchEvent_footprint s event :
  ignores p set_grid -> ignores p set_world -> ignores p set_waterReserve ->
  ignores p set_events -> ignores p set_pendingEvents ->
  ignores p set_marketPrices -> ignores p set_balance ->
  ignores p set_researchedTechs ->
  p (dispatchEvent s event) = p s.
Proof.
  unfold dispatchEvent, addEvent, pushPending. footprint.
Qed.

Lemma processPendingEvents_footprint s :
  ignores p set_grid -> ignores p set_world -> ignores p set_waterReserve ->
  ignores p set_events -> ignores p set_pendingEvents ->
  ignores p set_marketPrices -> ignores p set_balance ->
  ignores p set_researchedTechs ->
  p (processPendingEvents s) = p s.
Proof.
  intros. unfold processPendingEvents. peel.
  apply fold_left_preserves. intros. now apply dispatchEvent_footprint.
Qed.

Lemma ambientEvent_footprint s :
  ignores p set_world -> ignores p set_pendingEvents -> ignores p set_events ->
  p (ambientEvent s) = p s.
Proof.
  intros Hw Hp He. unfold ambientEvent. apply chance_footprint; [assumption|].
  unfold addEvent, pushPending. footprint.
Qed.

Lemma afterEvents_footprint s :
  ignores p set_farmHealth -> ignores p set_world ->
  ignores p set_pendingEvents -> ignores p set_events -> ignores p set_paused ->
  p (afterEvents s) = p s.
Proof.
  intros Hf Hw Hp He Hpa. unfold afterEvents.
  set (s1 := ambientEvent _).
  assert (H1 : p s1 = p s).
  { unfold s1. rewrite ambientEvent_footprint by assumption. apply Hf. }
  clearbody s1. unfold runTestUpdate. footprint; assumption.
Qed.

End Footprints.

(** ** The clock *)

Lemma update_split (s : State) :
  update s = afterEvents (processPendingEvents (beforeEvents s)).
Proof. unfold update, afterEvents, beforeEvents. reflexivity. Qed.

Lemma nextSeason_cycle :
  nextSeason Spring = Summer /\ nextSeason Summer = Fall
  /\ nextSeason Fall = Winter /\ nextSeason Winter = Spring.
Proof. repeat split. Qed.

Lemma beforeEvents_clock (s : State) :
  clock (beforeEvents s)
  = (if 360 <? day s + 1 then 1 else day s + 1,
     if 90 <? seasonDay s + 1 then 1 else seasonDay s + 1,
     if 90 <? seasonDay s + 1 then nextSeason (season s) else season s,
     if 360 <? day s + 1 then year s + 1 else year s).
Proof.
  unfold beforeEvents.
  set (s2 := updateFarm _).
  assert (H2 : clock s2 = (day s + 1, seasonDay s + 1, season s, year s)).
  { unfold s2. rewrite updateFarm_footprint by ignore.
    now rewrite payDailyOverhead_footprint by ignore. }
  clearbody s2.
  set (s4 := if 90 <? seasonDay s2 then _ else _).
  assert (H4 : clock s4
               = (day s + 1,
                  if 90 <? seasonDay s + 1 then 1 else seasonDay s + 1,
                  if 90 <? seasonDay s + 1 then nextSeason (season s)
                  else season s,
                  year s)).
  { unfold s4. injection H2 as Hd Hsd Hs Hy. rewrite Hsd.
    destruct (90 <? seasonDay s + 1).
    - rewrite advanceSeason_footprint by ignore.
      unfold clock. simpl. now rewrite Hd, Hs, Hy.
    - unfold clock. now rewrite Hd, Hsd, Hs, Hy. }
  clearbody s4. injection H4 as Hd Hsd Hs Hy. rewrite Hd.
  destruct (360 <? day s + 1).
  - rewrite advanceYear_footprint by ignore.
    unfold clock. simpl. now rewrite Hsd, Hs, Hy.
  - unfold clock. now rewrite Hd, Hsd, Hs, Hy.
Qed.

Lemma update_clock (s : State) : clock (update s) = clock (beforeEvents s).
Proof.
  rewrite update_split, afterEvents_footprint by ignore.
  now rewrite processPendingEvents_footprint by ignore.
Qed.

(** C5. On every tick the season stays or moves one step along
    Spring, Summer, Fall, Winter, Spring; [seasonDay] resets to 1 and the
    season advances exactly when the incremented [seasonDay] exceeds 90;
    [day] resets to 1 and the year increments exactly when the incremented
    [day] exceeds 360. Each rollover reads its own counter only, so both,
    either or neither can fire in a tick. *)
Theorem clock_rollovers (s : State) :
  seasonDay (update s) = (if 90 <? seasonDay s + 1 then 1 else seasonDay s + 1)
  /\ season (update s)
     = (if 90 <? seasonDay s + 1 then nextSeason (season s) else season s)
  /\ day (update s) = (if 360 <? day s + 1 then 1 else day s + 1)
  /\ year (update s) = (if 360 <? day s + 1 then year s + 1 else year s)
  /\ nextSeason Spring = Summer /\ nextSeason Summer = Fall
  /\ nextSeason Fall = Winter /\ nextSeason Winter = Spring.
Proof.
  pose proof (update_clock s) as Hc. rewrite beforeEvents_clock in Hc.
  injection Hc as Hd Hsd Hs Hy. repeat split; assumption.
Qed.

(** ** Pending events only grow until their day comes *)

Section SeedsLemmas.
Context (P : Event -> Prop).

Lemma Seeds_refl (s : State) : Seeds P s s.
Proof. exists []. split; [now rewrite app_nil_r|constructor]. Qed.

Lemma Seeds_same (s s1 s2 : State) :
  Seeds P s s1 -> pendingEvents s2 = pendingEvents s1 -> Seeds P s s2.
Proof. intros [l [Hl HP]] Heq. exists l. now rewrite Heq. Qed.

Lemma Seeds_trans (s1 s2 s3 : State) : Seeds P s1 s2 -> Seeds P s2 s3 -> Seeds P s1 s3.
Proof.
  intros [l1 [H1 HP1]] [l2 [H2 HP2]]. exists (l1 ++ l2). split.
  - now rewrite H2, H1, app_assoc.
  - now apply Forall_app.
Qed.

Lemma Seeds_pushPending e (s : State) : P e -> Seeds P s (pushPending e s).
Proof. intros He. exists [e]. split; [reflexivity|]. now repeat constructor. Qed.

Lemma Seeds_pushScheduled gen (s : State) :
  (forall w, P (gen w).1) -> Seeds P s (pushScheduled gen s).
Proof.
  intros Hgen. unfold pushScheduled. specialize (Hgen (world s)).
  destruct (gen (world s)) as [e w]. exists [e]. split; [reflexivity|].
  now repeat constructor.
Qed.

Lemma Seeds_chance threshold action (s : State) :
  (forall s', Seeds P s' (action s')) -> Seeds P s (chance threshold action s).
Proof.
  intros Ha. unfold chance.
  pose proof (nextRandom_footprint pendingEvents s) as Hn.
  destruct (nextRandom s) as [r s']. simpl in Hn.
  assert (Hs : Seeds P s s').
  { eapply Seeds_same; [apply Seeds_refl|]. apply Hn. ignore. }
  destruct (Q_ltb r threshold); [|exact Hs].
  eapply Seeds_trans; [exact Hs|apply Ha].
Qed.

Lemma Seeds_addEvent msg alert (s s' : State) :
  Seeds P s s' -> Seeds P s (addEvent msg alert s').
Proof. intros Hs. eapply Seeds_same; [exact Hs|reflexivity]. Qed.

Lemma Seeds_In (s s' : State) c :
  Seeds P s s' -> In c (pendingEvents s) -> In c (pendingEvents s').
Proof. intros [l [Hl _]] Hin. rewrite Hl. apply in_or_app. now left. Qed.

End SeedsLemmas.

Ltac after_recovery :=
  match goal with
  | |- context [recoverWater ?b ?r ?x] =>
      let Hrec := fresh "Hrec" in
      pose proof (recoverWater_footprint pendingEvents b r x) as Hrec;
      destruct (recoverWater b r x) as [? ?]; simpl in Hrec;
      eapply Seeds_same;
      [|match goal with
        | |- context [if ?c then _ else _] =>
            destruct c; [unfold addEvent; simpl|];
            apply Hrec; ignore
        | |- _ => unfold addEvent; simpl;
            apply Hrec; ignore
        end]
  end.

(** The events that a season change seeds, by the season it leads to. *)
Lemma advanceSeason_seeds (P : Event -> Prop) (s : State) :
  (nextSeason (season s) = Summer ->
   forall d q w, P (scheduleDrought d q w).1) ->
  (nextSeason (season s) = Summer \/ nextSeason (season s) = Fall ->
   forall d w, P (scheduleHeatwave d w).1) ->
  (nextSeason (season s) = Winter -> forall d w, P (scheduleFrost d w).1) ->
  (nextSeason (season s) = Spring \/ nextSeason (season s) = Fall ->
   forall d w, P (scheduleRain d w).1) ->
  Seeds P s (advanceSeason s).
Proof.
  intros Hdrought Hheat Hfrost Hrain. unfold advanceSeason.
  set (s1 := fluctuateMarketPrices _).
  assert (Hp1 : pendingEvents s1 = pendingEvents s).
  { unfold s1. now rewrite fluctuateMarketPrices_footprint
      by ignore. }
  assert (Hs1 : season s1 = nextSeason (season s)).
  { unfold s1. now rewrite fluctuateMarketPrices_footprint
      by ignore. }
  assert (H1 : Seeds P s s1) by (eapply Seeds_same; [apply Seeds_refl|exact Hp1]).
  clearbody s1.
  match goal with
  | |- Seeds P s (if _ then addEvent _ _ ?x else ?x) =>
      cut (Seeds P s x);
      [intros Hx; destruct (_ && _); [now apply Seeds_addEvent|exact Hx]|]
  end.
  eapply Seeds_trans; [exact H1|]. rewrite <- Hs1 in *. clear H1 Hp1 Hs1.
  destruct (season s1).
  - after_recovery. apply Seeds_chance. intros. apply Seeds_pushScheduled. auto.
  - eapply Seeds_trans; apply Seeds_chance; intros; apply Seeds_pushScheduled;
      auto.
  - after_recovery.
    eapply Seeds_trans; apply Seeds_chance; intros; apply Seeds_pushScheduled;
      auto.
  - after_recovery. apply Seeds_chance. intros. apply Seeds_pushScheduled. auto.
Qed.

Lemma advanceSeason_season (s : State) :
  season (advanceSeason s) = nextSeason (season s).
Proof. now rewrite advanceSeason_footprint by ignore. Qed.

(** C7, amended. On a season change the seasonal seeding enqueues only:
    drought and heatwave when the new season is Summer, frost when it is
    Winter, rain when it is Spring, and rain and heatwave when it is Fall. *)
Theorem seasonal_seeding (s : State) :
  GeneratorsTagged -> SeedingRespects seedAllowed s.
Proof.
  intros (Hdrought & Hheat & Hfrost & Hrain). unfold SeedingRespects.
  rewrite advanceSeason_season.
  apply advanceSeason_seeds.
  - intros -> d q w. now rewrite Hdrought.
  - intros [-> | ->] d w; now rewrite Hheat.
  - intros -> d w. now rewrite Hfrost.
  - intros [-> | ->] d w; now rewrite Hrain.
Qed.

(** ** Resolution of the pending events *)

Lemma dispatchEvent_seeds (s : State) (event : Event) :
  Seeds anyEvent s (dispatchEvent s event).
Proof.
  unfold dispatchEvent, addEvent, pushPending.
  repeat (cbv beta iota zeta; try break_match);
    (eexists; split;
     [simpl; first [reflexivity | symmetry; apply app_nil_r]
     |repeat constructor]).
Qed.

Lemma dispatchEvents_seeds (l : list Event) (s : State) :
  Seeds anyEvent s (fold_left dispatchEvent l s).
Proof.
  revert s. induction l as [|e l IH]; intros s; simpl.
  - apply Seeds_refl.
  - eapply Seeds_trans; [apply dispatchEvent_seeds|apply IH].
Qed.

Lemma dispatchEvents_day (l : list Event) (s : State) :
  day (fold_left dispatchEvent l s) = day s.
Proof.
  apply fold_left_preserves. intros.
  apply dispatchEvent_footprint; ignore.
Qed.

Lemma processPendingEvents_pending (s : State) :
  pendingEvents (processPendingEvents s)
  = List.filter (fun event => negb (ev_day event =? day s))
      (pendingEvents (fold_left dispatchEvent (activeEvents s) s)).
Proof. unfold processPendingEvents. simpl. now rewrite dispatchEvents_day. Qed.

(** An event whose day is not today survives the resolution. *)
Lemma processPendingEvents_keeps (s : State) (c : Event) :
  In c (pendingEvents s) -> ev_day c <> day s ->
  In c (pendingEvents (processPendingEvents s)).
Proof.
  intros Hin Hday. rewrite processPendingEvents_pending.
  apply filter_In. split.
  - eapply Seeds_In; [apply dispatchEvents_seeds|exact Hin].
  - apply negb_true_iff. now apply Z.eqb_neq.
Qed.

(** No event of today survives it. *)
Lemma processPendingEvents_clears (s : State) (c : Event) :
  In c (pendingEvents (processPendingEvents s)) -> ev_day c <> day s.
Proof.
  rewrite processPendingEvents_pending. intros Hin.
  apply filter_In in Hin as [_ Hday].
  apply negb_true_iff in Hday. now apply Z.eqb_neq.
Qed.

Lemma dispatch_unrecognized (s : State) (event : Event) :
  ~ In (ev_type event) recognizedTypes -> dispatchEvent s event = s.
Proof.
  intros Hn. unfold dispatchEvent.
  repeat match goal with
         | |- context [String.eqb (ev_type event) ?t] =>
             destruct (String.eqb_spec (ev_type event) t) as [Heq|_];
             [exfalso; apply Hn; rewrite Heq; simpl; tauto|]
         end.
  reflexivity.
Qed.

(** C6. After [processPendingEvents] has run on day [d], no pending event
    has the trigger day [d], whatever its type, and the day is still [d];
    dispatching an event whose type is none of the seven recognized tags
    leaves the whole state, the event log included, as it was. *)
Theorem pending_events_of_the_day_are_removed (s : State) :
  day (processPendingEvents s) = day s
  /\ (forall c, In c (pendingEvents (processPendingEvents s)) ->
                ev_day c <> day s)
  /\ (forall event s',
        ~ In (ev_type event) recognizedTypes -> dispatchEvent s' event = s').
Proof.
  split; [|split].
  - apply processPendingEvents_footprint; ignore.
  - apply processPendingEvents_clears.
  - intros event s'. apply dispatch_unrecognized.
Qed.

(** What the dispatch of a drought or of a heatwave does, by the result of
    the handler. *)
Lemma dispatch_weather (s : State) (event : Event) (r : WeatherResult) :
  weatherResult s event = Some r ->
  exists g w,
    let s1 := set_world w (set_grid g s) in
    dispatchEvent s event
    = if skipped r then s1
      else
        let s2 :=
          addEvent (wr_message r) true
            (set_waterReserve (wr_waterReserve r) s1) in
        if continueEvent r then
          pushPending
            (if String.eqb (ev_type event) "drought"
             then droughtContinuation r s2 else heatwaveContinuation r s2) s2
        else
          addEvent
            (if String.eqb (ev_type event) "drought"
             then "The drought has ended." else "The heatwave has ended.")
            false s2.
Proof.
  unfold weatherResult, dispatchEvent.
  destruct (String.eqb_spec (ev_type event) "drought") as [Hd|Hd].
  - rewrite Hd. simpl String.eqb. cbv iota.
    destruct (applyDroughtEvent _ _ _ _ _) as [[r' g] w]. simpl.
    intros [= <-]. exists g, w. now destruct (skipped r'), (continueEvent r').
  - destruct (String.eqb_spec (ev_type event) "heatwave") as [Hh|Hh];
      [|discriminate].
    rewrite Hh. simpl String.eqb. cbv iota.
    destruct (applyHeatwaveEvent _ _ _ _ _) as [[r' g] w]. simpl.
    intros [= <-]. exists g, w. now destruct (skipped r'), (continueEvent r').
Qed.

Lemma weatherResult_type (s : State) (event : Event) (r : WeatherResult) :
  weatherResult s event = Some r ->
  ev_type event = "drought" \/ ev_type event = "heatwave".
Proof.
  unfold weatherResult.
  destruct (String.eqb_spec (ev_type event) "drought"); [now left|].
  destruct (String.eqb_spec (ev_type event) "heatwave"); [now right|].
  discriminate.
Qed.

(** C10. When the handler of a drought or of a heatwave returns
    [skipped = true], the dispatch logs nothing, enqueues nothing and leaves
    the water reserve alone; at the end of the resolution the event is gone
    from the pending events, and when it was the only event of the day the
    whole resolution logs nothing and leaves only events that were pending
    before, none of them for that day: the chain ends without a word. *)
Theorem skipped_weather_ends_silently
    (s : State) (event : Event) (r : WeatherResult) :
  weatherResult s event = Some r ->
  skipped r = true ->
  (events (dispatchEvent s event) = events s
   /\ pendingEvents (dispatchEvent s event) = pendingEvents s
   /\ waterReserve (dispatchEvent s event) = waterReserve s)
  /\ (ev_day event = day s ->
      ~ In event (pendingEvents (processPendingEvents s)))
  /\ (activeEvents s = [event] ->
      events (processPendingEvents s) = events s
      /\ pendingEvents (processPendingEvents s)
         = List.filter (fun e => negb (ev_day e =? day s)) (pendingEvents s)
      /\ forall c, In c (pendingEvents (processPendingEvents s)) ->
                   In c (pendingEvents s) /\ ev_day c <> day s).
Proof.
  intros Hr Hskip.
  destruct (dispatch_weather s event r Hr) as (g & w & Hd).
  rewrite Hskip in Hd. cbv zeta iota in Hd.
  split; [|split].
  - rewrite Hd. repeat split.
  - intros Hday Hin. now apply processPendingEvents_clears in Hin.
  - intros Hactive.
    assert (Hp : pendingEvents (processPendingEvents s)
                 = List.filter (fun e => negb (ev_day e =? day s))
                     (pendingEvents s)).
    { rewrite processPendingEvents_pending, Hactive. simpl. now rewrite Hd. }
    split; [|split].
    + unfold processPendingEvents. rewrite Hactive. simpl. now rewrite Hd.
    + exact Hp.
    + intros c Hin. split.
      * rewrite Hp in Hin. now apply filter_In in Hin.
      * now apply processPendingEvents_clears.
Qed.

(** ** A continuation scheduled past the end of the year *)

Lemma advanceYear_seeds (s : State) : Seeds anyEvent s (advanceYear s).
Proof.
  unfold advanceYear.
  set (score := calculateSustainabilityScore _).
  set (s3 := distributeSubsidy _ _).
  assert (H3 : pendingEvents s3 = pendingEvents s).
  { unfold s3. now rewrite distributeSubsidy_footprint
      by ignore. }
  assert (Hs3 : Seeds anyEvent s s3)
    by (eapply Seeds_same; [apply Seeds_refl|exact H3]).
  clearbody s3. destruct (Z.rem (year s3) 10 =? 0); [|exact Hs3].
  eapply Seeds_trans; [exact Hs3|].
  eapply Seeds_trans; [apply Seeds_addEvent, Seeds_refl|].
  apply Seeds_chance. intros s'. apply Seeds_addEvent, Seeds_pushScheduled.
  intros; exact I.
Qed.

Lemma beforeEvents_seeds (s : State) : Seeds anyEvent s (beforeEvents s).
Proof.
  unfold beforeEvents.
  set (s2 := updateFarm _).
  assert (H2 : Seeds anyEvent s s2).
  { eapply Seeds_same; [apply Seeds_refl|]. unfold s2.
    rewrite updateFarm_footprint by ignore.
    now rewrite payDailyOverhead_footprint by ignore. }
  clearbody s2.
  set (s4 := if 90 <? seasonDay s2 then _ else _).
  assert (H4 : Seeds anyEvent s s4).
  { unfold s4. destruct (90 <? seasonDay s2); [|exact H2].
    eapply Seeds_trans; [exact H2|].
    eapply Seeds_trans;
      [|apply advanceSeason_seeds; intros; exact I].
    eapply Seeds_same; [apply Seeds_refl|reflexivity]. }
  clearbody s4. destruct (360 <? day s4); [|exact H4].
  eapply Seeds_trans; [exact H4|].
  eapply Seeds_trans; [|apply advanceYear_seeds].
  eapply Seeds_same; [apply Seeds_refl|reflexivity].
Qed.

Lemma afterEvents_seeds (s : State) : Seeds anyEvent s (afterEvents s).
Proof.
  unfold afterEvents.
  set (s1 := ambientEvent _).
  assert (H1 : Seeds anyEvent s s1).
  { unfold s1, ambientEvent.
    eapply Seeds_trans; [|apply Seeds_chance].
    - eapply Seeds_same; [apply Seeds_refl|reflexivity].
    - intros s'. destruct (generateRandomEvent _ _) as [[e|] w].
      + apply Seeds_addEvent.
        eapply Seeds_trans; [|apply Seeds_pushPending; exact I].
        eapply Seeds_same; [apply Seeds_refl|reflexivity].
      + eapply Seeds_same; [apply Seeds_refl|reflexivity]. }
  clearbody s1. destruct (testMode s1); [|exact H1].
  eapply Seeds_same; [exact H1|]. unfold runTestUpdate.
  now destruct (_ && _).
Qed.

(** When the events are resolved the day is at most 360. *)
Lemma beforeEvents_day (s : State) : day (beforeEvents s) <= 360.
Proof.
  pose proof (beforeEvents_clock s) as Hc. injection Hc as Hd _ _ _.
  rewrite Hd. destruct (360 <? day s + 1) eqn:E; lia.
Qed.

Lemma update_strands (s : State) (c : Event) :
  In c (pendingEvents s) -> 360 < ev_day c ->
  In c (pendingEvents (update s))
  /\ ~ In c (activeEvents (beforeEvents s)).
Proof.
  intros Hin Hlate. pose proof (beforeEvents_day s) as Hday. split.
  - rewrite update_split.
    eapply Seeds_In; [apply afterEvents_seeds|].
    apply processPendingEvents_keeps; [|lia].
    eapply Seeds_In; [apply beforeEvents_seeds|exact Hin].
  - unfold activeEvents. intros Hact. apply filter_In in Hact as [_ Heq].
    apply Z.eqb_eq in Heq. lia.
Qed.

Lemma ticks_strand (n : nat) (s : State) (c : Event) :
  In c (pendingEvents s) -> 360 < ev_day c ->
  In c (pendingEvents (ticks n s))
  /\ ~ In c (activeEvents (beforeEvents (ticks n s))).
Proof.
  revert s. induction n as [|n IH]; intros s Hin Hlate; simpl.
  - split; [exact Hin|]. now apply update_strands.
  - apply IH; [|exact Hlate]. now apply update_strands.
Qed.

(** C9. A drought or a heatwave that is resolved on day 360 and continues
    enqueues its continuation for day 361 and logs only its effect, not
    that it ended. In any state that holds this continuation, after any
    number of ticks it is still pending and it is not among the events that
    the tick dispatches: the day is reset to 1 before the events are
    resolved, so day 361 never comes. *)
Theorem continuation_past_year_end_is_stranded
    (s : State) (event : Event) (r : WeatherResult) :
  day s = 360 ->
  weatherResult s event = Some r ->
  skipped r = false ->
  continueEvent r = true ->
  exists c,
    pendingEvents (dispatchEvent s event) = pendingEvents s ++ [c]
    /\ ev_type c = ev_type event
    /\ ev_day c = 361
    /\ events (dispatchEvent s event) = events (addEvent (wr_message r) true s)
    /\ forall s' n,
         In c (pendingEvents s') ->
         In c (pendingEvents (ticks n s'))
         /\ ~ In c (activeEvents (beforeEvents (ticks n s'))).
Proof.
  intros Hday Hr Hskip Hcont.
  destruct (dispatch_weather s event r Hr) as (g & w & Hd).
  rewrite Hskip, Hcont in Hd. cbv zeta iota in Hd.
  destruct (weatherResult_type s event r Hr) as [Ht | Ht];
    rewrite Ht in Hd; simpl String.eqb in Hd; cbv iota in Hd;
    eexists; rewrite Hd;
    (split; [reflexivity|]); (split; [now rewrite Ht|]);
    (split; [simpl; lia|]); (split; [reflexivity|]);
    intros s' n Hin; (apply ticks_strand; [assumption|simpl; lia]).
Qed.

(** ** The year change: climate and inflation *)

Lemma advanceYear_climate (s : State) :
  climate (advanceYear s) = intensifyClimate (climate s).
Proof. now rewrite advanceYear_footprint by ignore. Qed.

Lemma Qlt_add_pos (x d : Q) : (0 < d)%Q -> (x < x + d)%Q.
Proof.
  intros Hd. rewrite <- (Qplus_0_r x) at 1. now apply Qplus_lt_r.
Qed.

(** C8, amended. On every year change the drought probability and the
    heatwave probability each increase by exactly 0.005; the flood
    probability stays as it is. *)
Theorem climate_drift (s : State) :
  droughtProbability (climate (advanceYear s))
  = (droughtProbability (climate s) + 0.005)%Q
  /\ heatwaveProbability (climate (advanceYear s))
     = (heatwaveProbability (climate s) + 0.005)%Q
  /\ floodProbability (climate (advanceYear s)) = floodProbability (climate s)
  /\ (droughtProbability (climate s)
      < droughtProbability (climate (advanceYear s)))%Q
  /\ (heatwaveProbability (climate s)
      < heatwaveProbability (climate (advanceYear s)))%Q.
Proof.
  rewrite advanceYear_climate. simpl.
  repeat split; apply Qlt_add_pos; reflexivity.
Qed.

Lemma advanceYear_inflation (s : State) :
  overheadCostPerCell (advanceYear s)
  = js_round (inject_Z (overheadCostPerCell s) * (1 + annualInflationRate s))
  /\ annualInflationRate (advanceYear s) = annualInflationRate s.
Proof.
  split; now rewrite advanceYear_footprint by ignore.
Qed.


Lemma storeCell_balance row col cell (s : State) :
  balance (storeCell row col cell s) = balance s.
Proof. unfold storeCell. now destruct (grid s !! row). Qed.










(** ** The event log is written by [addEvent] only *)

Lemma Pushed_trans (l1 l2 l3 : list LogEntry) :
  Pushed l1 l2 -> Pushed l2 l3 -> Pushed l1 l3.
Proof.
  intros H12 H23. induction H23 as [|entry l3 _ IH]; [exact H12|].
  now constructor.
Qed.

Lemma Pushed_addEvent (l : list LogEntry) msg alert (s : State) :
  Pushed l (events s) -> Pushed l (events (addEvent msg alert s)).
Proof. intros Hs. unfold addEvent. simpl events. now apply Pushed_more. Qed.

Lemma Logs_refl (s : State) : Logs s s.
Proof. constructor. Qed.

Lemma Logs_trans (s1 s2 s3 : State) : Logs s1 s2 -> Logs s2 s3 -> Logs s1 s3.
Proof. apply Pushed_trans. Qed.

Lemma Logs_same (s s1 s2 : State) :
  Logs s s1 -> events s2 = events s1 -> Logs s s2.
Proof. unfold Logs. now intros H1 ->. Qed.

Lemma Logs_untouched (s s' : State) : events s' = events s -> Logs s s'.
Proof. intros Heq. eapply Logs_same; [apply Logs_refl|exact Heq]. Qed.

Ltac logs :=
  unfold Logs;
  repeat (cbn [events set_day set_year set_season set_seasonDay set_balance
               set_farmValue set_farmHealth set_waterReserve set_paused
               set_overheadCostPerCell set_grid set_technologies
               set_researchedTechs set_events set_pendingEvents
               set_marketPrices set_climate set_world];
          first [apply Pushed_none | apply Pushed_addEvent]).

Lemma Logs_chance threshold action (s : State) :
  (forall s', Logs s' (action s')) -> Logs s (chance threshold action s).
Proof.
  intros Ha. unfold chance.
  pose proof (nextRandom_footprint events s) as Hn.
  destruct (nextRandom s) as [r s']. simpl in Hn.
  assert (Hs : Logs s s') by (apply Logs_untouched, Hn; ignore).
  destruct (Q_ltb r threshold); [|exact Hs].
  eapply Logs_trans; [exact Hs|apply Ha].
Qed.

Lemma Logs_fold {B} (f : State -> B -> State) (l : list B) (s : State) :
  (forall s' x, Logs s' (f s' x)) -> Logs s (fold_left f l s).
Proof.
  intros Hf. revert s. induction l as [|x l IH]; intros s; simpl.
  - apply Logs_refl.
  - eapply Logs_trans; [apply Hf|apply IH].
Qed.

Lemma payDailyOverhead_logs (s : State) : Logs s (payDailyOverhead s).
Proof. unfold payDailyOverhead. destruct (_ <=? _); logs. Qed.

Lemma updateFarm_logs (s : State) : Logs s (updateFarm s).
Proof.
  unfold updateFarm. destruct (updateRows _ _ _ _ _) as [[g ready] w].
  eapply Logs_trans; [|apply Logs_fold].
  - logs.
  - intros s' [row col]. unfold announceHarvest.
    destruct (gridCell _ _ _); logs.
Qed.

Lemma pushScheduled_logs gen (s : State) : Logs s (pushScheduled gen s).
Proof. unfold pushScheduled, pushPending. destruct (gen _). logs. Qed.

Lemma pushAll_app (l1 l2 log : list LogEntry) :
  pushAll (l1 ++ l2) log = pushAll l2 (pushAll l1 log).
Proof. apply fold_left_app. Qed.

Lemma Pushed_pushAll (l l' : list LogEntry) :
  Pushed l l' -> exists entries, l' = pushAll entries l.
Proof.
  intros Hp. induction Hp as [|entry l' _ [entries ->]].
  - now exists [].
  - exists (entries ++ [entry]). now rewrite pushAll_app.
Qed.

Lemma pushAll_Pushed (entries l : list LogEntry) : Pushed l (pushAll entries l).
Proof.
  revert l. induction entries as [|entry entries IH]; intros l; simpl.
  - constructor.
  - eapply Pushed_trans; [|apply IH]. repeat constructor.
Qed.

(** A method that calls [addEvent] first and then writes the log through
    [addEvent] only logs this first entry and then some more. *)
Lemma Logs_after_push entry (s s1 s' : State) :
  events s1 = logPush entry (events s) -> Logs s1 s' ->
  exists rest, events s' = pushAll (entry :: rest) (events s).
Proof.
  intros H1 Hlogs. destruct (Pushed_pushAll _ _ Hlogs) as [rest Hrest].
  exists rest. rewrite Hrest, H1. reflexivity.
Qed.

(** The season change logs the new season first, dated with it. *)
Lemma advanceSeason_log (s : State) :
  exists rest,
    events (advanceSeason s)
    = pushAll
        ({| date := seasonName (nextSeason (season s)) +:+ ", Year "
                    +:+ show_Z (year s);
            message := "Season changed to "
                       +:+ seasonName (nextSeason (season s));
            isAlert := false |} :: rest)
        (events s).
Proof.
  apply (Logs_after_push _ s
           (addEvent ("Season changed to "
                      +:+ seasonName (nextSeason (season s))) false
              (set_season (nextSeason (season s)) s)));
    [reflexivity|].
  set (s0 := addEvent _ false _).
  unfold advanceSeason.
  set (s1 := fluctuateMarketPrices _).
  assert (H1 : Logs s0 s1).
  { unfold s1. apply Logs_untouched.
    apply fluctuateMarketPrices_footprint; ignore. }
  clearbody s1.
  match goal with
  | |- Logs s0 (if _ then addEvent _ _ ?x else ?x) =>
      cut (Logs s0 x);
      [intros Hx; destruct (_ && _); [now apply Pushed_addEvent|exact Hx]|]
  end.
  eapply Logs_trans; [exact H1|]. clear H1.
  assert (Hrec : forall base range (s' : State),
             Logs s' (recoverWater base range s').2).
  { intros. apply Logs_untouched. apply recoverWater_footprint; ignore. }
  assert (Hpush : forall t gen (s' : State),
             Logs s' (chance t (fun s => pushScheduled (gen s) s) s')).
  { intros. apply Logs_chance. intros. apply pushScheduled_logs. }
  destruct (season s1).
  - match goal with
    | |- context [recoverWater ?b ?r ?x] =>
        specialize (Hrec b r x); destruct (recoverWater b r x) as [rec s2]
    end.
    simpl in Hrec. apply Pushed_addEvent.
    eapply Logs_trans; [apply Hpush|exact Hrec].
  - eapply Logs_trans; apply Hpush.
  - match goal with
    | |- context [recoverWater ?b ?r ?x] =>
        specialize (Hrec b r x); destruct (recoverWater b r x) as [rec s2]
    end.
    simpl in Hrec.
    cut (Logs s1 s2); [intros H2; destruct (5 <? rec);
                       [now apply Pushed_addEvent|exact H2]|].
    eapply Logs_trans; [|exact Hrec].
    eapply Logs_trans; apply Hpush.
  - match goal with
    | |- context [recoverWater ?b ?r ?x] =>
        specialize (Hrec b r x); destruct (recoverWater b r x) as [rec s2]
    end.
    simpl in Hrec.
    cut (Logs s1 s2); [intros H2; destruct (5 <? rec);
                       [now apply Pushed_addEvent|exact H2]|].
    eapply Logs_trans; [|exact Hrec]. apply Hpush.
Qed.

Lemma advanceSeason_logs (s : State) : Logs s (advanceSeason s).
Proof.
  destruct (advanceSeason_log s) as [rest Hrest].
  unfold Logs. rewrite Hrest. apply pushAll_Pushed.
Qed.

Lemma distributeSubsidy_logs score (s : State) :
  Logs s (distributeSubsidy score s).
Proof.
  unfold distributeSubsidy.
  pose proof (nextRandom_footprint events s) as Hn.
  destruct (nextRandom s) as [r s']. simpl in Hn.
  eapply Logs_trans; [apply Logs_untouched, Hn; ignore|].
  destruct (0 <? _); logs.
Qed.

(** The year change logs the new year first, dated with it. *)
Lemma advanceYear_log (s : State) :
  exists rest,
    events (advanceYear s)
    = pushAll
        ({| date := seasonName (season s) +:+ ", Year "
                    +:+ show_Z (year s + 1);
            message := "Happy New Year! Completed Year " +:+ show_Z (year s)
                       +:+ " of farming.";
            isAlert := false |} :: rest)
        (events s).
Proof.
  unfold advanceYear.
  set (score := calculateSustainabilityScore _).
  set (s2 := set_climate _ _).
  set (s2' := addEvent _ false s2).
  set (s3 := distributeSubsidy _ _).
  apply (Logs_after_push _ s s2').
  { unfold s2', s2, applyAnnualInflation. simpl.
    now replace (year s + 1 - 1) with (year s) by lia. }
  assert (H3 : Logs s2' s3) by apply distributeSubsidy_logs.
  clearbody s3. destruct (Z.rem (year s3) 10 =? 0); [|exact H3].
  eapply Logs_trans; [exact H3|].
  eapply Logs_trans; [|apply Logs_chance].
  - logs.
  - intros s'. apply Pushed_addEvent. apply pushScheduled_logs.
Qed.

Lemma advanceYear_logs (s : State) : Logs s (advanceYear s).
Proof.
  destruct (advanceYear_log s) as [rest Hrest].
  unfold Logs. rewrite Hrest. apply pushAll_Pushed.
Qed.

Lemma dispatchEvent_logs (s : State) (event : Event) :
  Logs s (dispatchEvent s event).
Proof.
  unfold dispatchEvent, pushPending.
  repeat (cbv beta iota zeta; try break_match); logs.
Qed.

Lemma processPendingEvents_logs (s : State) : Logs s (processPendingEvents s).
Proof.
  unfold processPendingEvents.
  eapply Logs_same;
    [apply (Logs_fold dispatchEvent (activeEvents s) s), dispatchEvent_logs
    |reflexivity].
Qed.

Lemma beforeEvents_logs (s : State) : Logs s (beforeEvents s).
Proof.
  unfold beforeEvents.
  set (s2 := updateFarm _).
  assert (H2 : Logs s s2).
  { unfold s2. eapply Logs_trans; [|apply updateFarm_logs].
    eapply Logs_trans; [|apply payDailyOverhead_logs]. logs. }
  clearbody s2.
  set (s4 := if 90 <? seasonDay s2 then _ else _).
  assert (H4 : Logs s s4).
  { unfold s4. destruct (90 <? seasonDay s2); [|exact H2].
    eapply Logs_trans; [exact H2|].
    eapply Logs_trans; [|apply advanceSeason_logs]. logs. }
  clearbody s4. destruct (360 <? day s4); [|exact H4].
  eapply Logs_trans; [exact H4|].
  eapply Logs_trans; [|apply advanceYear_logs]. logs.
Qed.

Lemma afterEvents_logs (s : State) : Logs s (afterEvents s).
Proof.
  unfold afterEvents.
  set (s1 := ambientEvent _).
  assert (H1 : Logs s s1).
  { unfold s1, ambientEvent.
    eapply Logs_trans; [|apply Logs_chance].
    - logs.
    - intros s'. unfold pushPending.
      destruct (generateRandomEvent _ _) as [[e|] w]; logs. }
  clearbody s1. destruct (testMode s1); [|exact H1].
  eapply Logs_same; [exact H1|]. unfold runTestUpdate.
  now destruct (_ && _).
Qed.

Lemma update_logs (s : State) : Logs s (update s).
Proof.
  rewrite update_split.
  eapply Logs_trans; [apply beforeEvents_logs|].
  eapply Logs_trans; [apply processPendingEvents_logs|apply afterEvents_logs].
Qed.

Lemma ticks_logs (n : nat) (s : State) : Logs s (ticks n s).
Proof.
  revert s. induction n as [|n IH]; intros s; [apply Logs_refl|].
  cbn [ticks]. eapply Logs_trans; [apply update_logs|apply IH].
Qed.

Lemma storeCell_events row col cell (s : State) :
  events (storeCell row col cell s) = events s.
Proof. unfold storeCell. now destruct (grid s !! row). Qed.

Ltac logs_of_action :=
  repeat (cbv beta iota zeta; try break_match); simpl stateOf; unfold Logs;
  repeat (cbn [events set_day set_year set_season set_seasonDay set_balance
               set_farmValue set_farmHealth set_waterReserve set_paused
               set_overheadCostPerCell set_grid set_technologies
               set_researchedTechs set_events set_pendingEvents
               set_marketPrices set_climate set_world];
          rewrite ?storeCell_events;
          first [apply Pushed_none | apply Pushed_addEvent]).

Lemma perform_logs (a : Action) (s : State) : Logs s (stateOf (perform a s)).
Proof.
  destruct a as [row col cropId|row col|row col|row col|techId]; simpl.
  - unfold plantCrop. logs_of_action.
  - unfold irrigateCell. logs_of_action.
  - unfold fertilizeCell. logs_of_action.
  - unfold harvestCell. logs_of_action.
  - unfold researchTechnology, applyTechnologyEffects. logs_of_action.
Qed.

(** ** The order of a tick *)











(** ** The sustainability score of the technologies *)

Lemma techScore_computed (s : State) :
  techScore (calculateSustainabilityScore s)
  = computeTechScore (researchedTechs s).
Proof. reflexivity. Qed.

Lemma techPoints_pos (tech : string) : 0 < techPoints tech.
Proof.
  unfold techPoints. destruct (_ || _); [lia|]. destruct (_ || _); lia.
Qed.

Lemma points_sum_shift (l : list string) (acc : Z) :
  fold_left (fun acc tech => acc + techPoints tech) l acc
  = acc + fold_left (fun acc tech => acc + techPoints tech) l 0.
Proof.
  revert acc. induction l as [|tech l IH]; intros acc; simpl; [lia|].
  rewrite IH, (IH (0 + techPoints tech)). lia.
Qed.

(** The points of the researched technologies among [l] lie between nothing
    and the points of all of [l]. *)
Lemma points_fold_bounds (researched l : list string) (acc : Z) :
  acc
  <= fold_left
       (fun raw tech =>
          if bool_decide (tech ∈ researched) then raw + techPoints tech
          else raw) l acc
  <= acc + fold_left (fun acc tech => acc + techPoints tech) l 0.
Proof.
  revert acc. induction l as [|tech l IH]; intros acc; simpl; [lia|].
  rewrite (points_sum_shift l (0 + techPoints tech)).
  pose proof (techPoints_pos tech) as Hpos.
  destruct (bool_decide _).
  - specialize (IH (acc + techPoints tech)). lia.
  - specialize (IH acc). lia.
Qed.

Lemma rawTechScore_bounds (researched : list string) :
  0 <= rawTechScore researched <= 125.
Proof. apply (points_fold_bounds researched sustainableTechs 0). Qed.

Lemma js_round_le (x y : Q) : (x <= y)%Q -> js_round x <= js_round y.
Proof.
  intros Hxy. unfold js_round. apply Qfloor_resp_le.
  now apply Qplus_le_l.
Qed.

(** The tech score never exceeds 14. *)
Lemma computeTechScore_le_14 (researched : list string) :
  computeTechScore researched <= 14.
Proof.
  unfold computeTechScore.
  change 14 with (js_round (inject_Z 125 / inject_Z maxTechScore * 100)).
  apply js_round_le.
  apply Qmult_le_compat_r; [|discriminate].
  apply Qmult_le_compat_r; [|discriminate].
  rewrite <- Zle_Qle. apply rawTechScore_bounds.
Qed.

(** C1, on the code. With all nine sustainable technologies researched
    the points add up to 125; the code divides them by
    [sustainableTechs.length * 100 = 900], so the tech score is 14, where
    the normalization against the attainable maximum (125) that the
    specification words gives 100. No set of researched technologies scores
    more than 14. *)
Theorem techScore_of_all_nine (s : State) :
  (forall tech, In tech sustainableTechs -> hasTechnology tech s = true) ->
  rawTechScore (researchedTechs s) = 125
  /\ maxTechScore = 900
  /\ specMaxTechScore = 125
  /\ techScore (calculateSustainabilityScore s) = 14
  /\ specTechScore (researchedTechs s) = 100
  /\ forall s' : State, techScore (calculateSustainabilityScore s') <= 14.
Proof.
  intros Hall.
  assert (Hraw : rawTechScore (researchedTechs s) = 125).
  { unfold rawTechScore, sustainableTechs. simpl.
    unfold hasTechnology in Hall.
    rewrite !Hall by (simpl; tauto). reflexivity. }
  repeat split; try exact Hraw.
  - rewrite techScore_computed. unfold computeTechScore. now rewrite Hraw.
  - unfold specTechScore. now rewrite Hraw.
  - intros s'. rewrite techScore_computed. apply computeTechScore_le_14.
Qed.

(** ** Rejected actions *)

Lemma addEvent_head msg alert (s : State) :
  head (events (addEvent msg alert s))
  = Some {| date := seasonName (season s) +:+ ", Year " +:+ show_Z (year s);
            message := msg; isAlert := alert |}.
Proof.
  unfold addEvent. simpl events.
  destruct (events s) as [|e evs]; [reflexivity|].
  now destruct (20 <? _).
Qed.

(** What a logged rejection leaves: the state after [addEvent(msg, true)]. *)
Lemma alert_only msg (s : State) :
  let s' := addEvent msg true s in
  balance s' = balance s /\ grid s' = grid s
  /\ researchedTechs s' = researchedTechs s
  /\ technologies s' = technologies s
  /\ (if false then Some msg = None /\ s' = s
      else exists msg', Some msg = Some msg'
                        /\ s' = addEvent msg' true s
                        /\ head (events s') = Some (alertEntry msg' s)).
Proof.
  repeat split. exists msg.
  split; [reflexivity|]. split; [reflexivity|apply addEvent_head].
Qed.

Ltac rejected_silently :=
  eexists _, _; split; [reflexivity|]; split; [reflexivity|];
  now repeat split.

Ltac rejected_with_alert :=
  eexists _, _; split; [reflexivity|]; split; [reflexivity|];
  apply alert_only.

(** C2, amended. Whenever a listed validation precondition of a player
    action fails, the first check that fails names the reason; the action
    returns false and changes none of the balance, the grid, the researched
    set and the technologies. The state it leaves is the state after
    [addEvent(msg, true)] for the alert [msg] that describes this reason,
    which is then the newest log entry, except for [plantCrop] with an
    unknown or empty crop id and for [researchTechnology] on a technology
    that is already researched: these have no alert, return false and leave
    the state, the log included, as it was. *)
Theorem rejected_actions (a : Action) (s : State) :
  failingPrecondition a s = true ->
  exists reason s',
    rejectionReason a s = Some reason
    /\ perform a s = Returned false s'
    /\ balance s' = balance s
    /\ grid s' = grid s
    /\ researchedTechs s' = researchedTechs s
    /\ technologies s' = technologies s
    /\ (if silentRejection a s then reasonAlert reason = None /\ s' = s
        else exists msg,
               reasonAlert reason = Some msg
               /\ s' = addEvent msg true s
               /\ head (events s') = Some (alertEntry msg s)).
Proof.
  destruct a as [row col cropId|row col|row col|row col|techId];
    unfold failingPrecondition, rejectionReason, silentRejection, perform;
    intros Hfail.
  - unfold plantCrop. apply andb_true_iff in Hfail as [Hrow Hfail].
    apply bool_decide_eq_true in Hrow as [cells ->].
    destruct (getCropById cropId) as [newCrop|]; [|rejected_silently].
    destruct (String.eqb (crop_id newCrop) "empty"); [rejected_silently|].
    simpl in Hfail. rewrite Hfail. rejected_with_alert.
  - unfold irrigateCell.
    destruct (gridCell _ _ _) as [cell|]; [|discriminate].
    destruct (String.eqb (crop_id (crop cell)) "empty");
      [rejected_with_alert|].
    destruct (irrigated cell); [rejected_with_alert|].
    simpl in Hfail. rewrite Hfail. rejected_with_alert.
  - unfold fertilizeCell.
    destruct (gridCell _ _ _) as [cell|]; [|discriminate].
    destruct (String.eqb (crop_id (crop cell)) "empty");
      [rejected_with_alert|].
    destruct (fertilized cell); [rejected_with_alert|].
    simpl in Hfail. rewrite Hfail. rejected_with_alert.
  - unfold harvestCell.
    destruct (gridCell _ _ _) as [cell|]; [|discriminate].
    destruct (String.eqb (crop_id (crop cell)) "empty");
      [rejected_with_alert|].
    simpl in Hfail. rewrite Hfail. rejected_with_alert.
  - unfold researchTechnology.
    destruct (List.find _ _) as [tech|]; [|discriminate].
    destruct (researched tech); [rejected_silently|].
    destruct (negb _); [rejected_with_alert|].
    simpl in Hfail. rewrite Hfail. rejected_with_alert.
Qed.

(** * Further properties *)

(** ** The clock of a new game *)

Lemma initializeGrid_footprint {A} (p : State -> A) (s : State) :
  ignores p set_grid -> ignores p set_world -> p (initializeGrid s) = p s.
Proof. unfold initializeGrid. footprint. Qed.

Lemma updateMarketPrices_footprint {A} (p : State -> A) (s : State) :
  ignores p set_marketPrices -> ignores p set_world ->
  p (updateMarketPrices s) = p s.
Proof.
  intros Hm Hw. unfold updateMarketPrices. apply fold_left_preserves.
  intros s' c. unfold initPrice.
  destruct (String.eqb _ _); [reflexivity|].
  pose proof (nextRandom_footprint p s' Hw) as Hn.
  destruct (nextRandom s') as [r s'']. simpl in Hn. now rewrite Hm.
Qed.

Lemma newGame_footprint {A} (p : State -> A) options w :
  ignores p set_grid -> ignores p set_world -> ignores p set_marketPrices ->
  exists s0 : State,
    p (newGame options w) = p s0
    /\ clock s0 = (1, 1, Spring, 1)
    /\ balance s0 = 20000 /\ events s0 = [] /\ pendingEvents s0 = []
    /\ overheadCostPerCell s0 = 10 /\ annualInflationRate s0 = 0.03%Q
    /\ waterReserve s0 = 60%Q /\ researchedTechs s0 = []
    /\ paused s0 = false /\ gridSize s0 = 10%nat.
Proof.
  intros Hg Hw Hm. unfold newGame. eexists. split.
  - rewrite updateMarketPrices_footprint, initializeGrid_footprint by assumption.
    reflexivity.
  - repeat split.
Qed.

Lemma nextSeason_index (i : Z) :
  0 <= i < 4 ->
  nextSeason (default Spring (seasons !! Z.to_nat i))
  = default Spring (seasons !! Z.to_nat ((i + 1) mod 4)).
Proof.
  intros Hi.
  assert (Hc : i = 0 \/ i = 1 \/ i = 2 \/ i = 3) by lia.
  destruct Hc as [-> | [-> | [-> | ->]]]; reflexivity.
Qed.

Lemma update_clockAfter (s : State) (k : Z) :
  0 <= k -> clock s = clockAfter k -> clock (update s) = clockAfter (k + 1).
Proof.
  intros Hk Hc. rewrite update_clock, beforeEvents_clock.
  unfold clock, clockAfter in *. injection Hc as Hd Hsd Hs Hy.
  rewrite Hd, Hsd, Hs, Hy. clear Hd Hsd Hs Hy.
  assert (H360 : 0 <= k mod 360 < 360) by (apply Z.mod_pos_bound; lia).
  assert (H90 : 0 <= k mod 90 < 90) by (apply Z.mod_pos_bound; lia).
  assert (H4 : 0 <= (k / 90) mod 4 < 4) by (apply Z.mod_pos_bound; lia).
  f_equal; [f_equal; [f_equal|]|].
  - destruct (360 <? k mod 360 + 1 + 1) eqn:E;
      [apply Z.ltb_lt in E|apply Z.ltb_ge in E];
      Z.to_euclidean_division_equations; lia.
  - destruct (90 <? k mod 90 + 1 + 1) eqn:E;
      [apply Z.ltb_lt in E|apply Z.ltb_ge in E];
      Z.to_euclidean_division_equations; lia.
  - destruct (90 <? k mod 90 + 1 + 1) eqn:E;
      [apply Z.ltb_lt in E|apply Z.ltb_ge in E].
    + rewrite nextSeason_index by assumption. do 3 f_equal.
      Z.to_euclidean_division_equations; lia.
    + do 3 f_equal. Z.to_euclidean_division_equations; lia.
  - destruct (360 <? k mod 360 + 1 + 1) eqn:E;
      [apply Z.ltb_lt in E|apply Z.ltb_ge in E];
      Z.to_euclidean_division_equations; lia.
Qed.

Lemma ticks_clockAfter (n : nat) (s : State) (k : Z) :
  0 <= k -> clock s = clockAfter k ->
  clock (ticks n s) = clockAfter (k + Z.of_nat n).
Proof.
  revert s k. induction n as [|n IH]; intros s k Hk Hc.
  - simpl. now rewrite Z.add_0_r.
  - cbn [ticks]. rewrite (IH (update s) (k + 1)); [f_equal; lia|lia|].
    now apply update_clockAfter.
Qed.

(** X1. In a game that starts from the constructor the four counters are
    a function of the number of ticks: after [n] ticks the day is
    [n mod 360 + 1], the day of the season is [n mod 90 + 1], the season is
    the [(n / 90) mod 4]-th of Spring, Summer, Fall, Winter and the year is
    [1 + n / 360], whatever the options, the random numbers and the
    collaborators do. *)
Theorem clock_of_a_new_game options w (n : nat) :
  clock (ticks n (newGame options w)) = clockAfter (Z.of_nat n).
Proof.
  destruct (newGame_footprint clock options w) as (s0 & Hp & Hc & _);
    try ignore.
  rewrite (ticks_clockAfter n (newGame options w) 0); [reflexivity|lia|].
  now rewrite Hp, Hc.
Qed.

(** ** The overhead over the years *)

Lemma beforeEvents_inflation (s : State) :
  annualInflationRate (beforeEvents s) = annualInflationRate s
  /\ overheadCostPerCell (beforeEvents s)
     = if 360 <? day s + 1
       then js_round (inject_Z (overheadCostPerCell s)
                      * (1 + annualInflationRate s))
       else overheadCostPerCell s.
Proof.
  pose (p := fun s : State =>
               (annualInflationRate s, overheadCostPerCell s, day s)).
  unfold beforeEvents.
  set (s2 := updateFarm _).
  assert (H2 : p s2 = (annualInflationRate s, overheadCostPerCell s, day s + 1)).
  { unfold s2. rewrite (updateFarm_footprint p) by ignore.
    now rewrite (payDailyOverhead_footprint p) by ignore. }
  clearbody s2.
  set (s4 := if 90 <? seasonDay s2 then _ else _).
  assert (H4 : p s4 = (annualInflationRate s, overheadCostPerCell s, day s + 1)).
  { unfold s4. destruct (90 <? seasonDay s2); [|exact H2].
    now rewrite (advanceSeason_footprint p) by ignore. }
  clearbody s4. unfold p in H4. injection H4 as Hr Ho Hd. rewrite Hd.
  destruct (360 <? day s + 1); [|now split].
  destruct (advanceYear_inflation (set_day 1 s4)) as [-> ->]. simpl.
  now rewrite Hr, Ho.
Qed.

Lemma update_inflation (s : State) :
  annualInflationRate (update s) = annualInflationRate s
  /\ overheadCostPerCell (update s)
     = if 360 <? day s + 1
       then js_round (inject_Z (overheadCostPerCell s)
                      * (1 + annualInflationRate s))
       else overheadCostPerCell s.
Proof.
  destruct (beforeEvents_inflation s) as [Hr Ho]. rewrite update_split. split.
  - rewrite (afterEvents_footprint annualInflationRate) by ignore.
    now rewrite (processPendingEvents_footprint annualInflationRate) by ignore.
  - rewrite (afterEvents_footprint overheadCostPerCell) by ignore.
    now rewrite (processPendingEvents_footprint overheadCostPerCell) by ignore.
Qed.

Lemma Qfloor_unique (x : Q) (c : Z) :
  (inject_Z c <= x)%Q -> (x < inject_Z (c + 1))%Q -> Qfloor x = c.
Proof.
  intros Hle Hlt.
  assert (H1 : c <= Qfloor x).
  { rewrite <- (Qfloor_Z c). now apply Qfloor_resp_le. }
  assert (H2 : Qfloor x < c + 1).
  { rewrite Zlt_Qlt. eapply Qle_lt_trans; [apply Qfloor_le|exact Hlt]. }
  lia.
Qed.

(** Rounding [c * (1 + rate)] gives [c] back when [c * rate] is below a
    half. *)
Lemma inflation_rounds_away (c : Z) (rate : Q) :
  (0 <= inject_Z c * rate)%Q -> (inject_Z c * rate < 1 # 2)%Q ->
  js_round (inject_Z c * (1 + rate)) = c.
Proof.
  intros Hnn Hhalf. unfold js_round. apply Qfloor_unique.
  - assert (E : (inject_Z c * (1 + rate) + (1 # 2)
                 == inject_Z c + (inject_Z c * rate + (1 # 2)))%Q) by ring.
    rewrite E.
    rewrite <- (Qplus_0_r (inject_Z c)) at 1.
    apply Qplus_le_r.
    apply (Qle_trans _ (inject_Z c * rate)); [exact Hnn|].
    rewrite <- (Qplus_0_r (inject_Z c * rate)) at 1.
    now apply Qplus_le_r.
  - rewrite inject_Z_plus.
    assert (E : (inject_Z c * (1 + rate) + (1 # 2)
                 == inject_Z c + (inject_Z c * rate + (1 # 2)))%Q) by ring.
    rewrite E.
    apply Qplus_lt_r.
    apply (Qplus_lt_l _ _ (1 # 2)) in Hhalf.
    eapply Qlt_le_trans; [exact Hhalf|]. unfold Qle. simpl. lia.
Qed.

(** Rounding [c * (1 + rate)] never gives less than [c] when neither is
    negative. *)
Lemma inflation_never_lowers (c : Z) (rate : Q) :
  0 <= c -> (0 <= rate)%Q -> c <= js_round (inject_Z c * (1 + rate)).
Proof.
  intros Hc Hrate. unfold js_round.
  rewrite <- (Qfloor_Z c) at 1. apply Qfloor_resp_le.
  assert (E : (inject_Z c * (1 + rate) + (1 # 2)
               == inject_Z c + (inject_Z c * rate + (1 # 2)))%Q) by ring.
  rewrite E.
  rewrite <- (Qplus_0_r (inject_Z c)) at 1.
  apply Qplus_le_r.
  apply (Qle_trans _ (inject_Z c * rate)).
  - apply Qmult_le_0_compat; [|exact Hrate].
    change 0%Q with (inject_Z 0). now rewrite <- Zle_Qle.
  - rewrite <- (Qplus_0_r (inject_Z c * rate)) at 1.
    now apply Qplus_le_r.
Qed.

(** While the overhead times the inflation rate is below a half, ticks
    change neither the overhead nor the rate. *)
Lemma ticks_keep_small_overhead (s : State) (n : nat) :
  (0 <= inject_Z (overheadCostPerCell s) * annualInflationRate s)%Q ->
  (inject_Z (overheadCostPerCell s) * annualInflationRate s < 1 # 2)%Q ->
  overheadCostPerCell (ticks n s) = overheadCostPerCell s
  /\ annualInflationRate (ticks n s) = annualInflationRate s.
Proof.
  revert s. induction n as [|n IH]; intros s Hnn Hhalf; [now split|].
  cbn [ticks]. destruct (update_inflation s) as [Hr Ho].
  assert (Hsame : overheadCostPerCell (update s) = overheadCostPerCell s).
  { rewrite Ho. destruct (360 <? day s + 1); [|reflexivity].
    now apply inflation_rounds_away. }
  destruct (IH (update s)) as [Ho' Hr']; [now rewrite Hr, Hsame..|].
  split; congruence.
Qed.

(** X3. The daily overhead of a game that starts from the constructor is
    10 per cell for ever: [round(10 * 1.03) = 10], so the yearly inflation
    of the overhead has no effect. *)
Theorem overhead_of_a_new_game options w (n : nat) :
  overheadCostPerCell (ticks n (newGame options w)) = 10.
Proof.
  destruct (newGame_footprint
              (fun s => (overheadCostPerCell s, annualInflationRate s))
              options w) as (s0 & Hp & _ & _ & _ & _ & Ho & Hr & _);
    try ignore.
  rewrite Ho, Hr in Hp. injection Hp as Ho' Hr'.
  destruct (ticks_keep_small_overhead (newGame options w) n) as [Hkeep _];
    rewrite ?Ho', ?Hr'; [discriminate|reflexivity|].
  rewrite Hkeep. exact Ho'.
Qed.

(** X4. With an overhead and a rate that are not negative, a tick never
    lowers the overhead, and it leaves the rate alone. *)
Theorem overhead_never_decreases (s : State) :
  0 <= overheadCostPerCell s -> (0 <= annualInflationRate s)%Q ->
  overheadCostPerCell s <= overheadCostPerCell (update s)
  /\ annualInflationRate (update s) = annualInflationRate s.
Proof.
  intros Hc Hrate. destruct (update_inflation s) as [Hr Ho].
  split; [|exact Hr]. rewrite Ho.
  destruct (360 <? day s + 1); [|lia]. now apply inflation_never_lowers.
Qed.

(** ** The event log is bounded *)

Lemma logPush_length (entry : LogEntry) (log : list LogEntry) :
  (length log <= 20)%nat ->
  logPush entry log = take 20 (entry :: log)
  /\ (length (logPush entry log) <= 20)%nat.
Proof.
  intros Hlen. unfold logPush. cbv zeta.
  destruct (20 <? Z.of_nat (length (entry :: log))) eqn:E.
  - apply Z.ltb_lt in E. simpl length in E.
    assert (Hl : length log = 20%nat) by lia.
    rewrite removelast_firstn_len. simpl length. rewrite Hl. simpl Nat.pred.
    split; [reflexivity|]. rewrite length_take. simpl length. lia.
  - apply Z.ltb_ge in E. simpl length in E.
    rewrite take_ge by (simpl; lia). split; [reflexivity|]. simpl. lia.
Qed.

Lemma Pushed_bounded (l l' : list LogEntry) :
  Pushed l l' -> (length l <= 20)%nat -> (length l' <= 20)%nat.
Proof.
  intros Hp Hl. induction Hp as [|entry l' _ IH]; [exact Hl|].
  now apply logPush_length.
Qed.

(** X5. A log of at most 20 entries holds at most 20 entries after any
    number of ticks and after any player action, returned or thrown; each
    [addEvent] then leaves the new entry followed by the first 19 of the old
    ones, so the oldest entry is the one that is dropped. *)
Theorem event_log_is_bounded (s : State) :
  (length (events s) <= 20)%nat ->
  (forall n, (length (events (ticks n s)) <= 20)%nat)
  /\ (forall a, (length (events (stateOf (perform a s))) <= 20)%nat)
  /\ (forall msg alert,
        events (addEvent msg alert s)
        = {| date := seasonName (season s) +:+ ", Year " +:+ show_Z (year s);
             message := msg; isAlert := alert |} :: take 19 (events s)).
Proof.
  intros Hlen. split; [|split].
  - intros n. eapply Pushed_bounded; [apply ticks_logs|exact Hlen].
  - intros a. eapply Pushed_bounded; [apply perform_logs|exact Hlen].
  - intros msg alert.
    change (events (addEvent msg alert s))
      with (logPush {| date := seasonName (season s) +:+ ", Year "
                                +:+ show_Z (year s);
                       message := msg; isAlert := alert |} (events s)).
    now destruct (logPush_length
                    {| date := seasonName (season s) +:+ ", Year "
                               +:+ show_Z (year s);
                       message := msg; isAlert := alert |} (events s) Hlen)
      as [-> _].
Qed.

(** ** The subsidy *)

Lemma nextRandom_in_unit (s : State) :
  RandomInUnit -> (0 <= (nextRandom s).1)%Q /\ ((nextRandom s).1 < 1)%Q.
Proof.
  intros Hr. unfold nextRandom. specialize (Hr (world s)).
  now destruct (random (world s)).
Qed.

Lemma Qmult_le_nonneg_l (x y z : Q) :
  (0 <= z)%Q -> (x <= y)%Q -> (z * x <= z * y)%Q.
Proof.
  intros Hz Hxy. rewrite (Qmult_comm z x), (Qmult_comm z y).
  now apply Qmult_le_compat_r.
Qed.

Lemma subsidy_rounding (base : Z) (r : Q) :
  0 <= base -> (0 <= r)%Q -> (r < 1)%Q ->
  js_round (inject_Z base * (1 # 2))
  <= js_round (inject_Z base * (0.5 + r))
  <= js_round (inject_Z base * (3 # 2)).
Proof.
  intros Hb Hr0 Hr1.
  assert (Hbq : (0 <= inject_Z base)%Q)
    by (change 0%Q with (inject_Z 0); now rewrite <- Zle_Qle).
  split; apply js_round_le; apply Qmult_le_nonneg_l;
    try exact Hbq; lra.
Qed.

(** X6. With [Math.random] in [0, 1), the yearly subsidy adds to the
    balance between half and one and a half times the base amount of the
    tier: nothing below a total of 30, 500 to 1500 from 30, 1000 to 3000
    from 50 and 2000 to 6000 from 70. It never lowers the balance, and it
    changes nothing else but the log and the random source. *)
Theorem subsidy_bounds (score : SustainabilityScore) (s : State) :
  RandomInUnit ->
  2 * (balance (distributeSubsidy score s) - balance s)
  >= subsidyTier (total score)
  /\ 2 * (balance (distributeSubsidy score s) - balance s)
     <= 3 * subsidyTier (total score)
  /\ balance s <= balance (distributeSubsidy score s)
  /\ grid (distributeSubsidy score s) = grid s
  /\ pendingEvents (distributeSubsidy score s) = pendingEvents s.
Proof.
  intros Hunit.
  assert (Hframe : grid (distributeSubsidy score s) = grid s
                   /\ pendingEvents (distributeSubsidy score s)
                      = pendingEvents s).
  { split; now rewrite distributeSubsidy_footprint by ignore. }
  assert (Hbal :
    2 * (balance (distributeSubsidy score s) - balance s)
    >= subsidyTier (total score)
    /\ 2 * (balance (distributeSubsidy score s) - balance s)
       <= 3 * subsidyTier (total score)).
  { unfold distributeSubsidy, subsidyTier.
    pose proof (nextRandom_in_unit s Hunit) as [Hr0 Hr1].
    pose proof (nextRandom_footprint balance s) as Hb.
    destruct (nextRandom s) as [r s']. simpl in Hr0, Hr1, Hb.
    rewrite <- Hb by ignore.
    destruct (score_ge (total score) 70);
      [|destruct (score_ge (total score) 50);
        [|destruct (score_ge (total score) 30)]];
      simpl Z.ltb; cbv iota; simpl balance;
      try (pose proof (subsidy_rounding 4000 r) as Hs;
           change (js_round (inject_Z 4000 * (1 # 2))) with 2000 in Hs;
           change (js_round (inject_Z 4000 * (3 # 2))) with 6000 in Hs;
           specialize (Hs ltac:(lia) Hr0 Hr1); lia);
      try (pose proof (subsidy_rounding 2000 r) as Hs;
           change (js_round (inject_Z 2000 * (1 # 2))) with 1000 in Hs;
           change (js_round (inject_Z 2000 * (3 # 2))) with 3000 in Hs;
           specialize (Hs ltac:(lia) Hr0 Hr1); lia);
      try (pose proof (subsidy_rounding 1000 r) as Hs;
           change (js_round (inject_Z 1000 * (1 # 2))) with 500 in Hs;
           change (js_round (inject_Z 1000 * (3 # 2))) with 1500 in Hs;
           specialize (Hs ltac:(lia) Hr0 Hr1); lia);
      lia. }
  destruct Hbal as [Hlo Hhi]. destruct Hframe as [Hg Hp].
  repeat split; try assumption.
  assert (0 <= subsidyTier (total score)).
  { unfold subsidyTier. repeat destruct (score_ge _ _); lia. }
  lia.
Qed.

(** ** The water reserve at a season change *)

Lemma Qfloor_bounds (x : Q) (lo hi : Z) :
  (inject_Z lo <= x)%Q -> (x < inject_Z hi)%Q -> lo <= Qfloor x < hi.
Proof.
  intros Hlo Hhi. split.
  - rewrite <- (Qfloor_Z lo). now apply Qfloor_resp_le.
  - rewrite Zlt_Qlt. eapply Qle_lt_trans; [apply Qfloor_le|exact Hhi].
Qed.

Lemma recoverWater_spec (base range : Z) (s : State) :
  RandomInUnit -> 0 < range ->
  base <= (recoverWater (inject_Z base) (inject_Z range) s).1 < base + range
  /\ waterReserve (recoverWater (inject_Z base) (inject_Z range) s).2
     = Qmin 100
         (waterReserve s
          + inject_Z (recoverWater (inject_Z base) (inject_Z range) s).1).
Proof.
  intros Hunit Hrange. unfold recoverWater.
  pose proof (nextRandom_in_unit s Hunit) as [Hr0 Hr1].
  pose proof (nextRandom_footprint waterReserve s) as Hw.
  destruct (nextRandom s) as [r s']. simpl in Hr0, Hr1, Hw.
  cbv zeta. cbn [fst snd waterReserve set_waterReserve].
  rewrite Hw by ignore. split; [|reflexivity].
  unfold js_floor.
  assert (Hq : (0 < inject_Z range)%Q)
    by (change 0%Q with (inject_Z 0); now rewrite <- Zlt_Qlt).
  apply Qfloor_bounds.
  - assert (0 <= r * inject_Z range)%Q
      by (apply Qmult_le_0_compat; [exact Hr0|now apply Qlt_le_weak]).
    lra.
  - rewrite inject_Z_plus.
    assert (r * inject_Z range < 1 * inject_Z range)%Q
      by (apply Qmult_lt_compat_r; assumption).
    lra.
Qed.

Lemma advanceSeason_water (s : State) :
  RandomInUnit ->
  exists k,
    recoveryRange (nextSeason (season s)) k
    /\ waterReserve (advanceSeason s)
       = match nextSeason (season s) with
         | Summer => waterReserve s
         | _ => Qmin 100 (waterReserve s + inject_Z k)
         end.
Proof.
  intros Hunit. unfold advanceSeason.
  set (s1 := fluctuateMarketPrices _).
  assert (H1 : (season s1, waterReserve s1)
               = (nextSeason (season s), waterReserve s)).
  { unfold s1.
    rewrite (fluctuateMarketPrices_footprint
               (fun s => (season s, waterReserve s))) by ignore.
    reflexivity. }
  injection H1 as Hs Hw. rewrite <- Hs, <- Hw. clearbody s1. clear Hs Hw s.
  match goal with
  | |- exists k, _ /\ waterReserve (if _ then addEvent _ _ ?x else ?x) = _ =>
      cut (exists k, recoveryRange (season s1) k
                     /\ waterReserve x
                        = match season s1 with
                          | Summer => waterReserve s1
                          | _ => Qmin 100 (waterReserve s1 + inject_Z k)
                          end);
      [intros (k & Hk & Hx); exists k; split; [exact Hk|];
       now destruct (_ && _)|]
  end.
  assert (Hpush : forall t gen (s' : State),
             waterReserve (chance t (fun s => pushScheduled (gen s) s) s')
             = waterReserve s').
  { intros. apply chance_footprint; [ignore|].
    intros. apply pushScheduled_footprint; ignore. }
  destruct (season s1).
  - match goal with
    | |- context [recoverWater 10 15 ?x] =>
        destruct (recoverWater_spec 10 15 x Hunit ltac:(lia)) as [Hk Hrec];
        change (inject_Z 10) with 10%Q in *;
        change (inject_Z 15) with 15%Q in *;
        destruct (recoverWater 10 15 x) as [rec s2]
    end.
    simpl in Hk, Hrec. exists rec. split; [simpl; lia|].
    rewrite (addEvent_footprint waterReserve) by ignore.
    now rewrite Hrec, Hpush.
  - exists 0. split; [reflexivity|]. now rewrite !Hpush.
  - match goal with
    | |- context [recoverWater 5 10 ?x] =>
        destruct (recoverWater_spec 5 10 x Hunit ltac:(lia)) as [Hk Hrec];
        change (inject_Z 5) with 5%Q in *;
        change (inject_Z 10) with 10%Q in *;
        destruct (recoverWater 5 10 x) as [rec s2]
    end.
    simpl in Hk, Hrec. exists rec. split; [simpl; lia|].
    destruct (5 <? rec); rewrite ?(addEvent_footprint waterReserve) by ignore;
      now rewrite Hrec, !Hpush.
  - match goal with
    | |- context [recoverWater 5 10 ?x] =>
        destruct (recoverWater_spec 5 10 x Hunit ltac:(lia)) as [Hk Hrec];
        change (inject_Z 5) with 5%Q in *;
        change (inject_Z 10) with 10%Q in *;
        destruct (recoverWater 5 10 x) as [rec s2]
    end.
    simpl in Hk, Hrec. exists rec. split; [simpl; lia|].
    destruct (5 <? rec); rewrite ?(addEvent_footprint waterReserve) by ignore;
      now rewrite Hrec, !Hpush.
Qed.

(** X7. With [Math.random] in [0, 1), a season change refills the water
    reserve by a whole amount, capped at 100: 10 to 25 on the change to
    Spring, 5 to 15 on the change to Fall or to Winter, and nothing on the
    change to Summer. A reserve of at most 100 stays at most 100 and is
    never lowered. *)
Theorem season_change_refills_water (s : State) :
  RandomInUnit ->
  (waterReserve s <= 100)%Q ->
  (exists k,
     recoveryRange (season (advanceSeason s)) k
     /\ waterReserve (advanceSeason s)
        = match season (advanceSeason s) with
          | Summer => waterReserve s
          | _ => Qmin 100 (waterReserve s + inject_Z k)
          end)
  /\ (waterReserve (advanceSeason s) <= 100)%Q
  /\ (waterReserve s <= waterReserve (advanceSeason s))%Q.
Proof.
  intros Hunit Hcap. rewrite advanceSeason_season.
  destruct (advanceSeason_water s Hunit) as (k & Hk & Hw).
  split; [now exists k|]. rewrite Hw.
  assert (Hpos : (0 <= inject_Z k)%Q).
  { change 0%Q with (inject_Z 0). rewrite <- Zle_Qle.
    destruct (nextSeason (season s)); simpl in Hk; lia. }
  destruct (nextSeason (season s)); split; try lra; try apply Q.le_min_l;
    apply Q.min_glb; lra.
Qed.

(** ** Market prices *)

Lemma clamp_bounds (x : Q) :
  (0.5 <= Qmax 0.5 (Qmin 2.0 x))%Q /\ (Qmax 0.5 (Qmin 2.0 x) <= 2)%Q.
Proof.
  split; [apply Q.le_max_l|].
  apply Q.max_lub; [discriminate|].
  apply (Qle_trans _ 2.0); [apply Q.le_min_l|discriminate].
Qed.

(** One step of [fluctuateMarketPrices]: the price of the crop, when it is
    set and the crop is not the empty one, is replaced by a clamped one. *)
Lemma fluctuatePrice_prices (s : State) (c : Crop) :
  marketPrices (fluctuatePrice s c) = marketPrices s
  \/ (crop_id c <> "empty"
      /\ exists p x,
           marketPrices s !! crop_id c = Some p
           /\ marketPrices (fluctuatePrice s c)
              = <[crop_id c := Qmax 0.5 (Qmin 2.0 x)]> (marketPrices s)).
Proof.
  unfold fluctuatePrice.
  destruct (String.eqb_spec (crop_id c) "empty") as [He|He]; [now left|].
  pose proof (nextRandom_footprint marketPrices s) as Hn.
  destruct (nextRandom s) as [r s']. simpl in Hn.
  rewrite <- Hn by ignore.
  destruct (marketPrices s' !! crop_id c) as [p|] eqn:Hp; [|now left].
  right. split; [exact He|]. now exists p, (p * (0.9 + r * 0.2))%Q.
Qed.

Lemma fluctuatePrice_within (s : State) (c : Crop) (id : string) :
  priceWithin 0.5 2 (marketPrices s) id ->
  priceWithin 0.5 2 (marketPrices (fluctuatePrice s c)) id.
Proof.
  intros Hin.
  destruct (fluctuatePrice_prices s c) as [-> | (_ & p & x & _ & ->)];
    [exact Hin|].
  unfold priceWithin in *.
  destruct (decide (crop_id c = id)) as [<-|Hne].
  - rewrite lookup_insert_eq. apply clamp_bounds.
  - now rewrite lookup_insert_ne.
Qed.

Lemma fluctuatePrice_sets (s : State) (c : Crop) :
  crop_id c <> "empty" ->
  priceWithin 0.5 2 (marketPrices (fluctuatePrice s c)) (crop_id c).
Proof.
  intros He. unfold priceWithin.
  destruct (fluctuatePrice_prices s c) as [Heq | (_ & p & x & _ & ->)].
  - rewrite Heq. unfold fluctuatePrice in Heq.
    destruct (String.eqb_spec (crop_id c) "empty") as [|_]; [contradiction|].
    pose proof (nextRandom_footprint marketPrices s) as Hn.
    destruct (nextRandom s) as [r s']. simpl in Hn.
    rewrite <- Hn by ignore.
    destruct (marketPrices s' !! crop_id c) as [p|] eqn:Hp; [|exact I].
    simpl in Heq. rewrite Hn in Heq by ignore. rewrite Hn in Hp by ignore.
    rewrite <- Heq in Hp. rewrite lookup_insert_eq in Hp.
    injection Hp as <-. apply clamp_bounds.
  - rewrite lookup_insert_eq. apply clamp_bounds.
Qed.

Lemma fluctuatePrice_keys (s : State) (c : Crop) (id : string) :
  marketPrices (fluctuatePrice s c) !! id = None
  <-> marketPrices s !! id = None.
Proof.
  destruct (fluctuatePrice_prices s c) as [-> | (_ & p & x & Hp & ->)];
    [reflexivity|].
  destruct (decide (crop_id c = id)) as [<-|Hne].
  - rewrite lookup_insert_eq, Hp. split; discriminate.
  - now rewrite lookup_insert_ne.
Qed.

Lemma fluctuatePrice_others (s : State) (c : Crop) (id : string) :
  (crop_id c = id -> id = "empty") ->
  marketPrices (fluctuatePrice s c) !! id = marketPrices s !! id.
Proof.
  intros Hid.
  destruct (fluctuatePrice_prices s c) as [-> | (He & p & x & _ & ->)];
    [reflexivity|].
  rewrite lookup_insert_ne; [reflexivity|].
  intros Heq. apply He. rewrite Heq. now apply Hid.
Qed.

(** What [fluctuateMarketPrices] does to the price of [id]. *)
Lemma fluctuateMarketPrices_prices (s : State) (id : string) :
  (marketPrices (fluctuateMarketPrices s) !! id = None
   <-> marketPrices s !! id = None)
  /\ (priceWithin 0.5 2 (marketPrices s) id ->
      priceWithin 0.5 2 (marketPrices (fluctuateMarketPrices s)) id)
  /\ ((exists c, In c crops /\ crop_id c = id /\ id <> "empty") ->
      priceWithin 0.5 2 (marketPrices (fluctuateMarketPrices s)) id)
  /\ ((forall c, In c crops -> crop_id c = id -> id = "empty") ->
      marketPrices (fluctuateMarketPrices s) !! id = marketPrices s !! id).
Proof.
  unfold fluctuateMarketPrices. generalize crops. intros l. revert s.
  induction l as [|c l IH]; intros s; simpl.
  - repeat split; try tauto. intros (c & [] & _).
  - destruct (IH (fluctuatePrice s c)) as (Hkeys & Hwithin & Hset & Hother).
    split; [|split; [|split]].
    + rewrite Hkeys. apply fluctuatePrice_keys.
    + intros Hin. now apply Hwithin, fluctuatePrice_within.
    + intros (c' & [<- | Hin] & Hid & He).
      * apply Hwithin. rewrite <- Hid. apply fluctuatePrice_sets.
        now rewrite Hid.
      * apply Hset. now exists c'.
    + intros Hnone. rewrite Hother by (intros c' Hin; apply Hnone; now right).
      apply fluctuatePrice_others. apply Hnone. now left.
Qed.

(** X8. When every crop of the crop list other than the empty one has a
    price, as it has after the constructor, a season's fluctuation of the
    market leaves each of them with a price between 0.5 and 2.0; it adds and
    removes no entry, and it leaves the prices of all other ids as they
    are. *)
Theorem fluctuation_keeps_prices_clamped (s : State) :
  (forall c, In c crops -> crop_id c <> "empty" ->
             is_Some (marketPrices s !! crop_id c)) ->
  (forall c, In c crops -> crop_id c <> "empty" ->
     exists p,
       marketPrices (fluctuateMarketPrices s) !! crop_id c = Some p
       /\ (0.5 <= p)%Q /\ (p <= 2)%Q)
  /\ (forall id,
        is_Some (marketPrices (fluctuateMarketPrices s) !! id)
        <-> is_Some (marketPrices s !! id))
  /\ (forall id,
        (forall c, In c crops -> crop_id c = id -> id = "empty") ->
        marketPrices (fluctuateMarketPrices s) !! id = marketPrices s !! id).
Proof.
  intros Hpriced. split; [|split].
  - intros c Hin He.
    destruct (fluctuateMarketPrices_prices s (crop_id c))
      as (Hkeys & _ & Hset & _).
    destruct (Hpriced c Hin He) as [p0 Hp0].
    destruct (marketPrices (fluctuateMarketPrices s) !! crop_id c)
      as [p|] eqn:Hp.
    + exists p. split; [reflexivity|].
      assert (Hw : priceWithin 0.5 2 (marketPrices (fluctuateMarketPrices s))
                     (crop_id c))
        by (apply Hset; exists c; repeat split; assumption).
      unfold priceWithin in Hw. rewrite Hp in Hw. exact Hw.
    + destruct (fluctuateMarketPrices_prices s (crop_id c)) as (Hnone & _).
      apply Hnone in Hp. congruence.
  - intros id.
    destruct (fluctuateMarketPrices_prices s id) as (Hkeys & _).
    rewrite <- !not_eq_None_Some. now rewrite Hkeys.
  - intros id. apply fluctuateMarketPrices_prices.
Qed.

Lemma initPrice_prices (s : State) (c : Crop) :
  RandomInUnit ->
  (crop_id c = "empty"
   /\ marketPrices (initPrice s c) = marketPrices s)
  \/ (crop_id c <> "empty"
      /\ exists p, (0.8 <= p)%Q /\ (p < 1.2)%Q
           /\ marketPrices (initPrice s c)
              = <[crop_id c := p]> (marketPrices s)).
Proof.
  intros Hunit. unfold initPrice.
  destruct (String.eqb_spec (crop_id c) "empty") as [He|He]; [now left|].
  pose proof (nextRandom_in_unit s Hunit) as [Hr0 Hr1].
  pose proof (nextRandom_footprint marketPrices s) as Hn.
  destruct (nextRandom s) as [r s']. simpl in Hr0, Hr1, Hn.
  right. split; [exact He|]. exists (0.8 + r * 0.4)%Q.
  split; [lra|]. split; [lra|]. simpl. now rewrite Hn by ignore.
Qed.

Lemma updateMarketPrices_prices (l : list Crop) (s : State) (id : string) :
  RandomInUnit ->
  match marketPrices (fold_left initPrice l s) !! id with
  | Some p =>
      ((0.8 <= p)%Q /\ (p < 1.2)%Q
       /\ exists c, In c l /\ crop_id c = id /\ id <> "empty")
      \/ marketPrices s !! id = Some p
  | None =>
      marketPrices s !! id = None
      /\ forall c, In c l -> crop_id c = id -> id = "empty"
  end.
Proof.
  intros Hunit. revert s. induction l as [|c l IH]; intros s; simpl.
  - destruct (marketPrices s !! id); [now right|]. split; [reflexivity|].
    intros c [].
  - specialize (IH (initPrice s c)).
    destruct (marketPrices (fold_left initPrice l (initPrice s c)) !! id)
      as [p|].
    + destruct IH as [(Hlo & Hhi & c' & Hin & Hid & He) | Hs].
      * left. repeat split; try assumption. exists c'. tauto.
      * destruct (initPrice_prices s c Hunit)
          as [(_ & Heq) | (He & q & Hlo & Hhi & Heq)];
          rewrite Heq in Hs; [now right|].
        destruct (decide (crop_id c = id)) as [Hid|Hne].
        -- rewrite Hid, lookup_insert_eq in Hs. injection Hs as <-.
           left. repeat split; try assumption. exists c.
           split; [now left|]. split; [exact Hid|]. now rewrite <- Hid.
        -- rewrite lookup_insert_ne in Hs by exact Hne. now right.
    + destruct IH as [Hs Hrest].
      destruct (initPrice_prices s c Hunit)
        as [(He & Heq) | (He & q & _ & _ & Heq)]; rewrite Heq in Hs.
      * split; [exact Hs|]. intros c' [<- | Hin] Hid;
          [now rewrite <- Hid|exact (Hrest c' Hin Hid)].
      * destruct (decide (crop_id c = id)) as [Hid|Hne].
        -- rewrite Hid, lookup_insert_eq in Hs. discriminate.
        -- rewrite lookup_insert_ne in Hs by exact Hne.
           split; [exact Hs|]. intros c' [<- | Hin] Hid;
             [contradiction|exact (Hrest c' Hin Hid)].
Qed.

(** The grid that [initializeGrid] builds. *)
Lemma newRow_length (n : nat) (w : World) : length (newRow n w).1 = n.
Proof.
  revert w. induction n as [|n IH]; intros w; simpl; [reflexivity|].
  destruct (newCell w) as [cell w1]. specialize (IH w1).
  destruct (newRow n w1) as [rest w2]. simpl in *. now rewrite IH.
Qed.

Lemma newRows_shape (n size : nat) (w : World) :
  length (newRows n size w).1 = n
  /\ Forall (fun cells => length cells = size) (newRows n size w).1.
Proof.
  revert w. induction n as [|n IH]; intros w; simpl.
  - split; [reflexivity|constructor].
  - pose proof (newRow_length size w) as Hrow.
    destruct (newRow size w) as [cells w1]. specialize (IH w1).
    destruct (newRows n size w1) as [rest w2]. simpl in *.
    destruct IH as [Hlen Hall]. split; [now rewrite Hlen|].
    now constructor.
Qed.

(** X9. A game built by the constructor, with [Math.random] in [0, 1):
    the grid has 10 rows of 10 cells; every crop of the table other than
    the empty one has a market price, between 0.8 and 1.2, and no other id
    has one; the clock reads day 1 of Spring of year 1, the balance is
    20000, the log and the pending events are empty and nothing is
    researched. *)
Theorem new_game_is_well_formed options w :
  RandomInUnit ->
  let game : State := newGame options w in
  length (grid game) = 10%nat
  /\ Forall (fun cells => length cells = 10%nat) (grid game)
  /\ (forall id,
        match marketPrices game !! id with
        | Some p =>
            (0.8 <= p)%Q /\ (p < 1.2)%Q
            /\ exists c, In c crops /\ crop_id c = id /\ id <> "empty"
        | None => forall c, In c crops -> crop_id c = id -> id = "empty"
        end)
  /\ clock game = (1, 1, Spring, 1)
  /\ balance game = 20000
  /\ events game = []
  /\ pendingEvents game = []
  /\ researchedTechs game = [].
Proof.
  intros Hunit game.
  assert (Hgrid : length (grid game) = 10%nat
                  /\ Forall (fun cells => length cells = 10%nat) (grid game)).
  { unfold game, newGame. rewrite (updateMarketPrices_footprint grid) by ignore.
    unfold initializeGrid. cbn [gridSize world].
    pose proof (newRows_shape 10 10 w) as Hshape.
    destruct (newRows 10 10 w) as [g w']. exact Hshape. }
  destruct Hgrid as [Hlen Hall].
  split; [exact Hlen|]. split; [exact Hall|]. split.
  - intros id. unfold game, newGame, updateMarketPrices.
    set (s1 := initializeGrid _).
    assert (H1 : marketPrices s1 = ∅).
    { unfold s1. now rewrite (initializeGrid_footprint marketPrices) by ignore. }
    pose proof (updateMarketPrices_prices crops s1 id Hunit) as Hp.
    rewrite H1, lookup_empty in Hp.
    destruct (marketPrices (fold_left initPrice crops s1) !! id) as [p|].
    + destruct Hp as [Hp | Hp]; [exact Hp|discriminate].
    + apply Hp.
  - destruct (newGame_footprint
                (fun s => (clock s, balance s, events s, pendingEvents s,
                           researchedTechs s)) options w)
      as (s0 & Hp & Hc & Hb & He & Hpe & _ & _ & _ & Hr & _); try ignore.
    fold game in Hp.
    rewrite Hc, Hb, He, Hpe, Hr in Hp. unfold clock in *.
    injection Hp; intros; repeat split; congruence.
Qed.

(** ** Research *)

Lemma find_markResearched (techId : string) (techs : list Technology) tech :
  List.find (fun t => String.eqb (tech_id t) techId) techs = Some tech ->
  exists tech',
    List.find (fun t => String.eqb (tech_id t) techId)
      (markResearched techId techs) = Some tech'
    /\ researched tech' = true /\ tech_id tech' = tech_id tech.
Proof.
  induction techs as [|t techs IH]; simpl; [discriminate|].
  destruct (String.eqb (tech_id t) techId) eqn:E.
  - intros [= <-]. simpl. rewrite E. eexists. split; [reflexivity|]. now split.
  - intros Hfind. simpl. rewrite E. now apply IH.
Qed.

Lemma applyTechnologyEffects_footprint {A} (p : State -> A) tech (s : State) :
  ignores p set_grid -> p (applyTechnologyEffects tech s) = p s.
Proof. unfold applyTechnologyEffects. footprint. Qed.

(** X10. A successful research charges exactly the cost of the
    technology, which the balance covered, appends its id to the researched
    set, so that [hasTechnology] holds, and marks it researched; a second
    call for the same id then returns false and changes nothing. *)
Theorem research_happens_once (techId : string) (s s' : State) :
  researchTechnology techId s = Returned true s' ->
  (exists tech,
     List.find (fun t => String.eqb (tech_id t) techId) (technologies s)
     = Some tech
     /\ researched tech = false
     /\ checkTechPrerequisites tech (researchedTechs s) = true
     /\ tech_cost tech <= balance s
     /\ balance s' = balance s - tech_cost tech
     /\ researchedTechs s' = researchedTechs s ++ [techId])
  /\ hasTechnology techId s' = true
  /\ researchTechnology techId s' = Returned false s'.
Proof.
  unfold researchTechnology at 1.
  destruct (List.find _ (technologies s)) as [tech|] eqn:Hfind; [|discriminate].
  destruct (researched tech) eqn:Hres; [discriminate|].
  destruct (checkTechPrerequisites tech (researchedTechs s)) eqn:Hpre;
    [|discriminate].
  destruct (balance s <? tech_cost tech) eqn:Hbal; [discriminate|].
  simpl. intros [= <-].
  apply Z.ltb_ge in Hbal.
  assert (Hid : tech_id tech = techId).
  { apply find_some in Hfind as [_ Heq]. now apply String.eqb_eq in Heq. }
  assert (Htechs : researchedTechs
                     (addEvent ("Researched " +:+ tech_name tech +:+ " for $"
                                +:+ show_Z (tech_cost tech)) false
                        (applyTechnologyEffects tech
                           (set_researchedTechs
                              (researchedTechs s ++ [tech_id tech])
                              (set_technologies
                                 (markResearched techId (technologies s))
                                 (set_balance (balance s - tech_cost tech) s)))))
                   = researchedTechs s ++ [techId]).
  { rewrite (addEvent_footprint researchedTechs) by ignore.
    rewrite (applyTechnologyEffects_footprint researchedTechs) by ignore.
    simpl. now rewrite Hid. }
  split; [|split].
  - exists tech. repeat split; try assumption.
    rewrite (addEvent_footprint balance) by ignore.
    now rewrite (applyTechnologyEffects_footprint balance) by ignore.
  - unfold hasTechnology. rewrite Htechs. apply bool_decide_eq_true.
    apply elem_of_app. right. now apply list_elem_of_singleton.
  - unfold researchTechnology.
    rewrite (addEvent_footprint technologies) by ignore.
    rewrite (applyTechnologyEffects_footprint technologies) by ignore.
    simpl technologies.
    destruct (find_markResearched techId (technologies s) tech Hfind)
      as (tech' & -> & -> & _).
    reflexivity.
Qed.

Lemma lookup_map {A B} (f : A -> B) (l : list A) (i : nat) :
  map f l !! i = f <$> (l !! i).
Proof.
  revert i. induction l as [|x l IH]; intros [|i]; simpl; try reflexivity.
  apply IH.
Qed.

Lemma gridCell_map (f : Cell CellState -> Cell CellState)
    (g : list (list (Cell CellState))) (row col : nat) :
  gridCell (map (map f) g) row col = f <$> gridCell g row col.
Proof.
  unfold gridCell, Grid. rewrite lookup_map.
  destruct (g !! row) as [cells|]; simpl; [apply lookup_map|reflexivity].
Qed.

(** X11. The one-time effect of a technology with a soil-health
    multiplier leaves every cell where it was, with the same crop, and with
    the soil health [min(100, soilHealth * multiplier)], so never above
    100; a technology without one, or with the multiplier 0, changes
    nothing. *)
Theorem soil_boost_is_capped (tech : Technology) (s : State) :
  (forall m, effects tech !! "soilHealth" = Some m -> Qeq_bool m 0 = false ->
     map length (grid (applyTechnologyEffects tech s)) = map length (grid s)
     /\ forall row col,
          match gridCell (grid (applyTechnologyEffects tech s)) row col with
          | Some cell' =>
              exists cell,
                gridCell (grid s) row col = Some cell
                /\ crop cell' = crop cell
                /\ soilHealth cell' = Qmin 100 (soilHealth cell * m)
                /\ (soilHealth cell' <= 100)%Q
          | None => gridCell (grid s) row col = None
          end)
  /\ (effects tech !! "soilHealth" = None -> applyTechnologyEffects tech s = s)
  /\ (forall m, effects tech !! "soilHealth" = Some m -> Qeq_bool m 0 = true ->
        applyTechnologyEffects tech s = s).
Proof.
  unfold applyTechnologyEffects. split; [|split].
  - intros m -> ->. simpl grid. split.
    + rewrite map_map. apply map_ext. intros cells. apply length_map.
    + intros row col. rewrite gridCell_map.
      destruct (gridCell (grid s) row col) as [cell|]; simpl; [|reflexivity].
      exists cell. repeat split. apply Q.le_min_l.
  - now intros ->.
  - now intros m -> ->.
Qed.

(** ** Player actions: money and errors *)

Lemma purchase_keeps_credit (cost : Z) (s : State) :
  (balance s <? cost) = false -> 0 <= balance s - cost.
Proof. intros Hb. apply Z.ltb_ge in Hb. lia. Qed.

Ltac balance_of_action :=
  repeat (cbv beta iota zeta; try break_match); simpl stateOf;
  rewrite ?(addEvent_footprint balance) by ignore;
  rewrite ?(applyTechnologyEffects_footprint balance) by ignore;
  rewrite ?storeCell_balance; simpl balance.

(** X12. No purchase overdraws: after [plantCrop], [irrigateCell],
    [fertilizeCell] or [researchTechnology], whether the call returns or
    throws, a balance that was not negative is not negative. (Only the
    daily overhead can bring the balance below zero.) *)
Theorem purchases_never_overdraw (a : Action) (s : State) :
  isPurchase a = true -> 0 <= balance s ->
  0 <= balance (stateOf (perform a s)).
Proof.
  intros Hpurchase Hcredit.
  destruct a as [row col cropId|row col|row col|row col|techId];
    try discriminate; simpl perform.
  - unfold plantCrop.
    destruct (grid s !! row); [|exact Hcredit].
    destruct (getCropById cropId) as [newCrop|]; [|exact Hcredit].
    destruct (String.eqb _ _); [exact Hcredit|].
    destruct (balance s <? plantingCost newCrop s) eqn:Hb; [exact Hcredit|].
    apply purchase_keeps_credit in Hb. balance_of_action; exact Hb.
  - unfold irrigateCell.
    destruct (gridCell _ _ _) as [cell|]; [|exact Hcredit].
    destruct (String.eqb _ _); [exact Hcredit|].
    destruct (irrigated cell); [exact Hcredit|].
    destruct (balance s <? irrigationCost s) eqn:Hb; [exact Hcredit|].
    apply purchase_keeps_credit in Hb. balance_of_action; exact Hb.
  - unfold fertilizeCell.
    destruct (gridCell _ _ _) as [cell|]; [|exact Hcredit].
    destruct (String.eqb _ _); [exact Hcredit|].
    destruct (fertilized cell); [exact Hcredit|].
    destruct (balance s <? fertilizeCost s) eqn:Hb; [exact Hcredit|].
    apply purchase_keeps_credit in Hb. balance_of_action; exact Hb.
  - unfold researchTechnology.
    destruct (List.find _ _) as [tech|]; [|exact Hcredit].
    destruct (researched tech); [exact Hcredit|].
    destruct (negb _); [exact Hcredit|].
    destruct (balance s <? tech_cost tech) eqn:Hb; [exact Hcredit|].
    apply purchase_keeps_credit in Hb. balance_of_action; exact Hb.
Qed.

(** ** Player actions: the grid *)

Lemma storeCell_shape row col cell (s : State) :
  map length (grid (storeCell row col cell s)) = map length (grid s).
Proof.
  unfold storeCell. destruct (grid s !! row) as [cells|] eqn:Hrow;
    [|reflexivity].
  simpl grid. unfold Grid in *.
  apply list_eq. intros i. rewrite !lookup_map.
  destruct (decide (i = row)) as [->|Hne].
  - rewrite list_lookup_insert_eq by (now apply lookup_lt_Some in Hrow).
    rewrite Hrow. simpl. now rewrite length_insert.
  - now rewrite list_lookup_insert_ne by congruence.
Qed.

Lemma storeCell_other row col cell (s : State) (r c : nat) :
  (r, c) <> (row, col) ->
  gridCell (grid (storeCell row col cell s)) r c = gridCell (grid s) r c.
Proof.
  intros Hne. unfold storeCell.
  destruct (grid s !! row) as [cells|] eqn:Hrow; [|reflexivity].
  simpl grid. unfold gridCell, Grid in *.
  destruct (decide (r = row)) as [->|Hr].
  - rewrite list_lookup_insert_eq by (now apply lookup_lt_Some in Hrow).
    rewrite Hrow. simpl.
    apply list_lookup_insert_ne. congruence.
  - now rewrite list_lookup_insert_ne by congruence.
Qed.


(** The grid that a call of an action leaves is the old one, or the old one
    with the target cell stored anew, or (research) the old one with the
    soil boosted. *)
Lemma perform_grid (a : Action) (s : State) :
  grid (stateOf (perform a s)) = grid s
  \/ (exists row col cell (s1 : State),
        targetOf a = Some (row, col) /\ grid s1 = grid s
        /\ grid (stateOf (perform a s)) = grid (storeCell row col cell s1))
  \/ (exists tech (s1 : State),
        targetOf a = None /\ grid s1 = grid s
        /\ grid (stateOf (perform a s))
           = grid (applyTechnologyEffects tech s1)).
Proof.
  destruct a as [row col cropId|row col|row col|row col|techId]; simpl perform.
  - unfold plantCrop.
    repeat (cbv beta iota zeta; try break_match); simpl stateOf;
      rewrite ?(addEvent_footprint grid) by ignore; try (now left).
    right. left. do 4 eexists. split; [reflexivity|]. split; [|reflexivity].
    reflexivity.
  - unfold irrigateCell.
    repeat (cbv beta iota zeta; try break_match); simpl stateOf;
      rewrite ?(addEvent_footprint grid) by ignore; try (now left);
      right; left; do 4 eexists; (split; [reflexivity|]);
      (split; [|reflexivity]); reflexivity.
  - unfold fertilizeCell.
    repeat (cbv beta iota zeta; try break_match); simpl stateOf;
      rewrite ?(addEvent_footprint grid) by ignore; try (now left).
    right. left. do 4 eexists. split; [reflexivity|]. split; [|reflexivity].
    reflexivity.
  - unfold harvestCell.
    repeat (cbv beta iota zeta; try break_match); simpl stateOf;
      rewrite ?(addEvent_footprint grid) by ignore; try (now left).
    right. left. do 4 eexists. split; [reflexivity|]. split; [|reflexivity].
    reflexivity.
  - unfold researchTechnology.
    repeat (cbv beta iota zeta; try break_match); simpl stateOf;
      rewrite ?(addEvent_footprint grid) by ignore; try (now left).
    right. right. do 2 eexists. split; [reflexivity|]. split; [|reflexivity].
    reflexivity.
Qed.

Lemma applyTechnologyEffects_shape tech (s : State) :
  map length (grid (applyTechnologyEffects tech s)) = map length (grid s).
Proof.
  unfold applyTechnologyEffects.
  destruct (effects tech !! "soilHealth") as [m|]; [|reflexivity].
  destruct (Qeq_bool m 0); [reflexivity|]. simpl grid.
  rewrite map_map. apply map_ext. intros cells. apply length_map.
Qed.

(** X13. Every player action, returned or thrown, keeps the number of rows
    of the grid and the length of each row; an action on a cell leaves all
    the other cells as they were. *)
Theorem actions_keep_the_grid (a : Action) (s : State) :
  map length (grid (stateOf (perform a s))) = map length (grid s)
  /\ forall row col r c,
       targetOf a = Some (row, col) -> (r, c) <> (row, col) ->
       gridCell (grid (stateOf (perform a s))) r c = gridCell (grid s) r c.
Proof.
  destruct (perform_grid a s)
    as [Hg | [(row & col & cell & s1 & Ht & H1 & Hg)
             | (tech & s1 & Ht & H1 & Hg)]];
    rewrite Hg.
  - split; [reflexivity|]. intros. reflexivity.
  - split.
    + now rewrite storeCell_shape, H1.
    + intros row' col' r c Ht' Hne. rewrite Ht in Ht'.
      injection Ht' as <- <-. now rewrite storeCell_other, H1.
  - split.
    + now rewrite applyTechnologyEffects_shape, H1.
    + intros row col r c Ht'. congruence.
Qed.

(** ** Player actions: errors *)

(** X14. An action on a cell of the grid returns; [researchTechnology]
    always returns. An action that throws has changed neither the grid nor
    the log, and it has changed the balance only in one case: [plantCrop]
    has already charged the planting cost when the cell turns out to be
    missing. *)
Theorem actions_throw_only_off_the_grid (a : Action) (s : State) :
  (match targetOf a with
   | Some (row, col) => is_Some (gridCell (grid s) row col)
   | None => True
   end ->
   exists result s', perform a s = Returned result s')
  /\ (forall s',
        perform a s = Threw s' ->
        grid s' = grid s /\ events s' = events s
        /\ (exists row col, targetOf a = Some (row, col)
                            /\ gridCell (grid s) row col = None)
        /\ (s' = s
            \/ exists row col cropId newCrop,
                 a = Plant row col cropId
                 /\ getCropById cropId = Some newCrop
                 /\ s' = set_balance (balance s - plantingCost newCrop s) s)).
Proof.
  destruct a as [row col cropId|row col|row col|row col|techId];
    simpl targetOf; simpl perform.
  - unfold plantCrop.
    destruct (grid s !! row) as [cells|] eqn:Hrow.
    + destruct (cells !! col) as [cell|] eqn:Hcol.
      * split.
        -- intros _.
           repeat (cbv beta iota zeta; try break_match); eauto.
        -- intros s'.
           repeat (cbv beta iota zeta; try break_match); discriminate.
      * assert (Hcell : gridCell (grid s) row col = None)
          by (unfold gridCell; now rewrite Hrow).
        split; [rewrite Hcell; intros [? ?]; discriminate|]. intros s'.
        destruct (getCropById cropId) as [newCrop|] eqn:Hcrop; [|discriminate].
        destruct (String.eqb _ _); [discriminate|].
        destruct (balance s <? _); [discriminate|].
        intros [= <-]. split; [reflexivity|]. split; [reflexivity|].
        split; [exists row, col; split; [reflexivity|exact Hcell]|].
        right. exists row, col, cropId, newCrop.
        split; [reflexivity|]. split; [exact Hcrop|reflexivity].
    + assert (Hcell : gridCell (grid s) row col = None)
        by (unfold gridCell; now rewrite Hrow).
      split; [rewrite Hcell; intros [? ?]; discriminate|]. intros s' [= <-].
      split; [reflexivity|]. split; [reflexivity|].
      split; [exists row, col; split; [reflexivity|exact Hcell]|]. now left.
  - unfold irrigateCell.
    destruct (gridCell (grid s) row col) as [cell|] eqn:Hcell.
    + split.
      * intros _. repeat (cbv beta iota zeta; try break_match); eauto.
      * intros s'. repeat (cbv beta iota zeta; try break_match); discriminate.
    + split; [intros [? ?]; discriminate|]. intros s' [= <-].
      split; [reflexivity|]. split; [reflexivity|].
      split; [exists row, col; split; [reflexivity|exact Hcell]|]. now left.
  - unfold fertilizeCell.
    destruct (gridCell (grid s) row col) as [cell|] eqn:Hcell.
    + split.
      * intros _. repeat (cbv beta iota zeta; try break_match); eauto.
      * intros s'. repeat (cbv beta iota zeta; try break_match); discriminate.
    + split; [intros [? ?]; discriminate|]. intros s' [= <-].
      split; [reflexivity|]. split; [reflexivity|].
      split; [exists row, col; split; [reflexivity|exact Hcell]|]. now left.
  - unfold harvestCell.
    destruct (gridCell (grid s) row col) as [cell|] eqn:Hcell.
    + split.
      * intros _. repeat (cbv beta iota zeta; try break_match); eauto.
      * intros s'. repeat (cbv beta iota zeta; try break_match); discriminate.
    + split; [intros [? ?]; discriminate|]. intros s' [= <-].
      split; [reflexivity|]. split; [reflexivity|].
      split; [exists row, col; split; [reflexivity|exact Hcell]|]. now left.
  - unfold researchTechnology. split.
    + intros _. repeat (cbv beta iota zeta; try break_match); eauto.
    + intros s'. repeat (cbv beta iota zeta; try break_match); discriminate.
Qed.

(** X15. [plantCrop] on a row of the grid but past its last cell, with a
    crop that exists and a balance that covers the cost, charges the cost
    and then throws: the money is gone and nothing is planted or logged. *)
Theorem planting_off_the_row_loses_the_cost
    (row col : nat) (cropId : string) (s : State) cells newCrop :
  grid s !! row = Some cells ->
  cells !! col = None ->
  getCropById cropId = Some newCrop ->
  crop_id newCrop <> "empty" ->
  plantingCost newCrop s <= balance s ->
  plantCrop row col cropId s
  = Threw (set_balance (balance s - plantingCost newCrop s) s).
Proof.
  intros Hrow Hcol Hcrop He Hb. unfold plantCrop. rewrite Hrow, Hcrop.
  destruct (String.eqb_spec (crop_id newCrop) "empty"); [contradiction|].
  assert (Hlt : (balance s <? plantingCost newCrop s) = false)
    by (apply Z.ltb_ge; lia).
  rewrite Hlt. simpl. now rewrite Hcol.
Qed.

(** ** Harvest *)


(** ** What a tick leaves alone *)

Lemma beforeEvents_footprint {A} (p : State -> A) (s : State) :
  ignores p set_day -> ignores p set_seasonDay -> ignores p set_season ->
  ignores p set_year -> ignores p set_balance -> ignores p set_events ->
  ignores p set_grid -> ignores p set_world -> ignores p set_marketPrices ->
  ignores p set_pendingEvents -> ignores p set_waterReserve ->
  ignores p set_overheadCostPerCell -> ignores p set_farmValue ->
  ignores p set_climate ->
  p (beforeEvents s) = p s.
Proof.
  intros Hd Hsd Hse Hy Hb He Hg Hw Hm Hp Hwr Ho Hf Hc. unfold beforeEvents.
  set (s2 := updateFarm _).
  assert (H2 : p s2 = p s).
  { unfold s2. rewrite updateFarm_footprint, payDailyOverhead_footprint
      by assumption. now rewrite Hsd, Hd. }
  clearbody s2.
  set (s4 := if 90 <? seasonDay s2 then _ else _).
  assert (H4 : p s4 = p s).
  { unfold s4. destruct (90 <? seasonDay s2); [|exact H2].
    rewrite advanceSeason_footprint by assumption. now rewrite Hse, Hsd. }
  clearbody s4. destruct (360 <? day s4); [|exact H4].
  rewrite advanceYear_footprint by assumption.
  unfold applyAnnualInflation. now rewrite Hc, Hf, Ho, Hy, Hd.
Qed.

Lemma settings_before_the_test_hook (s : State) :
  let s8 :=
    ambientEvent
      (set_farmHealth
         (calculateFarmHealth (grid (processPendingEvents (beforeEvents s)))
            (waterReserve (processPendingEvents (beforeEvents s))))
         (processPendingEvents (beforeEvents s))) in
  update s = (if testMode s8 then runTestUpdate s8 else s8)
  /\ settings s8 = settings s /\ paused s8 = paused s.
Proof.
  intros s8. split; [unfold update, s8, beforeEvents; reflexivity|].
  pose (p := fun s : State => (settings s, paused s)).
  assert (Hf : ignores p set_farmHealth) by ignore.
  assert (Hp : p s8 = p s).
  { unfold s8. rewrite (ambientEvent_footprint p) by ignore.
    rewrite (Hf _ _).
    rewrite (processPendingEvents_footprint p) by ignore.
    now rewrite (beforeEvents_footprint p) by ignore. }
  unfold p in Hp.
  now apply pair_equal_spec in Hp.
Qed.

(** X17. A tick never touches the technology registry, the grid size, the
    inflation rate or the test options. Outside test mode it leaves
    [paused] as it is. In test mode with [autoTerminate], a tick that ends
    in a year from [testEndYear] on, or with a balance of 0 or less, pauses
    the game, and the game loop then runs no further tick. *)
Theorem ticks_pause_only_for_test_termination (s : State) :
  settings (update s) = settings s
  /\ (testMode s = false -> paused (update s) = paused s)
  /\ (testMode s = true -> autoTerminate s = true ->
      testEndYear s <= year (update s) \/ balance (update s) <= 0 ->
      paused (update s) = true
      /\ forall intervalElapsed,
           gameLoop intervalElapsed (update s) = update s).
Proof.
  destruct (settings_before_the_test_hook s) as (Hu & Hs & Hp).
  cbv zeta in Hu, Hs, Hp. set (s8 := ambientEvent _) in *.
  assert (Hflags : testMode s8 = testMode s /\ autoTerminate s8 = autoTerminate s
                   /\ testEndYear s8 = testEndYear s).
  { unfold settings in Hs. injection Hs; intros; repeat split; assumption. }
  destruct Hflags as (Htm & Hat & Hty).
  rewrite Hu, Htm. split; [|split].
  - destruct (testMode s); [|exact Hs]. unfold runTestUpdate.
    now destruct (_ && _).
  - now intros ->.
  - intros -> Hauto Hend. unfold runTestUpdate in *.
    rewrite Hat, Hauto, Hty in *. simpl andb in *.
    destruct (testEndYear s <=? year s8) eqn:Ey.
    + simpl. split; [reflexivity|]. intros b. unfold gameLoop. reflexivity.
    + destruct (balance s8 <=? 0) eqn:Eb.
      * simpl. split; [reflexivity|]. intros b. unfold gameLoop. reflexivity.
      * simpl in Hend. apply Z.leb_gt in Ey, Eb. lia.
Qed.

(** ** What the resolution of the pending events adds and keeps *)

Lemma dispatchEvent_continuations (s : State) (event : Event) :
  Seeds (isContinuation (day s)) s (dispatchEvent s event).
Proof.
  unfold dispatchEvent, addEvent, pushPending.
  repeat (cbv beta iota zeta; try break_match);
    (eexists; split;
     [simpl; first [reflexivity | symmetry; apply app_nil_r]
     |first [apply List.Forall_nil
            |apply List.Forall_cons;
             [split; [reflexivity|first [left; reflexivity|right; reflexivity]]
             |apply List.Forall_nil]]]).
Qed.

Lemma dispatchEvents_continuations (l : list Event) (s : State) :
  Seeds (isContinuation (day s)) s (fold_left dispatchEvent l s).
Proof.
  revert s. induction l as [|e l IH]; intros s; simpl.
  - apply Seeds_refl.
  - eapply Seeds_trans; [apply dispatchEvent_continuations|].
    specialize (IH (dispatchEvent s e)).
    rewrite (dispatchEvent_footprint day) in IH by ignore. exact IH.
Qed.

(** X18. The resolution of the pending events keeps every event that is
    due on another day, and what is pending afterwards was pending before
    and is due on another day, or is the continuation of a drought or of a
    heatwave, due tomorrow: the resolution schedules nothing else. *)
Theorem resolution_keeps_other_days (s : State) :
  (forall c, In c (pendingEvents s) -> ev_day c <> day s ->
             In c (pendingEvents (processPendingEvents s)))
  /\ (forall c, In c (pendingEvents (processPendingEvents s)) ->
        (In c (pendingEvents s) /\ ev_day c <> day s)
        \/ isContinuation (day s) c).
Proof.
  split; [intros c; apply processPendingEvents_keeps|].
  intros c Hin. pose proof (processPendingEvents_clears s c Hin) as Hday.
  rewrite processPendingEvents_pending in Hin.
  apply filter_In in Hin as [Hin _].
  destruct (dispatchEvents_continuations (activeEvents s) s)
    as (seeded & Heq & Hall).
  rewrite Heq in Hin. apply in_app_or in Hin as [Hold | Hnew].
  - left. now split.
  - right. rewrite Forall_forall in Hall. apply Hall.
    now apply list_elem_of_In.
Qed.

(** X19. The ambient roll either leaves the pending events and the log as
    they are, or enqueues exactly one event and logs its message with its
    alert flag as the newest entry; it touches neither the clock, the
    balance, the grid nor the water reserve. *)
Theorem ambient_event_is_announced (s : State) :
  ((pendingEvents (ambientEvent s) = pendingEvents s
    /\ events (ambientEvent s) = events s)
   \/ exists e,
        pendingEvents (ambientEvent s) = pendingEvents s ++ [e]
        /\ head (events (ambientEvent s))
           = Some {| date := seasonName (season s) +:+ ", Year "
                             +:+ show_Z (year s);
                     message := ev_message e;
                     isAlert := ev_isAlert e |})
  /\ clock (ambientEvent s) = clock s
  /\ balance (ambientEvent s) = balance s
  /\ grid (ambientEvent s) = grid s
  /\ waterReserve (ambientEvent s) = waterReserve s.
Proof.
  split; [|repeat split; now rewrite ambientEvent_footprint by ignore].
  unfold ambientEvent, chance, nextRandom.
  destruct (random (world s)) as [r w]. cbv beta iota zeta.
  destruct (Q_ltb r 0.01); [|now left].
  destruct (generateRandomEvent _ _) as [[e|] w']; [|now left].
  right. exists e. split; [reflexivity|]. now rewrite addEvent_head.
Qed.

(** ** The farm update *)

Lemma updateRow_spec (row col : nat) (cells : list (Cell CellState))
    water techs (w : World) :
  length (updateRow row col cells water techs w).1.1 = length cells
  /\ Forall (fun pos => pos.1 = row /\ (col <= pos.2 < col + length cells)%nat)
       (updateRow row col cells water techs w).1.2.
Proof.
  revert col w. induction cells as [|cell cells IH]; intros col w; simpl.
  - split; [reflexivity|constructor].
  - destruct (cell_update cell water techs w) as [[result cell'] w1].
    specialize (IH (S col) w1).
    destruct (updateRow row (S col) cells water techs w1) as [[rest ready] w2].
    simpl in *. destruct IH as [Hlen Hall]. split; [now rewrite Hlen|].
    apply Forall_app. split.
    + destruct (String.eqb result "harvest-ready"); repeat constructor.
      simpl. lia.
    + eapply Forall_impl; [exact Hall|]. simpl. intros pos. lia.
Qed.

Lemma updateRows_spec (row : nat) (rows : list (list (Cell CellState)))
    water techs (w : World) :
  map length (updateRows row rows water techs w).1.1 = map length rows
  /\ Forall (fun pos =>
               (row <= pos.1)%nat
               /\ is_Some (gridCell (updateRows row rows water techs w).1.1
                             (pos.1 - row) pos.2))
       (updateRows row rows water techs w).1.2.
Proof.
  revert row w. induction rows as [|cells rows IH]; intros row w; simpl.
  - split; [reflexivity|constructor].
  - pose proof (updateRow_spec row 0 cells water techs w) as Hrow.
    destruct (updateRow row 0 cells water techs w) as [[cells' ready1] w1].
    specialize (IH (S row) w1).
    destruct (updateRows (S row) rows water techs w1) as [[rest ready2] w2].
    simpl in *. destruct Hrow as [Hlen Hall1]. destruct IH as [Hshape Hall2].
    split; [now rewrite Hlen, Hshape|].
    apply Forall_app. split.
    + eapply Forall_impl; [exact Hall1|]. simpl. intros [r c] [-> Hc].
      simpl in *. split; [lia|]. rewrite Nat.sub_diag. unfold gridCell.
      simpl. apply lookup_lt_is_Some. lia.
    + eapply Forall_impl; [exact Hall2|]. simpl. intros [r c] [Hr Hsome].
      simpl in *. split; [lia|].
      replace (r - row)%nat with (S (r - S row)) by lia. exact Hsome.
Qed.

Lemma updateFarm_grid (s : State) :
  grid (updateFarm s)
  = (updateRows 0 (grid s) (waterReserve s) (researchedTechs s) (world s)).1.1.
Proof.
  unfold updateFarm.
  destruct (updateRows _ _ _ _ _) as [[g ready] w]. simpl.
  rewrite fold_left_preserves; [reflexivity|].
  intros s' [row col]. unfold announceHarvest.
  destruct (gridCell _ _ _); [|reflexivity].
  now rewrite addEvent_footprint by ignore.
Qed.

(** X20. The farm update keeps the number of rows of the grid and the
    length of each row, and every position that it collects as
    harvest-ready is a cell of the updated grid, so that its notice can name
    the crop. Besides the grid it writes only the log. *)
Theorem farm_update_keeps_the_grid (s : State) :
  map length (grid (updateFarm s)) = map length (grid s)
  /\ Forall (fun pos => is_Some (gridCell (grid (updateFarm s)) pos.1 pos.2))
       (updateRows 0 (grid s) (waterReserve s) (researchedTechs s)
          (world s)).1.2
  /\ balance (updateFarm s) = balance s
  /\ waterReserve (updateFarm s) = waterReserve s
  /\ pendingEvents (updateFarm s) = pendingEvents s
  /\ clock (updateFarm s) = clock s.
Proof.
  rewrite updateFarm_grid.
  destruct (updateRows_spec 0 (grid s) (waterReserve s) (researchedTechs s)
              (world s)) as [Hshape Hall].
  split; [exact Hshape|]. split.
  - eapply Forall_impl; [exact Hall|]. simpl. intros pos [_ Hsome].
    now rewrite Nat.sub_0_r in Hsome.
  - repeat split; now rewrite updateFarm_footprint by ignore.
Qed.

(** ** The soil and diversity scores *)

Lemma tally_counts (cells : list (Cell CellState)) (t : Tally) :
  cellCount (fold_left tallyCell cells t)
  = cellCount t + Z.of_nat (length cells).
Proof.
  revert t. induction cells as [|cell cells IH]; intros t; simpl; [lia|].
  rewrite IH. unfold tallyCell. destruct (String.eqb _ _); simpl; lia.
Qed.

Lemma tally_soil (cells : list (Cell CellState)) (t : Tally) :
  Forall (fun cell => (0 <= soilHealth cell)%Q /\ (soilHealth cell <= 100)%Q)
    cells ->
  (totalSoilHealth t <= totalSoilHealth (fold_left tallyCell cells t))%Q
  /\ (totalSoilHealth (fold_left tallyCell cells t)
      <= totalSoilHealth t + 100 * inject_Z (Z.of_nat (length cells)))%Q.
Proof.
  intros Hall. revert t. induction Hall as [|cell cells [Hlo Hhi] _ IH];
    intros t.
  - simpl. split; [apply Qle_refl|].
    change (inject_Z (Z.of_nat 0)) with 0%Q. lra.
  - cbn [fold_left length]. destruct (IH (tallyCell t cell)) as [IH1 IH2].
    assert (Ht : totalSoilHealth (tallyCell t cell)
                 = (totalSoilHealth t + soilHealth cell)%Q).
    { unfold tallyCell. now destruct (String.eqb _ _). }
    rewrite Ht in IH1, IH2.
    rewrite Nat2Z.inj_succ, <- Z.add_1_r, inject_Z_plus.
    change (inject_Z 1) with 1%Q. split; lra.
Qed.

Lemma tally_unplanted (cells : list (Cell CellState)) (t : Tally) :
  Forall (fun cell => crop_id (crop cell) = "empty") cells ->
  totalCrops (fold_left tallyCell cells t) = totalCrops t.
Proof.
  intros Hall. revert t. induction Hall as [|cell cells He _ IH]; intros t;
    [reflexivity|].
  cbn [fold_left]. rewrite IH. unfold tallyCell. now rewrite He.
Qed.

Lemma Forall_concat {A} (P : A -> Prop) (ls : list (list A)) :
  Forall (Forall P) ls -> Forall P (concat ls).
Proof.
  induction 1 as [|l ls Hl _ IH]; simpl; [constructor|].
  apply Forall_app. now split.
Qed.

Lemma soilScore_bounds (s : State) :
  Forall (Forall (fun cell =>
                    (0 <= soilHealth cell)%Q /\ (soilHealth cell <= 100)%Q))
    (grid s) ->
  0 <= soilScore (calculateSustainabilityScore s) <= 100.
Proof.
  intros Hall. apply Forall_concat in Hall.
  unfold calculateSustainabilityScore. cbv zeta. cbn [soilScore].
  set (t0 := {| totalSoilHealth := 0; cellCount := 0; cropCounts := ∅;
                totalCrops := 0; monocropPenalty := 0 |}).
  pose proof (tally_counts (concat (grid s)) t0) as Hcount.
  destruct (tally_soil (concat (grid s)) t0 Hall) as [Hlo Hhi].
  set (t := fold_left tallyCell (concat (grid s)) t0) in *.
  cbn [cellCount totalSoilHealth t0] in Hcount, Hlo, Hhi.
  rewrite Z.add_0_l in Hcount. rewrite <- Hcount in Hhi.
  destruct (0 <? cellCount t) eqn:Epos.
  - apply Z.ltb_lt in Epos.
    assert (Hq : (0 < inject_Z (cellCount t))%Q)
      by (change 0%Q with (inject_Z 0); now rewrite <- Zlt_Qlt).
    split.
    + apply (js_round_le 0). apply Qle_shift_div_l; [exact Hq|]. lra.
    + apply (js_round_le _ 100). apply Qle_shift_div_r; [exact Hq|]. lra.
  - change (js_round 0) with 0. lia.
Qed.

(** X21. When every cell has a soil health between 0 and 100, the soil
    score is between 0 and 100; it is 0 for a grid without cells. *)
Theorem soil_score_is_a_percentage (s : State) :
  Forall (Forall (fun cell =>
                    (0 <= soilHealth cell)%Q /\ (soilHealth cell <= 100)%Q))
    (grid s) ->
  0 <= soilScore (calculateSustainabilityScore s) <= 100
  /\ (concat (grid s) = [] -> soilScore (calculateSustainabilityScore s) = 0).
Proof.
  intros Hall. split; [now apply soilScore_bounds|].
  intros Hempty. unfold calculateSustainabilityScore. cbv zeta.
  cbn [soilScore]. now rewrite Hempty.
Qed.

(** X22. A farm on which nothing is planted has the diversity score 0,
    whatever the crops table; with soil healths between 0 and 100 its total
    is then at most 43, so that its yearly subsidy comes from the lowest
    tier at best. *)
Theorem unplanted_farm_scores_low (s : State) :
  Forall (Forall (fun cell => crop_id (crop cell) = "empty")) (grid s) ->
  Forall (Forall (fun cell =>
                    (0 <= soilHealth cell)%Q /\ (soilHealth cell <= 100)%Q))
    (grid s) ->
  diversityScore (calculateSustainabilityScore s) = Finite 0
  /\ exists t,
       total (calculateSustainabilityScore s) = Finite t
       /\ t <= 43
       /\ subsidyTier (total (calculateSustainabilityScore s)) <= 1000.
Proof.
  intros Hunplanted Hsoil.
  pose proof (soilScore_bounds s Hsoil) as Hsoilscore.
  pose proof (computeTechScore_le_14 (researchedTechs s)) as Htech.
  apply Forall_concat in Hunplanted.
  assert (Hd : diversityScore (calculateSustainabilityScore s) = Finite 0).
  { unfold calculateSustainabilityScore. cbv zeta. cbn [diversityScore].
    rewrite (tally_unplanted _ _ Hunplanted). reflexivity. }
  assert (Ht : exists t, total (calculateSustainabilityScore s) = Finite t
                         /\ t <= 43).
  { unfold calculateSustainabilityScore in *. cbv zeta in *.
    cbn [soilScore diversityScore total] in *. rewrite Hd.
    eexists. split; [reflexivity|].
    set (soil := js_round _) in *. set (tech := computeTechScore _) in *.
    change 43 with (js_round (inject_Z 100 * 0.4 + inject_Z 0 * 0.4
                              + inject_Z 14 * 0.2)).
    apply js_round_le.
    assert (inject_Z soil <= inject_Z 100)%Q by (rewrite <- Zle_Qle; lia).
    assert (inject_Z tech <= inject_Z 14)%Q by (rewrite <- Zle_Qle; lia).
    lra. }
  destruct Ht as (t & Ht & Hle).
  split; [exact Hd|]. exists t. rewrite Ht.
  split; [reflexivity|]. split; [exact Hle|].
  unfold subsidyTier, score_ge.
  repeat match goal with
         | |- context [?k <=? ?x] => destruct (Z.leb_spec k x)
         end; lia.
Qed.

End Properties.

(** ** The properties on the sample game *)

Import Demo.

(** The generators of the sample [events.js] tag their events. *)
Lemma demo_generators_tagged : GeneratorsTagged.
Proof. repeat split. Qed.

(** C1: the sample game with all nine technologies researched scores 14
    where the specification gives 100. *)
Lemma techScore_of_all_nine_witness :
  techScore (calculateSustainabilityScore allResearched) = 14
  /\ specTechScore (researchedTechs allResearched) = 100.
Proof.
  destruct (techScore_of_all_nine allResearched) as (_ & _ & _ & H14 & H100 & _).
  - intros tech Hin. simpl in Hin.
    repeat (destruct Hin as [<-|Hin]; [reflexivity|]). contradiction.
  - split; assumption.
Defined.

(** C2, as stated, fails: planting a crop id that does not exist is a
    failing precondition, and the action returns false without logging any
    alert. *)
Lemma unknown_crop_is_rejected_without_alert :
  failingPrecondition (Plant 0 0 "pineapple") game = true
  /\ ~ RejectsWithAlert (Plant 0 0 "pineapple") game.
Proof.
  split; [reflexivity|].
  intros (s' & msg & Hperf & _ & _ & _ & _ & Hhead).
  assert (Hs : s' = game) by (vm_compute in Hperf; now injection Hperf).
  subst s'. vm_compute in Hhead. discriminate.
Qed.

(** C2, amended, on the sample game: irrigating an empty plot. *)
Lemma rejected_actions_witness :
  rejectionReason (Irrigate 0 0) game = Some IrrigateEmptyPlot
  /\ perform (Irrigate 0 0) game
     = Returned false (addEvent "Cannot irrigate an empty plot." true game)
  /\ exists s',
       perform (Irrigate 0 0) game = Returned false s'
       /\ balance s' = balance game
       /\ grid s' = grid game
       /\ researchedTechs s' = researchedTechs game
       /\ technologies s' = technologies game
       /\ head (events s')
          = Some (alertEntry "Cannot irrigate an empty plot." game).
Proof.
  destruct (rejected_actions (Irrigate 0 0) game eq_refl)
    as (reason & s' & Hreason & Hperform & Hb & Hg & Hr & Ht & Halert).
  injection Hreason as <-.
  destruct Halert as (msg & Hmsg & Hs' & Hhead). injection Hmsg as <-.
  split; [reflexivity|]. split; [now rewrite Hperform, Hs'|].
  exists s'. repeat split; assumption.
Defined.


(** The two mechanisms differ: an overhead of 10 never grows, since
    [round(10 * 1.03) = 10], while a cost of 10 computed afresh would be 24
    after thirty years. *)
Example overhead_of_10_never_grows :
  compoundedOverhead 30 0.03 10 = 10
  /\ js_round (10 * Qpower (1 + 0.03) 30) = 24.
Proof. split; reflexivity. Qed.

(** C4 on the sample game: the log of the last day of the year, newest
    entry first, lists the steps backwards. The overhead and the harvest
    notice are dated before the season changes, the season change before the
    year changes, and the resolved rain and the ambient event after both. *)
Example tick_order_trace :
  map (fun e => (date e, message e)) (events (update lastDay))
  = [("Spring, Year 2", "Market prices are shifting.");
     ("Spring, Year 2", "Rain replenished the water reserve.");
     ("Spring, Year 2",
      "Received a subsidy of $1000 for your sustainability efforts.");
     ("Spring, Year 2", "Happy New Year! Completed Year 1 of farming.");
     ("Spring, Year 1", "Spring rains replenished 10% of water reserves.");
     ("Spring, Year 1", "Season changed to Spring");
     ("Winter, Year 1", "Tomato at row 1, column 1 is ready for harvest!");
     ("Winter, Year 1", "You went into debt paying overhead: -$1000")].
Proof. vm_compute. reflexivity. Qed.

(** C5 on the sample game: both rollovers, the season alone, the year
    alone, and neither. *)
Example rollovers_are_independent :
  clock (update lastDay) = (1, 1, Spring, 2)
  /\ clock (update (set_seasonDay 90 game)) = (2, 1, Summer, 1)
  /\ clock (update (set_day 360 game)) = (1, 2, Spring, 2)
  /\ clock (update game) = (2, 2, Spring, 1).
Proof. repeat split; vm_compute; reflexivity. Qed.

(** C6 on the sample game: an event of an unknown type is dropped on its
    day and changes nothing. *)
Lemma pending_events_of_the_day_are_removed_witness :
  dispatchEvent meteorGame meteor = meteorGame
  /\ pendingEvents (processPendingEvents meteorGame) = []
  /\ events (processPendingEvents meteorGame) = [].
Proof.
  destruct (pending_events_of_the_day_are_removed meteorGame)
    as (_ & _ & Hdrop).
  split; [|split; reflexivity].
  apply Hdrop. simpl. intuition discriminate.
Defined.

(** C7, as stated, fails: the season change of the sample game from Summer
    to Fall seeds a heatwave. *)
Lemma fall_seeds_a_heatwave :
  GeneratorsTagged /\ ~ SeedingRespects seedAllowedSpec summerGame.
Proof.
  split; [exact demo_generators_tagged|].
  intros (seeded & Heq & Hall).
  vm_compute in Heq. subst seeded.
  inversion Hall as [|? ? _ Hrest]. inversion Hrest as [|? ? Hheat _].
  vm_compute in Hheat. discriminate.
Qed.

(** C7, amended, on the sample game. *)
Lemma seasonal_seeding_witness : SeedingRespects seedAllowed summerGame.
Proof. apply seasonal_seeding. repeat split. Defined.

(** C8, as stated, fails: the year change leaves the flood probability of
    the sample game at 0.03. *)
Lemma flood_probability_does_not_drift :
  ~ (floodProbability (climate game)
     < floodProbability (climate (advanceYear game)))%Q.
Proof. vm_compute. discriminate. Qed.

(** C9 on the sample game: the drought resolved on day 360 continues. *)
Lemma continuation_past_year_end_witness :
  exists c,
    pendingEvents (dispatchEvent yearEnd lateDrought)
    = pendingEvents yearEnd ++ [c]
    /\ ev_type c = ev_type lateDrought
    /\ ev_day c = 361
    /\ events (dispatchEvent yearEnd lateDrought)
       = events (addEvent "Drought is stressing the crops." true yearEnd)
    /\ forall s' n,
         In c (pendingEvents s') ->
         In c (pendingEvents (ticks n s'))
         /\ ~ In c (activeEvents (beforeEvents (ticks n s'))).
Proof.
  apply (continuation_past_year_end_is_stranded yearEnd lateDrought
           {| skipped := false; wr_waterReserve := Qmax 0 (60 - 5);
              wr_message := "Drought is stressing the crops.";
              continueEvent := true; nextDuration := 3 - 1;
              wr_severity := 1 |});
    reflexivity.
Defined.

(** The stranded continuation is still pending two years later. *)
Example stranded_after_two_years :
  In (droughtContinuation
        {| skipped := false; wr_waterReserve := 55;
           wr_message := ""; continueEvent := true; nextDuration := 2;
           wr_severity := 1 |} yearEnd)
     (pendingEvents (ticks 720 (update (set_day 359 yearEnd)))).
Proof. vm_compute. tauto. Qed.

(** C10 on the sample game: the drought of day 1 is skipped. *)
Lemma skipped_weather_witness :
  events (processPendingEvents protectedGame) = events protectedGame
  /\ pendingEvents (processPendingEvents protectedGame) = []
  /\ ~ In earlyDrought (pendingEvents (processPendingEvents protectedGame)).
Proof.
  destruct (skipped_weather_ends_silently protectedGame earlyDrought
              {| skipped := true; wr_waterReserve := Qmax 0 (60 - 5);
                 wr_message := "Drought is stressing the crops.";
                 continueEvent := true; nextDuration := 3 - 1;
                 wr_severity := 1 |})
    as (_ & Hgone & Hquiet); [reflexivity|reflexivity|].
  destruct Hquiet as (Hlog & Hpending & _); [reflexivity|].
  split; [exact Hlog|]. split; [exact Hpending|]. apply Hgone. reflexivity.
Defined.


(** ** The further properties on the sample game *)

(** The draws of [fairRuntime] lie in [0, 1). *)
Lemma fairRuntime_in_unit : RandomInUnit (H := fairRuntime).
Proof.
  intros [|r w]; simpl; [split; [apply Qle_refl|reflexivity]|].
  unfold inUnit, Q_ltb.
  destruct (Qle_bool 0 r) eqn:Hlo; simpl; [|split; [apply Qle_refl|reflexivity]].
  destruct (Qle_bool 1 r) eqn:Hhi; simpl; [split; [apply Qle_refl|reflexivity]|].
  split; [now apply Qle_bool_iff|].
  apply Qnot_le_lt. intros Hle. apply Qle_bool_iff in Hle. congruence.
Qed.

(** X4 on the sample game: the tick that ends year 1. *)
Lemma overhead_never_decreases_witness :
  overheadCostPerCell lastDay <= overheadCostPerCell (update lastDay)
  /\ annualInflationRate (update lastDay) = annualInflationRate lastDay.
Proof.
  apply (overhead_never_decreases lastDay); vm_compute; discriminate.
Defined.

(** X5 on the sample game, whose log is empty. *)
Lemma event_log_is_bounded_witness :
  (forall n, (length (events (ticks n game)) <= 20)%nat)
  /\ (forall a, (length (events (stateOf (perform a game))) <= 20)%nat).
Proof.
  destruct (event_log_is_bounded game) as (Hticks & Hactions & _).
  - simpl. lia.
  - split; assumption.
Defined.

(** X6 on the sample game: its score of 32 is in the lowest tier, and the
    draw 0.5 makes the subsidy 1000. *)
Lemma subsidy_bounds_witness :
  let score := calculateSustainabilityScore drawingGame in
  let paid := distributeSubsidy (H := fairRuntime) score drawingGame in
  subsidyTier (total score) = 1000
  /\ 2 * (balance paid - balance drawingGame) >= 1000
  /\ 2 * (balance paid - balance drawingGame) <= 3 * 1000
  /\ balance paid = 21000.
Proof.
  destruct (subsidy_bounds (Runtime0 := fairRuntime)
              (calculateSustainabilityScore drawingGame) drawingGame
              fairRuntime_in_unit)
    as (Hlo & Hhi & _).
  repeat split; [exact Hlo|exact Hhi].
Defined.

(** X7 on the sample game: Summer turns into Fall, and the draw 0.7 adds
    [floor(5 + 0.7 * 10) = 12] to the reserve of 60. *)
Lemma season_change_refills_water_witness :
  season (advanceSeason (H := fairRuntime) lateSummer) = Fall
  /\ waterReserve (advanceSeason (H := fairRuntime) lateSummer) = 72%Q
  /\ (exists k,
        recoveryRange Fall k
        /\ waterReserve (advanceSeason (H := fairRuntime) lateSummer)
           = Qmin 100 (waterReserve lateSummer + inject_Z k))
  /\ (waterReserve (advanceSeason (H := fairRuntime) lateSummer) <= 100)%Q
  /\ (waterReserve lateSummer
      <= waterReserve (advanceSeason (H := fairRuntime) lateSummer))%Q.
Proof.
  destruct (season_change_refills_water (Runtime0 := fairRuntime) lateSummer
              fairRuntime_in_unit)
    as (Hrange & Hcap & Hgrow).
  - vm_compute. discriminate.
  - split; [reflexivity|]. split; [reflexivity|].
    split; [exact Hrange|]. split; assumption.
Defined.

(** X8 on the sample game, whose crops are priced by the constructor. *)
Lemma fluctuation_keeps_prices_clamped_witness :
  exists p,
    marketPrices (fluctuateMarketPrices game) !! "tomato" = Some p
    /\ (0.5 <= p)%Q /\ (p <= 2)%Q.
Proof.
  destruct (fluctuation_keeps_prices_clamped game) as (Hclamped & _).
  - intros c Hin He. simpl in Hin.
    destruct Hin as [<-|[<-|[<-|[]]]];
      [now contradiction He|vm_compute; eauto..].
  - apply (Hclamped tomato); [simpl; tauto|discriminate].
Defined.

(** X9 for the sample collaborators. *)
Lemma new_game_is_well_formed_witness :
  let game : State World unit unit :=
    newGame (H := fairRuntime) options [0.5%Q; 0.25%Q] in
  length (grid game) = 10%nat
  /\ Forall (fun cells => length cells = 10%nat) (grid game)
  /\ clock game = (1, 1, Spring, 1)
  /\ balance game = 20000.
Proof.
  destruct (new_game_is_well_formed (Runtime0 := fairRuntime)
              (CellState := unit) (Payload := unit)
              options [0.5%Q; 0.25%Q] fairRuntime_in_unit)
    as (Hrows & Hcols & _ & Hclock & Hbalance & _).
  repeat split; assumption.
Defined.

(** X10 on the sample game: no-till farming costs 5000 and has no
    prerequisite. *)
Lemma research_happens_once_witness :
  let s' := stateOf (researchTechnology "no_till_farming" game) in
  hasTechnology "no_till_farming" s' = true
  /\ researchTechnology "no_till_farming" s' = Returned false s'.
Proof.
  destruct (research_happens_once "no_till_farming" game
              (stateOf (researchTechnology "no_till_farming" game)))
    as (_ & Hhas & Hagain); [reflexivity|].
  split; assumption.
Defined.

(** X12 on the sample game: planting a tomato. *)
Lemma purchases_never_overdraw_witness :
  0 <= balance (stateOf (perform (Plant 0 0 "tomato") game)).
Proof.
  apply (purchases_never_overdraw (Plant 0 0 "tomato") game);
    [reflexivity|vm_compute; discriminate].
Defined.

(** X15 on the sample game: column 10 is past the end of row 0. *)
Lemma planting_off_the_row_loses_the_cost_witness :
  plantCrop 0 10 "tomato" game
  = Threw (set_balance (balance game - plantingCost tomato game) game).
Proof.
  apply (planting_off_the_row_loses_the_cost 0 10 "tomato" game
           (default [] (grid game !! 0%nat)) tomato);
    try reflexivity; [discriminate|vm_compute; discriminate].
Defined.


(** The cells of the sample game are unplanted, with a soil health of 80. *)
Lemma game_is_unplanted :
  Forall (Forall (fun cell => crop_id (crop cell) = "empty")) (grid game).
Proof.
  vm_compute.
  repeat first [apply List.Forall_nil | apply List.Forall_cons | reflexivity].
Qed.

Lemma game_soil_in_range :
  Forall (Forall (fun cell : Cell unit =>
                    (0 <= soilHealth cell)%Q /\ (soilHealth cell <= 100)%Q))
    (grid game).
Proof.
  vm_compute.
  repeat first [apply List.Forall_nil | apply List.Forall_cons | split
               | discriminate].
Qed.

(** X21 on the sample game. *)
Lemma soil_score_is_a_percentage_witness :
  0 <= soilScore (calculateSustainabilityScore game) <= 100.
Proof.
  apply (soil_score_is_a_percentage game). exact game_soil_in_range.
Defined.

(** X22 on the sample game. *)
Lemma unplanted_farm_scores_low_witness :
  diversityScore (calculateSustainabilityScore game) = Finite 0
  /\ subsidyTier (total (calculateSustainabilityScore game)) <= 1000.
Proof.
  destruct (unplanted_farm_scores_low game game_is_unplanted
              game_soil_in_range)
    as (Hdiversity & t & _ & _ & Htier).
  split; assumption.
Defined.
